(** * pdjr-ais-reporter: the heartbeat reporter of [src/index.ts]

    A shallow embedding of the plugin's current implementation (the
    heartbeat-driven one: [makePluginConfiguration], [startReporting],
    [updateReportStatistics], [updateVector], [reportPosition],
    [reportStatic], [sendReportMsg] and the [/status] route), followed by
    the properties of the specification that were checked against it.

    Conventions of the embedding.
    - JavaScript numbers that the code uses as integers (tick counter,
      intervals, counts, byte totals, millisecond timestamps) are [Z];
      [a % b] is [Z.rem a b] (truncating, sign of the dividend).
    - A property that may be [undefined] is an [option]; a truthiness test
      is written out as a match (the empty string, [0] and [undefined] are
      falsy).
    - A thrown exception is the [Throw] constructor of [Result].
    - The UDP socket is the list of datagrams handed to [socket.send].
    - The AIS encoder (package ggencoder) and the extraction of the many
      descriptive vessel attributes are outside the plugin: they are
      section variables. *)

From Stdlib Require Import ZArith List String Bool Lia DecimalString.
Import ListNotations.
Open Scope string_scope.
Open Scope Z_scope.

Set Implicit Arguments.

(** ** Constants *)

Definition DEFAULT_MY_AIS_CLASS : string := "B".
Definition DEFAULT_POSITION_UPDATE_INTERVAL : Z := 5.
Definition DEFAULT_STATIC_DATA_UPDATE_INTERVAL : Z := 15.
Definition DEFAULT_EXPIRY_INTERVAL : Z := 15.

(** ** Exceptions *)

Inductive Result (A : Type) : Type :=
| Ok (a : A)
| Throw (message : string).
Arguments Ok {A} a.
Arguments Throw {A} message.

Definition bind {A B : Type} (c : Result A) (k : A -> Result B) : Result B :=
  match c with
  | Ok a => k a
  | Throw m => Throw m
  end.

Notation "x <- c ;; k" := (bind c (fun x => k))
  (at level 61, c at next level, right associativity).

(** ** Truthiness *)

(** [n] used as a condition: [undefined] and [0] are falsy. *)
Definition truthyNumber (n : option Z) : bool :=
  match n with
  | Some n => negb (n =? 0)
  | None => false
  end.

(** [n || 0] *)
Definition orZero (n : option Z) : Z :=
  match n with
  | Some n => n
  | None => 0
  end.

(** ** The user-supplied configuration *)

(** An update interval as the schema allows it: one interval or an array
    of intervals. *)
Inductive IntervalValue : Type :=
| Scalar (interval : Z)
| Sequence (intervals : list Z).

Module Raw.

(** The four properties that [getOption]/[getOptionArray] look up in an
    object; an absent property reads as [undefined]. *)
Record Props : Type := mkProps {
  expiryInterval : option Z;
  positionUpdateInterval : option IntervalValue;
  staticUpdateInterval : option IntervalValue;
  updateIntervalIndexPath : option string
}.

(** The object literal [{}]. *)
Definition empty : Props := mkProps None None None None.

(** One element of [options.endpoints]. *)
Record EndpointOption : Type := mkEndpointOption {
  name : option string;
  ipAddress : option string;
  port : option Z;
  props : Props;                  (* the option object's own properties *)
  myVessel : option Props;
  otherVessels : option Props
}.

(** The [options] object handed to [start]. *)
Record Options : Type := mkOptions {
  globalProps : Props;            (* the options object's own properties *)
  globalMyVessel : option Props;
  globalOtherVessels : option Props;
  endpoints : list EndpointOption
}.

(** [o || {}] *)
Definition orEmpty (o : option Props) : Props :=
  match o with
  | Some p => p
  | None => empty
  end.

End Raw.

(** ** The canonical configuration *)

Record VesselClassConfig : Type := mkVesselClassConfig {
  expiryInterval : Z;
  positionUpdateIntervals : list Z;
  staticUpdateIntervals : list Z;
  updateIntervalIndexPath : option string
}.

Record ReportTypeStatistics : Type := mkReportTypeStatistics {
  lastReportTimestamp : option Z;
  totalBytesTransmitted : Z;
  bytesTransmittedInLastHour : list Z;
  bytesTransmittedInLastDay : list Z;
  totalReportsTransmitted : Z;
  reportsTransmittedInLastHour : list Z;
  reportsTransmittedInLastDay : list Z
}.

Record Statistics : Type := mkStatistics {
  started : Z;
  endpointTotalBytesTransmitted : Z;   (* statistics.totalBytesTransmitted *)
  position : ReportTypeStatistics;     (* statistics.position *)
  static : ReportTypeStatistics        (* statistics.static *)
}.

Record Endpoint : Type := mkEndpoint {
  name : string;
  ipAddress : string;
  port : Z;
  myVessel : VesselClassConfig;
  otherVessels : VesselClassConfig;
  statistics : Statistics
}.

Record PluginConfiguration : Type := mkPluginConfiguration {
  myMMSI : option string;
  myAisClass : string;
  endpoints : list Endpoint
}.

(** What [makePluginConfiguration] reads from the host application. *)
Record App : Type := mkApp {
  selfMmsi : option string;            (* app.getSelfPath('mmsi') *)
  selfAisClass : option string         (* app.getSelfPath('sensors.ais.class.value') *)
}.

(** ** makePluginConfiguration *)

(** The [objects] argument of [getOption] and [getOptionArray] is an array
    literal; [None] is an empty slot of the literal, which reads as
    [undefined], so that looking a property up in it throws a TypeError. *)
Definition Objects : Type := list (option Raw.Props).

Definition typeError : string :=
  "Cannot read properties of undefined".

Fixpoint getOption {A : Type} (objects : Objects)
    (name : Raw.Props -> option A) (fallback : A) : Result A :=
  match objects with
  | [] => Ok fallback
  | None :: _ => Throw typeError
  | Some o :: rest =>
      match name o with
      | Some v => Ok v
      | None => getOption rest name fallback
      end
  end.

(** [(Array.isArray(v)) ? v : [v]] *)
Definition asArray (v : IntervalValue) : list Z :=
  match v with
  | Scalar i => [i]
  | Sequence l => l
  end.

Fixpoint getOptionArray (objects : Objects)
    (name : Raw.Props -> option IntervalValue) (fallback : list Z)
    : Result (list Z) :=
  match objects with
  | [] => Ok fallback
  | None :: _ => Throw typeError
  | Some o :: rest =>
      match name o with
      | Some v => Ok (asArray v)
      | None => getOptionArray rest name fallback
      end
  end.

(** [(new Array(n)).fill(0)] *)
Definition zeroVector (n : nat) : list Z := repeat 0 n.

Definition initialReportTypeStatistics : ReportTypeStatistics :=
  {| lastReportTimestamp := None;
     totalBytesTransmitted := 0;
     bytesTransmittedInLastHour := zeroVector 60;
     bytesTransmittedInLastDay := zeroVector 24;
     totalReportsTransmitted := 0;
     reportsTransmittedInLastHour := zeroVector 60;
     reportsTransmittedInLastDay := zeroVector 24 |}.

Definition initialStatistics (now : Z) : Statistics :=
  {| started := now;
     endpointTotalBytesTransmitted := 0;
     position := initialReportTypeStatistics;
     static := initialReportTypeStatistics |}.

(** The property name [updateIntervalIndexPath], whose fallback is
    [undefined]: a found value is a string. *)
Definition indexPathProp (o : Raw.Props) : option (option string) :=
  match Raw.updateIntervalIndexPath o with
  | Some s => Some (Some s)
  | None => None
  end.

(** The four object lists of the source.  The third literal of the
    [myVessel] block (static intervals) is written
    [[(option.myVessel || {}), option, (options.myVessel || {}), , options]]
    in the source: it has an empty slot before [options]. *)
Definition myVesselObjects (options : Raw.Options)
    (opt : Raw.EndpointOption) : Objects :=
  [ Some (Raw.orEmpty (Raw.myVessel opt)); Some (Raw.props opt);
    Some (Raw.orEmpty (Raw.globalMyVessel options));
    Some (Raw.globalProps options) ].

Definition myVesselStaticObjects (options : Raw.Options)
    (opt : Raw.EndpointOption) : Objects :=
  [ Some (Raw.orEmpty (Raw.myVessel opt)); Some (Raw.props opt);
    Some (Raw.orEmpty (Raw.globalMyVessel options));
    None;
    Some (Raw.globalProps options) ].

Definition otherVesselsObjects (options : Raw.Options)
    (opt : Raw.EndpointOption) : Objects :=
  [ Some (Raw.orEmpty (Raw.otherVessels opt)); Some (Raw.props opt);
    Some (Raw.orEmpty (Raw.globalOtherVessels options));
    Some (Raw.globalProps options) ].

(** The body of [options.endpoints.forEach((option) => ...)]. *)
Definition makeEndpoint (now : Z) (options : Raw.Options)
    (opt : Raw.EndpointOption) : Result Endpoint :=
  match Raw.ipAddress opt with
  | Some (String c s) =>
      match Raw.port opt with
      | Some p =>
          if p =? 0 then Throw "endpoint has missing 'port' property" else
          mvE <- getOption (myVesselObjects options opt)
                   Raw.expiryInterval DEFAULT_EXPIRY_INTERVAL ;;
          mvP <- getOptionArray (myVesselObjects options opt)
                   Raw.positionUpdateInterval [DEFAULT_POSITION_UPDATE_INTERVAL] ;;
          mvS <- getOptionArray (myVesselStaticObjects options opt)
                   Raw.staticUpdateInterval [DEFAULT_STATIC_DATA_UPDATE_INTERVAL] ;;
          mvI <- getOption (myVesselObjects options opt) indexPathProp None ;;
          ovE <- getOption (otherVesselsObjects options opt)
                   Raw.expiryInterval DEFAULT_EXPIRY_INTERVAL ;;
          ovP <- getOptionArray (otherVesselsObjects options opt)
                   Raw.positionUpdateInterval [DEFAULT_POSITION_UPDATE_INTERVAL] ;;
          ovS <- getOptionArray (otherVesselsObjects options opt)
                   Raw.staticUpdateInterval [DEFAULT_STATIC_DATA_UPDATE_INTERVAL] ;;
          ovI <- getOption (otherVesselsObjects options opt) indexPathProp None ;;
          Ok {| name := match Raw.name opt with        (* option.name || option.ipAddress *)
                        | Some (String a b) => String a b
                        | _ => String c s
                        end;
                ipAddress := String c s;
                port := p;
                myVessel := mkVesselClassConfig mvE mvP mvS mvI;
                otherVessels := mkVesselClassConfig ovE ovP ovS ovI;
                statistics := initialStatistics now |}
      | None => Throw "endpoint has missing 'port' property"
      end
  | _ => Throw "endpoint has missing 'ipAddress' property"
  end.

(** [options.endpoints.forEach] pushing each endpoint; the first exception
    leaves the loop. *)
Fixpoint makeEndpoints (now : Z) (options : Raw.Options)
    (opts : list Raw.EndpointOption) : Result (list Endpoint) :=
  match opts with
  | [] => Ok []
  | opt :: rest =>
      e <- makeEndpoint now options opt ;;
      es <- makeEndpoints now options rest ;;
      Ok (e :: es)
  end.

Definition makePluginConfiguration (app : App) (now : Z)
    (options : Raw.Options) : Result PluginConfiguration :=
  es <- makeEndpoints now options (Raw.endpoints options) ;;
  Ok {| myMMSI := selfMmsi app;
        myAisClass :=
          match selfAisClass app with
          | Some (String a b) => String a b
          | _ => DEFAULT_MY_AIS_CLASS
          end;
        endpoints := es |}.

(** ** Reports and their statistics *)

Record Counts : Type := mkCounts {
  count : Z;
  bytes : Z
}.

(** The [reportStatistics] object that a generator returns. *)
Record ReportStatistics : Type := mkReportStatistics {
  myVesselCounts : Counts;             (* reportStatistics.myVessel *)
  otherVesselsCounts : Counts          (* reportStatistics.otherVessels *)
}.

Definition noReports : ReportStatistics :=
  mkReportStatistics (mkCounts 0 0) (mkCounts 0 0).

(** One call of [socket.send(msg + '\n', 0, msg.length + 1, port, ipAddress)]. *)
Record Datagram : Type := mkDatagram {
  payload : string;
  payloadLength : Z;
  toPort : Z;
  toAddress : string
}.

Definition Socket : Type := list Datagram.

Definition LF : string := String (Ascii.ascii_of_nat 10) EmptyString.

(** The datagram that [sendReportMsg] hands to the socket. *)
Definition datagram (msg : string) (endpoint : Endpoint) : Datagram :=
  {| payload := (msg ++ LF)%string;
     payloadLength := Z.of_nat (String.length msg) + 1;
     toPort := port endpoint;
     toAddress := ipAddress endpoint |}.

Definition sendReportMsg (socket : Socket) (msg : string) (endpoint : Endpoint)
    : Socket * Z :=
  ((socket ++ [datagram msg endpoint])%list,
   Z.of_nat (String.length msg) + 1).

(** ** updateVector and updateReportStatistics *)

(** [vector[0] += value].  Every vector of the plugin is created with 60
    or 24 slots and [updateVector] keeps that length ([updateVector_length]
    below), so slot 0 exists; on an empty array JavaScript would store NaN,
    which [Z] cannot hold, and the model leaves the empty list as it is. *)
Definition addToSlot0 (vector : list Z) (value : Z) : list Z :=
  match vector with
  | [] => []
  | x :: rest => (x + value) :: rest
  end.

(** [vector.slice(0, e)]: a negative end counts from the end of the array. *)
Definition slice0 (vector : list Z) (e : Z) : list Z :=
  if e <? 0
  then firstn (List.length vector - Z.to_nat (- e))%nat vector
  else firstn (Z.to_nat e) vector.

(** [if ((heartbeat) && (heartbeat % rollover) == 0)]: the first conjunct is
    the truthiness of the counter, false at [0]. *)
Definition rolls (rollover heartbeat : Z) : bool :=
  negb (heartbeat =? 0) && (Z.rem heartbeat rollover =? 0).

Definition updateVector (vector : list Z) (rollover heartbeat value : Z)
    : list Z :=
  let vector' := addToSlot0 vector value in
  if rolls rollover heartbeat
  then 0 :: slice0 vector' (rollover - 1)      (* slice, then unshift(0) *)
  else vector'.

Definition updateReportStatistics (now heartbeatCount : Z)
    (endpointReportStatistics : ReportTypeStatistics)
    (reportStatistics : ReportStatistics) : ReportTypeStatistics :=
  let counts := count (myVesselCounts reportStatistics)
                + count (otherVesselsCounts reportStatistics) in
  let octets := bytes (myVesselCounts reportStatistics)
                + bytes (otherVesselsCounts reportStatistics) in
  {| lastReportTimestamp := Some now;
     totalReportsTransmitted :=
       totalReportsTransmitted endpointReportStatistics + counts;
     totalBytesTransmitted :=
       totalBytesTransmitted endpointReportStatistics + octets;
     reportsTransmittedInLastHour :=
       updateVector (reportsTransmittedInLastHour endpointReportStatistics)
                    60 heartbeatCount counts;
     bytesTransmittedInLastHour :=
       updateVector (bytesTransmittedInLastHour endpointReportStatistics)
                    60 heartbeatCount octets;
     reportsTransmittedInLastDay :=
       updateVector (reportsTransmittedInLastDay endpointReportStatistics)
                    24 heartbeatCount counts;
     bytesTransmittedInLastDay :=
       updateVector (bytesTransmittedInLastDay endpointReportStatistics)
                    24 heartbeatCount octets |}.

(** ** Interval selection and firing *)

(** [_.get(endpoint, `<class>.<kind>UpdateIntervals[${idx}]`, 0)]: the
    element at [idx], and the default [0] when there is none. *)
Definition intervalAt (intervals : list Z) (idx : Z) : Z :=
  if idx <? 0 then 0 else nth (Z.to_nat idx) intervals 0.

(** [(i !== 0) && ((heartbeatCount % i) === 0)], one disjunct of the
    condition that guards a generator call. *)
Definition due (heartbeatCount interval : Z) : bool :=
  negb (interval =? 0) && (Z.rem heartbeatCount interval =? 0).

(** [(i === 0) ? false : ((heartbeatCount % i) === 0)], the flag handed to
    the generator for one vessel class. *)
Definition fires (heartbeatCount interval : Z) : bool :=
  if interval =? 0 then false else Z.rem heartbeatCount interval =? 0.

(** ** Vessels, the encoder and the report generators *)

Section Reporter.

(** The encoder input other than [mmsi], [aistype], [part] and [own]:
    the attribute values that the generators copy out of a vessel record
    (course, speed, position, dimensions, name, ...). *)
Variable Fields : Type.

(** A vessel record of [app.getPath('vessels')], as far as the reporter
    looks at it.
    - [positionTimestamp]: [navigation.position.timestamp] as
      milliseconds since the epoch ([new Date(...).getTime()]); [None]
      when the property is absent or empty, and also when it does not
      parse (NaN compares false with everything, as absence does).
    - [positionFields], [staticFields]: the attribute values gathered
      for a position and for a static report; [None] when gathering them
      throws ([navigation.position.value] absent, [toFixed] applied to a
      value that is not a number). *)
Record Vessel : Type := mkVessel {
  mmsi : option string;
  positionTimestamp : option Z;
  aisClassValue : option string;       (* sensors.ais.class.value *)
  positionFields : option Fields;
  staticFields : option Fields
}.

Record AisProperties : Type := mkAisProperties {
  aisMmsi : option string;
  aistype : Z;
  part : option Z;
  own : option Z;
  fields : Fields
}.

(** [new AisEncode(aisProperties)]: [Some nmea] when the message is valid,
    that is when [(msg) && (msg.valid)] holds. *)
Variable AisEncode : AisProperties -> option string.

(** What one heartbeat reads from the host: the vessels, the clock and
    the values found under the index paths.  The clock is read once per
    heartbeat; the source calls [Date.now()] again for every comparison
    and every update, within the same run of the callback. *)
Record Tick : Type := mkTick {
  vessels : list Vessel;
  now : Z;
  selfPathValue : string -> option Z   (* app.getSelfPath *)
}.

(** [a == b] on values that are a string or [undefined]. *)
Definition looseEq (a b : option string) : bool :=
  match a, b with
  | Some x, Some y => String.eqb x y
  | None, None => true
  | _, _ => false
  end.

Definition isSelf (cfg : PluginConfiguration) (vessel : Vessel) : bool :=
  looseEq (mmsi vessel) (myMMSI cfg).

(** The first [filter] of both generators. *)
Definition classReported (cfg : PluginConfiguration)
    (reportSelf reportOthers : bool) (vessel : Vessel) : bool :=
  (reportSelf && isSelf cfg vessel)
  || (reportOthers && negb (isSelf cfg vessel)).

(** [_.get(vessel, 'navigation.position.timestamp', false)
     && new Date(...).getTime() > bound] *)
Definition fixNewerThan (vessel : Vessel) (bound : Z) : bool :=
  match positionTimestamp vessel with
  | Some t => t >? bound
  | None => false
  end.

(** The second [filter] of both generators. *)
Definition fixFresh (endpoint : Endpoint) (now : Z)
    (reportSelf reportOthers : bool) (vessel : Vessel) : bool :=
  (reportSelf
   && fixNewerThan vessel (now - expiryInterval (myVessel endpoint) * 6000))
  || (reportOthers
      && fixNewerThan vessel
           (now - expiryInterval (otherVessels endpoint) * 60000)).

(** The vessels that reach the [forEach] of a generator. *)
Definition candidates (cfg : PluginConfiguration) (endpoint : Endpoint)
    (tick : Tick) (reportSelf reportOthers : bool) : list Vessel :=
  filter (fixFresh endpoint (now tick) reportSelf reportOthers)
    (filter (classReported cfg reportSelf reportOthers) (vessels tick)).

(** A vessel passes both filters. *)
Definition isEligible (cfg : PluginConfiguration) (endpoint : Endpoint)
    (now : Z) (reportSelf reportOthers : bool) (vessel : Vessel) : bool :=
  classReported cfg reportSelf reportOthers vessel
  && fixFresh endpoint now reportSelf reportOthers vessel.

(** [aisClass] of a vessel. *)
Definition aisClassOf (cfg : PluginConfiguration) (vessel : Vessel)
    : string :=
  if isSelf cfg vessel then myAisClass cfg
  else match aisClassValue vessel with
       | Some c => c
       | None => DEFAULT_MY_AIS_CLASS
       end.

Definition addReport (c : Counts) (bytesTransmitted : Z) : Counts :=
  {| count := count c + 1; bytes := bytes c + bytesTransmitted |}.

(** The [if ((reportSelf) && (vessel.mmsi == myMMSI)) ... else ...] that
    follows every successful transmission. *)
Definition account (cfg : PluginConfiguration) (reportSelf : bool)
    (vessel : Vessel) (bytesTransmitted : Z)
    (reportStatistics : ReportStatistics) : ReportStatistics :=
  if reportSelf && isSelf cfg vessel
  then {| myVesselCounts :=
            addReport (myVesselCounts reportStatistics) bytesTransmitted;
          otherVesselsCounts := otherVesselsCounts reportStatistics |}
  else {| myVesselCounts := myVesselCounts reportStatistics;
          otherVesselsCounts :=
            addReport (otherVesselsCounts reportStatistics) bytesTransmitted |}.

(** The state a generator's [forEach] works on. *)
Definition Progress : Type := (Socket * ReportStatistics)%type.

(** The [aisProperties] of a position report. *)
Definition positionProperties (cfg : PluginConfiguration) (vessel : Vessel)
    (f : Fields) : AisProperties :=
  {| aisMmsi := mmsi vessel;
     aistype := if String.eqb (aisClassOf cfg vessel) "A" then 1 else 18;
     part := None;
     own := Some (if looseEq (myMMSI cfg) (mmsi vessel) then 1 else 0);
     fields := f |}.

(** The [aisProperties] of a static report of type [t] (5 or 24), with
    [part] set for type 24. *)
Definition staticProperties (vessel : Vessel) (t : Z) (p : option Z)
    (f : Fields) : AisProperties :=
  {| aisMmsi := mmsi vessel; aistype := t; part := p;
     own := None; fields := f |}.

(** The body of the [forEach] of [reportPosition]; every exception is
    caught by the body's own [try], which leaves the state as it was. *)
Definition positionReport (cfg : PluginConfiguration) (endpoint : Endpoint)
    (reportSelf : bool) (st : Progress) (vessel : Vessel) : Progress :=
  match positionFields vessel with
  | None => st
  | Some f =>
      match AisEncode (positionProperties cfg vessel f) with
      | Some nmea =>
          let (socket', bytesTransmitted) :=
            sendReportMsg (fst st) nmea endpoint in
          (socket', account cfg reportSelf vessel bytesTransmitted (snd st))
      | None => st                    (* throw new Error('AIS encode failed') *)
      end
  end.

Definition reportPosition (cfg : PluginConfiguration) (socket : Socket)
    (endpoint : Endpoint) (tick : Tick) (reportSelf reportOthers : bool)
    : Progress :=
  fold_left (positionReport cfg endpoint reportSelf)
    (candidates cfg endpoint tick reportSelf reportOthers)
    (socket, noReports).

(** The body of the [forEach] of [reportStatic]. *)
Definition staticReport (cfg : PluginConfiguration) (endpoint : Endpoint)
    (reportSelf : bool) (st : Progress) (vessel : Vessel) : Progress :=
  match staticFields vessel with
  | None => st
  | Some f =>
      let aisClass := aisClassOf cfg vessel in
      if String.eqb aisClass "A" then
        match AisEncode (staticProperties vessel 5 None f) with
        | Some nmea =>
            let (socket', bytesTransmitted) :=
              sendReportMsg (fst st) nmea endpoint in
            (socket', account cfg reportSelf vessel bytesTransmitted (snd st))
        | None => st                  (* throw new Error('AIS encode failed') *)
        end
      else if String.eqb aisClass "B" then
        match AisEncode (staticProperties vessel 24 (Some 0) f) with
        | Some nmea =>
            match AisEncode (staticProperties vessel 24 (Some 1) f) with
            | Some nmeaB =>
                let (socket', bytesTransmitted) :=
                  sendReportMsg (fst st) nmea endpoint in
                let (socket'', bytesTransmittedB) :=
                  sendReportMsg socket' nmeaB endpoint in
                (socket'',
                 account cfg reportSelf vessel
                   (bytesTransmitted + bytesTransmittedB) (snd st))
            | None => st              (* 'AIS Part B encode failed' *)
            end
        | None => st                  (* 'AIS Part A encode failed' *)
        end
      else st                         (* default: break *)
  end.

Definition reportStatic (cfg : PluginConfiguration) (socket : Socket)
    (endpoint : Endpoint) (tick : Tick) (reportSelf reportOthers : bool)
    : Progress :=
  fold_left (staticReport cfg endpoint reportSelf)
    (candidates cfg endpoint tick reportSelf reportOthers)
    (socket, noReports).

(** ** The heartbeat *)

(** [(path) ? (app.getSelfPath(`${path}.value`) || 0) : 0] *)
Definition intervalIndex (tick : Tick) (path : option string) : Z :=
  match path with
  | Some (String a b) =>
      orZero (selfPathValue tick (String a b ++ ".value")%string)
  | _ => 0
  end.

Inductive VesselClass : Type := Self | Others.
Inductive ReportType : Type := Position | Static.

Definition classConfig (endpoint : Endpoint) (c : VesselClass)
    : VesselClassConfig :=
  match c with
  | Self => myVessel endpoint
  | Others => otherVessels endpoint
  end.

Definition intervalsOf (vc : VesselClassConfig) (r : ReportType) : list Z :=
  match r with
  | Position => positionUpdateIntervals vc
  | Static => staticUpdateIntervals vc
  end.

(** [mvPUI], [mvSUI], [ovPUI] and [ovSUI] of the heartbeat callback. *)
Definition resolvedInterval (tick : Tick) (endpoint : Endpoint)
    (c : VesselClass) (r : ReportType) : Z :=
  intervalAt (intervalsOf (classConfig endpoint c) r)
    (intervalIndex tick (updateIntervalIndexPath (classConfig endpoint c))).

(** The flag that the heartbeat hands to the generator of report type
    [r] for vessel class [c]. *)
Definition reportFlag (tick : Tick) (endpoint : Endpoint)
    (heartbeatCount : Z) (c : VesselClass) (r : ReportType) : bool :=
  fires heartbeatCount (resolvedInterval tick endpoint c r).

Definition withPosition (s : Statistics) (p : ReportTypeStatistics)
    : Statistics :=
  {| started := started s;
     endpointTotalBytesTransmitted := endpointTotalBytesTransmitted s;
     position := p;
     static := static s |}.

Definition withStatic (s : Statistics) (p : ReportTypeStatistics)
    : Statistics :=
  {| started := started s;
     endpointTotalBytesTransmitted := endpointTotalBytesTransmitted s;
     position := position s;
     static := p |}.

Definition withStatistics (e : Endpoint) (s : Statistics) : Endpoint :=
  {| name := name e; ipAddress := ipAddress e; port := port e;
     myVessel := myVessel e; otherVessels := otherVessels e;
     statistics := s |}.

(** The body of [pluginConfiguration.endpoints.forEach] in the heartbeat
    callback.  The local [totalBytes] is computed and then dropped, as in
    the source. *)
Definition reportEndpoint (cfg : PluginConfiguration) (tick : Tick)
    (heartbeatCount : Z) (socket : Socket) (endpoint : Endpoint)
    : Socket * Endpoint :=
  let mvPUI := resolvedInterval tick endpoint Self Position in
  let mvSUI := resolvedInterval tick endpoint Self Static in
  let ovPUI := resolvedInterval tick endpoint Others Position in
  let ovSUI := resolvedInterval tick endpoint Others Static in
  let '(socket1, statistics1, totalBytes1) :=
    if due heartbeatCount mvPUI || due heartbeatCount ovPUI then
      let (socket', reportStatistics) :=
        reportPosition cfg socket endpoint tick
          (fires heartbeatCount mvPUI) (fires heartbeatCount ovPUI) in
      (socket',
       withPosition (statistics endpoint)
         (updateReportStatistics (now tick) heartbeatCount
            (position (statistics endpoint)) reportStatistics),
       bytes (myVesselCounts reportStatistics)
       + bytes (otherVesselsCounts reportStatistics))
    else (socket, statistics endpoint, 0) in
  let '(socket2, statistics2, totalBytes2) :=
    if due heartbeatCount mvSUI || due heartbeatCount ovSUI then
      let (socket', reportStatistics) :=
        reportStatic cfg socket1 endpoint tick
          (fires heartbeatCount mvSUI) (fires heartbeatCount ovSUI) in
      (socket',
       withStatic statistics1
         (updateReportStatistics (now tick) heartbeatCount
            (static statistics1) reportStatistics),
       totalBytes1
       + (bytes (myVesselCounts reportStatistics)
          + bytes (otherVesselsCounts reportStatistics)))
    else (socket1, statistics1, totalBytes1) in
  (socket2, withStatistics endpoint statistics2).

Fixpoint reportEndpoints (cfg : PluginConfiguration) (tick : Tick)
    (heartbeatCount : Z) (socket : Socket) (es : list Endpoint)
    : Socket * list Endpoint :=
  match es with
  | [] => (socket, [])
  | e :: rest =>
      let (socket', e') := reportEndpoint cfg tick heartbeatCount socket e in
      let (socket'', rest') :=
        reportEndpoints cfg tick heartbeatCount socket' rest in
      (socket'', e' :: rest')
  end.

(** The plugin while reporting: the configuration with the endpoints'
    statistics, the socket and the tick counter. *)
Record Plugin : Type := mkPlugin {
  pluginConfiguration : PluginConfiguration;
  udpSocket : Socket;
  heartbeatCount : Z
}.

Definition started_plugin (cfg : PluginConfiguration) : Plugin :=
  {| pluginConfiguration := cfg; udpSocket := []; heartbeatCount := 0 |}.

(** One run of the [setInterval] callback of [startReporting]. *)
Definition heartbeat (p : Plugin) (tick : Tick) : Plugin :=
  let cfg := pluginConfiguration p in
  let (socket', es') :=
    reportEndpoints cfg tick (heartbeatCount p) (udpSocket p) (endpoints cfg) in
  {| pluginConfiguration :=
       {| myMMSI := myMMSI cfg; myAisClass := myAisClass cfg;
          endpoints := es' |};
     udpSocket := socket';
     heartbeatCount := heartbeatCount p + 1 |}.

(** The plugin after the heartbeats [ticks], oldest first. *)
Definition run (cfg : PluginConfiguration) (ticks : list Tick) : Plugin :=
  fold_left heartbeat ticks (started_plugin cfg).

End Reporter.

(** ** The status route *)

Module Status.

Record ReportTypeStatus : Type := mkReportTypeStatus {
  lastReportTime : option Z;               (* [None] is 'never' *)
  totalReportsTransmitted : Z;
  totalBytesTransmitted : Z;
  reportsTransmittedInLastHour : Z;
  bytesTransmittedInLastHour : Z;
  reportsTransmittedInLastDay : Z;
  bytesTransmittedInLastDay : Z
}.

Record StatisticsStatus : Type := mkStatisticsStatus {
  started : option Z;                      (* [None] is 'never' *)
  endpointTotalBytesTransmitted : Z;       (* statistics.totalBytesTransmitted *)
  position : ReportTypeStatus;
  static : ReportTypeStatus
}.

Record EndpointStatus : Type := mkEndpointStatus {
  ipAddress : string;
  port : Z;
  statistics : StatisticsStatus
}.

End Status.

(** [(t) ? (new Date(t)).toISOString() : 'never'] *)
Definition timeOrNever (t : option Z) : option Z :=
  if truthyNumber t then t else None.

(** [vector.reduce((a, v) => (a + v), 0)] *)
Definition total (vector : list Z) : Z := fold_left Z.add vector 0.

Definition reportTypeStatus (s : ReportTypeStatistics)
    : Status.ReportTypeStatus :=
  {| Status.lastReportTime := timeOrNever (lastReportTimestamp s);
     Status.totalReportsTransmitted := totalReportsTransmitted s;
     Status.totalBytesTransmitted := totalBytesTransmitted s;
     Status.reportsTransmittedInLastHour := total (reportsTransmittedInLastHour s);
     Status.bytesTransmittedInLastHour := total (bytesTransmittedInLastHour s);
     Status.reportsTransmittedInLastDay := total (reportsTransmittedInLastDay s);
     Status.bytesTransmittedInLastDay := total (bytesTransmittedInLastDay s) |}.

Definition endpointStatus (endpoint : Endpoint) : Status.EndpointStatus :=
  {| Status.ipAddress := ipAddress endpoint;
     Status.port := port endpoint;
     Status.statistics :=
       {| Status.started := timeOrNever (Some (started (statistics endpoint)));
          Status.endpointTotalBytesTransmitted :=
            endpointTotalBytesTransmitted (statistics endpoint);
          Status.position := reportTypeStatus (position (statistics endpoint));
          Status.static := reportTypeStatus (static (statistics endpoint)) |} |}.

(** A [Dictionary] is a plain JavaScript object; it is modelled by the list
    of its own properties in the order in which the object enumerates
    them (and [JSON.stringify] prints them): the keys that are array
    indices first, in ascending numeric order, then the other keys in the
    order of their creation. *)

(** The array index that a key is: the canonical decimal form of an
    integer from 0 to 2^32 - 2. *)
Definition arrayIndex (key : string) : option N :=
  match NilEmpty.uint_of_string key with
  | Some d =>
      let canonical :=
        match d with
        | Decimal.Nil => false
        | Decimal.D0 Decimal.Nil => true
        | Decimal.D0 _ => false
        | _ => true
        end in
      if canonical && (N.of_uint d <=? 4294967294)%N
      then Some (N.of_uint d) else None
  | None => None
  end.

(** The object has an own property [key]. *)
Fixpoint hasKey {V : Type} (a : list (string * V)) (key : string) : bool :=
  match a with
  | [] => false
  | (k, _) :: rest => String.eqb k key || hasKey rest key
  end.

(** Assignment to an own property that exists: the value changes, the
    place of the key does not. *)
Fixpoint replaceValue {V : Type} (a : list (string * V)) (key : string)
    (value : V) : list (string * V) :=
  match a with
  | [] => []
  | (k, v) :: rest =>
      if String.eqb k key then (k, value) :: rest
      else (k, v) :: replaceValue rest key value
  end.

(** Creation of the array index [n]: it goes before the first key that is
    a larger index or no index. *)
Fixpoint insertIndex {V : Type} (n : N) (key : string) (value : V)
    (a : list (string * V)) : list (string * V) :=
  match a with
  | [] => [(key, value)]
  | (k, v) :: rest =>
      match arrayIndex k with
      | Some m =>
          if (n <? m)%N then (key, value) :: (k, v) :: rest
          else (k, v) :: insertIndex n key value rest
      | None => (key, value) :: (k, v) :: rest
      end
  end.

(** [a[key] = value] for a value that is an object.  The key ['__proto__']
    is the accessor of [Object.prototype]: the assignment sets the
    prototype of [a] and creates no own property. *)
Definition dictionarySet {V : Type} (a : list (string * V)) (key : string)
    (value : V) : list (string * V) :=
  if String.eqb key "__proto__" then a
  else if hasKey a key then replaceValue a key value
  else match arrayIndex key with
       | Some n => insertIndex n key value a
       | None => (a ++ [(key, value)])%list
       end.

(** The body of the ['/status'] case of [handleRoutes]: the dictionary
    that is sent with code 200. *)
Definition status (cfg : PluginConfiguration)
    : list (string * Status.EndpointStatus) :=
  fold_left
    (fun a endpoint => dictionarySet a (name endpoint) (endpointStatus endpoint))
    (endpoints cfg) [].

(** ** Eligibility of a vessel for one class *)

(** The vessel belongs to class [c]. *)
Definition belongsTo {Fields : Type} (cfg : PluginConfiguration)
    (c : VesselClass) (vessel : Vessel Fields) : bool :=
  match c with
  | Self => isSelf cfg vessel
  | Others => negb (isSelf cfg vessel)
  end.

(** The age bound, in milliseconds, that [fixFresh] applies on behalf of
    class [c]: the subtrahends of its two comparisons. *)
Definition expiryWindow (endpoint : Endpoint) (c : VesselClass) : Z :=
  match c with
  | Self => expiryInterval (myVessel endpoint) * 6000
  | Others => expiryInterval (otherVessels endpoint) * 60000
  end.

(** [reportSelf] and [reportOthers] of a generator call made for class [c]
    alone. *)
Definition selfFlag (c : VesselClass) : bool :=
  match c with Self => true | Others => false end.
Definition othersFlag (c : VesselClass) : bool :=
  match c with Self => false | Others => true end.

(** The class that a vessel belongs to, and the counts kept for a class. *)
Definition classOf {Fields : Type} (cfg : PluginConfiguration)
    (vessel : Vessel Fields) : VesselClass :=
  if isSelf cfg vessel then Self else Others.

Definition otherClass (c : VesselClass) : VesselClass :=
  match c with Self => Others | Others => Self end.

Definition countsOf (reportStatistics : ReportStatistics) (c : VesselClass)
    : Counts :=
  match c with
  | Self => myVesselCounts reportStatistics
  | Others => otherVesselsCounts reportStatistics
  end.

(** The bytes of one sentence on the wire: its length and the line feed. *)
Definition sentenceBytes (msg : string) : Z := Z.of_nat (String.length msg) + 1.

(** Between [before] and [after] the vessel was reported to [endpoint] with
    the sentences [sentences]: these, and nothing else, were handed to the
    socket; the vessel's class gained one report and the bytes of the
    sentences; the other class's counts are as they were. *)
Definition reportedWith {Fields : Type} (cfg : PluginConfiguration)
    (endpoint : Endpoint) (vessel : Vessel Fields)
    (before after : Progress) (sentences : list string) : Prop :=
  let c := classOf cfg vessel in
  fst after
  = (fst before ++ map (fun msg => datagram msg endpoint) sentences)%list
  /\ count (countsOf (snd after) c) = count (countsOf (snd before) c) + 1
  /\ bytes (countsOf (snd after) c)
     = bytes (countsOf (snd before) c)
       + fold_right Z.add 0 (map sentenceBytes sentences)
  /\ countsOf (snd after) (otherClass c) = countsOf (snd before) (otherClass c).

(** Written from the specification's words, to be compared with
    [isEligible]: the vessel belongs to the class, has a position fix with
    a timestamp, and [now - fixTimestamp <= expiryInterval]; [unit] is the
    number of milliseconds in the unit of [expiryInterval] (the timestamps
    are in milliseconds). *)
Definition spec_isEligible {Fields : Type} (unit : Z)
    (cfg : PluginConfiguration) (c : VesselClass) (expiry now : Z)
    (vessel : Vessel Fields) : Prop :=
  belongsTo cfg c vessel = true
  /\ exists t, positionTimestamp vessel = Some t /\ now - t <= expiry * unit.

(** ** The specification's index rule *)

(** Written from the specification's words, to be compared with
    [intervalAt]: an index out of range for a non-empty sequence is clamped
    to the last valid index. *)
Definition spec_clampedIntervalAt (intervals : list Z) (idx : Z) : Z :=
  nth (Z.to_nat (Z.min idx (Z.of_nat (List.length intervals) - 1))) intervals 0.

(** ** Notions used to state the properties of the statistics *)

(** The statistics of one report type of an endpoint. *)
Definition statisticsOf (endpoint : Endpoint) (r : ReportType)
    : ReportTypeStatistics :=
  match r with
  | Position => position (statistics endpoint)
  | Static => static (statistics endpoint)
  end.

(** No count of a [reportStatistics] object is negative. *)
Definition nonNegative (rs : ReportStatistics) : Prop :=
  0 <= count (myVesselCounts rs) /\ 0 <= bytes (myVesselCounts rs)
  /\ 0 <= count (otherVesselsCounts rs) /\ 0 <= bytes (otherVesselsCounts rs).

(** The hour window of reports holds no negative slot and sums to at most
    the total of reports. *)
Definition hourWindowBounded (s : ReportTypeStatistics) : Prop :=
  Forall (fun x => 0 <= x) (reportsTransmittedInLastHour s)
  /\ total (reportsTransmittedInLastHour s) <= totalReportsTransmitted s.

(** The two statistics updates of [reportEndpoint], each made only when its
    report type was due ([fired]). *)
Definition foldPosition (now heartbeatCount : Z) (fired : bool)
    (rs : ReportStatistics) (s : Statistics) : Statistics :=
  if fired
  then withPosition s (updateReportStatistics now heartbeatCount (position s) rs)
  else s.

Definition foldStatic (now heartbeatCount : Z) (fired : bool)
    (rs : ReportStatistics) (s : Statistics) : Statistics :=
  if fired
  then withStatic s (updateReportStatistics now heartbeatCount (static s) rs)
  else s.

(** [e'] is [e] after one heartbeat: the same endpoint, its statistics
    folded with the results of the generators that were due. *)
Definition advances (now heartbeatCount : Z) (e e' : Endpoint) : Prop :=
  exists (firedP firedS : bool) (rsP rsS : ReportStatistics),
    nonNegative rsP /\ nonNegative rsS
    /\ e' = withStatistics e
              (foldStatic now heartbeatCount firedS rsS
                 (foldPosition now heartbeatCount firedP rsP (statistics e))).

(** ** Sample data *)

Module Sample.

Definition endpointOption : Raw.EndpointOption :=
  {| Raw.name := Some "marinetraffic";
     Raw.ipAddress := Some "10.0.0.1";
     Raw.port := Some 2000;
     Raw.props :=
       {| Raw.expiryInterval := None;
          Raw.positionUpdateInterval := Some (Sequence [5; 1]);
          Raw.staticUpdateInterval := Some (Scalar 15);
          Raw.updateIntervalIndexPath := Some "plugins.reporter.rate" |};
     Raw.myVessel := None;
     Raw.otherVessels := None |}.

Definition options : Raw.Options :=
  {| Raw.globalProps := Raw.empty;
     Raw.globalMyVessel := None;
     Raw.globalOtherVessels := None;
     Raw.endpoints := [endpointOption] |}.

Definition app : App :=
  {| selfMmsi := Some "235000001"; selfAisClass := None |}.

Definition startTime : Z := 1700000000000.

(** The canonical endpoint of [endpointOption]. *)
Definition endpoint : Endpoint :=
  {| name := "marinetraffic"; ipAddress := "10.0.0.1"; port := 2000;
     myVessel := mkVesselClassConfig 15 [5; 1] [15]
                   (Some "plugins.reporter.rate");
     otherVessels := mkVesselClassConfig 15 [5; 1] [15]
                       (Some "plugins.reporter.rate");
     statistics := initialStatistics startTime |}.

Definition configuration : PluginConfiguration :=
  {| myMMSI := Some "235000001"; myAisClass := "B"; endpoints := [endpoint] |}.

(** An encoder that accepts everything but part 1 of a class B static
    report. *)
Definition encoder (p : AisProperties unit) : option string :=
  match part p with
  | Some 1 => None
  | _ => Some "!AIVDM,1,1,,A,13u?etPv2;0n:dDPwUM1U1Cb069D,0*24"
  end.

(** An encoder that accepts everything. *)
Definition encodeAll (p : AisProperties unit) : option string :=
  match part p with
  | Some 1 => Some "!AIVDM,1,1,,B,H3u?etTT,0*4B"
  | _ => Some "!AIVDM,1,1,,A,13u?etPv2;0n:dDPwUM1U1Cb069D,0*24"
  end.

Definition ownVessel (timestamp : Z) : Vessel unit :=
  {| mmsi := Some "235000001"; positionTimestamp := Some timestamp;
     aisClassValue := None;
     positionFields := Some tt; staticFields := Some tt |}.

Definition otherVessel (timestamp : Z) : Vessel unit :=
  {| mmsi := Some "244000002"; positionTimestamp := Some timestamp;
     aisClassValue := Some "A";
     positionFields := Some tt; staticFields := Some tt |}.

(** A heartbeat at [time] with both vessels just heard of and [rate]
    found under every index path. *)
Definition tick (time : Z) (rate : option Z) : Tick unit :=
  {| vessels := [ownVessel (time - 1000); otherVessel (time - 1000)];
     now := time;
     selfPathValue := fun _ => rate |}.

(** An endpoint option with nothing but the required properties:
    [{ ipAddress: '10.0.0.1', port: 2000 }]. *)
Definition bareEndpointOption : Raw.EndpointOption :=
  {| Raw.name := None;
     Raw.ipAddress := Some "10.0.0.1";
     Raw.port := Some 2000;
     Raw.props := Raw.empty;
     Raw.myVessel := None;
     Raw.otherVessels := None |}.

(** The global static interval alone: [{ staticUpdateInterval: 30,
    endpoints: [{ ipAddress: '10.0.0.1', port: 2000 }] }]. *)
Definition globalStaticOptions : Raw.Options :=
  {| Raw.globalProps :=
       {| Raw.expiryInterval := None;
          Raw.positionUpdateInterval := None;
          Raw.staticUpdateInterval := Some (Scalar 30);
          Raw.updateIntervalIndexPath := None |};
     Raw.globalMyVessel := None;
     Raw.globalOtherVessels := None;
     Raw.endpoints := [bareEndpointOption] |}.

(** An endpoint whose static interval is shorter than its position
    interval: [{ ipAddress: '10.0.0.1', port: 2000,
    positionUpdateInterval: 10, staticUpdateInterval: 5 }]. *)
Definition fastStaticOptions : Raw.Options :=
  {| Raw.globalProps := Raw.empty;
     Raw.globalMyVessel := None;
     Raw.globalOtherVessels := None;
     Raw.endpoints :=
       [ {| Raw.name := None;
            Raw.ipAddress := Some "10.0.0.1";
            Raw.port := Some 2000;
            Raw.props :=
              {| Raw.expiryInterval := None;
                 Raw.positionUpdateInterval := Some (Scalar 10);
                 Raw.staticUpdateInterval := Some (Scalar 5);
                 Raw.updateIntervalIndexPath := None |};
            Raw.myVessel := None;
            Raw.otherVessels := None |} ] |}.

Definition fastStaticEndpoint : Endpoint :=
  {| name := "10.0.0.1"; ipAddress := "10.0.0.1"; port := 2000;
     myVessel := mkVesselClassConfig 15 [10] [5] None;
     otherVessels := mkVesselClassConfig 15 [10] [5] None;
     statistics := initialStatistics startTime |}.

End Sample.

(** ** Notions used to state further properties of normalization *)

(** The value of the property in the first of the objects that has it. *)
Fixpoint firstPresent {A : Type} (objects : list Raw.Props)
    (name : Raw.Props -> option A) : option A :=
  match objects with
  | [] => None
  | o :: rest =>
      match name o with
      | Some v => Some v
      | None => firstPresent rest name
      end
  end.

Definition orDefault {A : Type} (o : option A) (fallback : A) : A :=
  match o with
  | Some v => v
  | None => fallback
  end.

(** The objects consulted for a class, in order: the endpoint's class
    block, the endpoint, the global class block, the global options. *)
Definition ownScopes (options : Raw.Options) (opt : Raw.EndpointOption)
    : list Raw.Props :=
  [ Raw.orEmpty (Raw.myVessel opt); Raw.props opt;
    Raw.orEmpty (Raw.globalMyVessel options); Raw.globalProps options ].

Definition othersScopes (options : Raw.Options) (opt : Raw.EndpointOption)
    : list Raw.Props :=
  [ Raw.orEmpty (Raw.otherVessels opt); Raw.props opt;
    Raw.orEmpty (Raw.globalOtherVessels options); Raw.globalProps options ].

(** The objects that the lookup of the own vessel's static intervals
    reaches: those before the empty slot. *)
Definition ownStaticScopes (options : Raw.Options) (opt : Raw.EndpointOption)
    : list Raw.Props :=
  [ Raw.orEmpty (Raw.myVessel opt); Raw.props opt;
    Raw.orEmpty (Raw.globalMyVessel options) ].

Definition hasAddress (opt : Raw.EndpointOption) : bool :=
  match Raw.ipAddress opt with
  | Some (String _ _) => true
  | _ => false
  end.

Definition hasPort (opt : Raw.EndpointOption) : bool :=
  truthyNumber (Raw.port opt).

Definition hasOwnStatic (options : Raw.Options) (opt : Raw.EndpointOption)
    : bool :=
  match firstPresent (ownStaticScopes options opt) Raw.staticUpdateInterval with
  | Some _ => true
  | None => false
  end.

(** The endpoint options that [makeEndpoint] accepts. *)
Definition normalizable (options : Raw.Options) (opt : Raw.EndpointOption)
    : bool :=
  hasAddress opt && hasPort opt && hasOwnStatic options opt.

(** ** Notions used to state further properties of the generators *)

(** The sentences that a position report of the vessel consists of: its
    encoding, or none when the attributes cannot be gathered or the
    encoding is not valid. *)
Definition positionSentences {Fields : Type}
    (AisEncode : AisProperties Fields -> option string)
    (cfg : PluginConfiguration) (vessel : Vessel Fields) : list string :=
  match positionFields vessel with
  | Some f =>
      match AisEncode (positionProperties cfg vessel f) with
      | Some nmea => [nmea]
      | None => []
      end
  | None => []
  end.

(** The sentences that a static report of the vessel consists of: one for
    class A, both parts or none for class B, none for any other class. *)
Definition staticSentences {Fields : Type}
    (AisEncode : AisProperties Fields -> option string)
    (cfg : PluginConfiguration) (vessel : Vessel Fields) : list string :=
  match staticFields vessel with
  | Some f =>
      if String.eqb (aisClassOf cfg vessel) "A" then
        match AisEncode (staticProperties vessel 5 None f) with
        | Some nmea => [nmea]
        | None => []
        end
      else if String.eqb (aisClassOf cfg vessel) "B" then
        match AisEncode (staticProperties vessel 24 (Some 0) f),
              AisEncode (staticProperties vessel 24 (Some 1) f) with
        | Some nmea, Some nmeaB => [nmea; nmeaB]
        | _, _ => []
        end
      else []
  | None => []
  end.

(** The bytes of a list of sentences on the wire. *)
Definition bytesOf (sentences : list string) : Z :=
  fold_right Z.add 0 (map sentenceBytes sentences).

Definition isReport (sentences : list string) : bool :=
  match sentences with
  | [] => false
  | _ :: _ => true
  end.

(** The reports of the vessels of class [c] among [vs], each as the list
    of its sentences. *)
Definition reportsOf {Fields : Type} (cfg : PluginConfiguration)
    (sentencesOf : Vessel Fields -> list string) (c : VesselClass)
    (vs : list (Vessel Fields)) : list (list string) :=
  filter isReport (map sentencesOf (filter (belongsTo cfg c) vs)).

(** Sending the sentences of a vessel's report, if it has any, and
    accounting for them once. *)
Definition deliver {Fields : Type} (cfg : PluginConfiguration)
    (endpoint : Endpoint) (reportSelf : bool)
    (sentencesOf : Vessel Fields -> list string)
    (st : Progress) (vessel : Vessel Fields) : Progress :=
  match sentencesOf vessel with
  | [] => st
  | sentences =>
      ((fst st ++ map (fun msg => datagram msg endpoint) sentences)%list,
       account cfg reportSelf vessel (bytesOf sentences) (snd st))
  end.

Definition accountedReports (rs : ReportStatistics) : Z :=
  count (myVesselCounts rs) + count (otherVesselsCounts rs).

Definition accountedBytes (rs : ReportStatistics) : Z :=
  bytes (myVesselCounts rs) + bytes (otherVesselsCounts rs).

(** The bytes handed to the socket. *)
Definition wireBytes (socket : Socket) : Z :=
  fold_right Z.add 0 (map payloadLength socket).

(** A tick with other vessels. *)
Definition withVessels {Fields : Type} (tick : Tick Fields)
    (vs : list (Vessel Fields)) : Tick Fields :=
  {| vessels := vs; now := now tick; selfPathValue := selfPathValue tick |}.

(** ** Notions used to state further properties of a running plugin *)

(** The bytes that the statistics of an endpoint account for. *)
Definition endpointBytes (e : Endpoint) : Z :=
  totalBytesTransmitted (position (statistics e))
  + totalBytesTransmitted (static (statistics e)).

Definition accountedTotal (es : list Endpoint) : Z :=
  fold_right Z.add 0 (map endpointBytes es).

(** [e'] is the endpoint [e] with other report statistics: name, address,
    port, the two class blocks and the start time are those of [e]. *)
Definition sameEndpoint (e e' : Endpoint) : Prop :=
  name e' = name e /\ ipAddress e' = ipAddress e /\ port e' = port e
  /\ myVessel e' = myVessel e /\ otherVessels e' = otherVessels e
  /\ started (statistics e') = started (statistics e).

(** A datagram as [sendReportMsg] makes it for one of the endpoints: a
    sentence followed by a line feed, with the length of the two, addressed
    to the endpoint. *)
Definition wellAddressed (es : list Endpoint) (d : Datagram) : Prop :=
  (exists e, In e es /\ toAddress d = ipAddress e /\ toPort d = port e)
  /\ (exists msg, payload d = (msg ++ LF)%string)
  /\ payloadLength d = Z.of_nat (String.length (payload d)).

(** The four rolling vectors of a report type have their ring sizes, hold
    no negative slot and sum to at most the corresponding total. *)
Definition ringsKept (s : ReportTypeStatistics) : Prop :=
  (List.length (reportsTransmittedInLastHour s) = 60%nat
   /\ List.length (bytesTransmittedInLastHour s) = 60%nat
   /\ List.length (reportsTransmittedInLastDay s) = 24%nat
   /\ List.length (bytesTransmittedInLastDay s) = 24%nat)
  /\ (Forall (fun x => 0 <= x) (reportsTransmittedInLastHour s)
      /\ Forall (fun x => 0 <= x) (bytesTransmittedInLastHour s)
      /\ Forall (fun x => 0 <= x) (reportsTransmittedInLastDay s)
      /\ Forall (fun x => 0 <= x) (bytesTransmittedInLastDay s))
  /\ (total (reportsTransmittedInLastHour s) <= totalReportsTransmitted s
      /\ total (bytesTransmittedInLastHour s) <= totalBytesTransmitted s
      /\ total (reportsTransmittedInLastDay s) <= totalReportsTransmitted s
      /\ total (bytesTransmittedInLastDay s) <= totalBytesTransmitted s).

(** ** The status route: dispatch and response *)

(** The own property [key] of a [Dictionary], if it has one. *)
Fixpoint dictionaryGet {V : Type} (a : list (string * V)) (key : string)
    : option V :=
  match a with
  | [] => None
  | (k, v) :: rest => if String.eqb k key then Some v else dictionaryGet rest key
  end.

(** The last endpoint of the list that has the given name. *)
Definition lastNamed (es : list Endpoint) (key : string) : option Endpoint :=
  fold_left (fun found e => if String.eqb (name e) key then Some e else found)
    es None.

(** [path.slice(0, (path.indexOf('/', 1) == -1) ? undefined
                                                : path.indexOf('/', 1))] *)
Definition firstSegment (path : string) : string :=
  match String.index 1 "/" path with
  | Some k => substring 0 k path
  | None => path
  end.

Module Http.

Inductive Body : Type :=
| StatusBody (status : list (string * Status.EndpointStatus))
| TextBody (text : string)
| NullBody.

(** [res.status(code).send(body)] *)
Record Response : Type := mkResponse {
  code : Z;
  body : Body
}.

End Http.

Definition FETCH_RESPONSES (code : Z) : option string :=
  match code with
  | 400 => Some "bad request"
  | 403 => Some "forbidden"
  | 404 => Some "not found"
  | 503 => Some "service unavailable (try again later)"
  | 500 => Some "internal server error"
  | _ => None                          (* "200": null, "201": null, absent *)
  end.

(** [expressSend(res, code, body)]: a dictionary, even an empty one, is
    truthy and is sent as it is; for a [null] body the text of the code is
    sent, or [null] when the code has none. *)
Definition expressSend (code : Z)
    (body : option (list (string * Status.EndpointStatus))) : Http.Response :=
  {| Http.code := code;
     Http.body :=
       match body with
       | Some b => Http.StatusBody b
       | None =>
           match FETCH_RESPONSES code with
           | Some text => Http.TextBody text
           | None => Http.NullBody
           end
       end |}.

(** [handleRoutes(req, res)] for a request with the given path, with the
    module variable [pluginConfiguration] as it is ([None]: still
    undefined); the result is the response sent, if any.  Reading
    [pluginConfiguration.endpoints] of an undefined configuration throws a
    TypeError, whose message is not a number, so that the [catch] sends
    code 500. *)
Definition handleRoutes (pluginConfiguration : option PluginConfiguration)
    (path : string) : option Http.Response :=
  if String.eqb (firstSegment path) "/status" then
    match pluginConfiguration with
    | Some cfg => Some (expressSend 200 (Some (status cfg)))
    | None => Some (expressSend 500 None)
    end
  else None.                           (* default: break *)

(** ** Start and stop *)

(** The module variables of a plugin: the configuration, the default
    status text, the socket ([Some true]: open, [Some false]: closed) and
    the armed heartbeat with what its callback works on. *)
Record Host : Type := mkHost {
  hostConfiguration : option PluginConfiguration;
  defaultStatus : string;
  hostSocket : option bool;
  reporting : option Plugin
}.

(** [`'${e.name}'`] joined with [', ']. *)
Definition quotedNames (es : list Endpoint) : string :=
  String.concat ", " (map (fun e => ("'" ++ name e ++ "'")%string) es).

(** [`Reporting to ${n} endpoint${(n == 1) ? '' : 's'} (${names})`] *)
Definition reportingStatus (es : list Endpoint) : string :=
  ("Reporting to "
   ++ NilZero.string_of_uint (Nat.to_uint (List.length es))
   ++ " endpoint" ++ (if Nat.eqb (List.length es) 1 then "" else "s")
   ++ " (" ++ quotedNames es ++ ")")%string.

(** [start(options)] on a freshly loaded plugin. *)
Definition start (app : App) (now : Z) (options : Raw.Options) : Host :=
  match makePluginConfiguration app now options with
  | Ok cfg =>
      match endpoints cfg with
      | [] =>
          {| hostConfiguration := Some cfg;
             defaultStatus := "Stopped: no configured endpoints";
             hostSocket := None;
             reporting := None |}
      | _ :: _ =>
          {| hostConfiguration := Some cfg;
             defaultStatus := reportingStatus (endpoints cfg);
             hostSocket := Some true;
             reporting := Some (started_plugin cfg) |}
      end
  | Throw _ =>
      {| hostConfiguration := None;
         defaultStatus := "Stopped: configuration error";
         hostSocket := None;
         reporting := None |}
  end.

(** [stop()]: [clearInterval(heartbeatInterval); udpSocket.close()].  The
    call on an undefined socket throws a TypeError; closing a socket that
    is already closed throws as well (dgram's ERR_SOCKET_DGRAM_NOT_RUNNING). *)
Definition stop (h : Host) : Result Host :=
  match hostSocket h with
  | None => Throw typeError
  | Some true =>
      Ok {| hostConfiguration := hostConfiguration h;
            defaultStatus := defaultStatus h;
            hostSocket := Some false;
            reporting := None |}
  | Some false => Throw "Not running"
  end.

(** The timer firing on a host: the heartbeat runs if it is armed. *)
Definition hostHeartbeat (Fields : Type)
    (AisEncode : AisProperties Fields -> option string)
    (h : Host) (tick : Tick Fields) : Host :=
  match reporting h with
  | Some p =>
      {| hostConfiguration :=
           Some (pluginConfiguration (heartbeat AisEncode p tick));
         defaultStatus := defaultStatus h;
         hostSocket := hostSocket h;
         reporting := Some (heartbeat AisEncode p tick) |}
  | None => h
  end.

(** ** The timer-driven implementation

    The first implementation in [src/index.ts] arms one timer per endpoint
    and report type instead of a shared heartbeat.  Its normalization and
    the arming of its timers are modelled here. *)

Module Timed.

Definition DEFAULT_POSITION_UPDATE_INTERVAL : Z := 120.
Definition DEFAULT_STATIC_DATA_UPDATE_INTERVAL : Z := 600.
Definition DEFAULT_EXPIRY_INTERVAL : Z := 900.
Definition DEFAULT_REPORT_SELF : bool := true.
Definition DEFAULT_REPORT_OTHERS : bool := false.

(** One element of [options.endpoints].  The source reads the address
    from the property [ipaddress] and the fallback of the name from the
    property [ipAddress]. *)
Record EndpointOption : Type := mkEndpointOption {
  name : option string;
  ipaddress : option string;
  ipAddress : option string;
  port : option Z;
  positionupdateinterval : option Z;
  staticdataupdateinterval : option Z;
  expiryinterval : option Z;
  reportself : option bool;
  reportothers : option bool
}.

Record Options : Type := mkOptions {
  myaisclass : option string;
  globalPositionupdateinterval : option Z;     (* options.positionupdateinterval *)
  globalStaticdataupdateinterval : option Z;   (* options.staticdataupdateinterval *)
  globalExpiryinterval : option Z;             (* options.expiryinterval *)
  globalReportself : option bool;              (* options.reportself *)
  globalReportothers : option bool;            (* options.reportothers *)
  endpoints : list EndpointOption
}.

Inductive ReportKind : Type := PositionReports | StaticReports.

(** A [setInterval] of a report function with its period in milliseconds. *)
Record Timer : Type := mkTimer {
  kind : ReportKind;
  period : Z
}.

Record Endpoint : Type := mkEndpoint {
  endpointName : option string;
  endpointAddress : string;
  endpointPort : Z;
  positionUpdateInterval : Z;
  staticDataUpdateInterval : Z;
  expiryInterval : Z;
  reportSelf : bool;
  reportOthers : bool;
  lastReportTimestamp : option Z;
  positionReportCount : Z;
  staticReportCount : Z;
  intervalIds : list Timer
}.

(** [a || b || d] on numbers: [undefined] and [0] are falsy. *)
Definition orNumber (a b : option Z) (d : Z) : Z :=
  match a with
  | Some x => if x =? 0
              then match b with
                   | Some y => if y =? 0 then d else y
                   | None => d
                   end
              else x
  | None => match b with
            | Some y => if y =? 0 then d else y
            | None => d
            end
  end.

(** [a || b || d] on booleans: [undefined] and [false] are falsy. *)
Definition orBoolean (a b : option bool) (d : bool) : bool :=
  match a with
  | Some true => true
  | _ => match b with
         | Some true => true
         | _ => d
         end
  end.

(** [a || b] on strings. *)
Definition orText (a b : option string) : option string :=
  match a with
  | Some (String c s) => Some (String c s)
  | _ => b
  end.

Definition makeEndpoint (options : Options) (endpointOption : EndpointOption)
    : Result Endpoint :=
  match ipaddress endpointOption with
  | Some (String c s) =>
      match port endpointOption with
      | Some p =>
          if p =? 0 then Throw "endpoint had missing 'port' property" else
          Ok {| endpointName :=
                  orText (name endpointOption) (ipAddress endpointOption);
                endpointAddress := String c s;
                endpointPort := p;
                positionUpdateInterval :=
                  orNumber (positionupdateinterval endpointOption)
                    (globalPositionupdateinterval options)
                    DEFAULT_POSITION_UPDATE_INTERVAL;
                staticDataUpdateInterval :=
                  orNumber (staticdataupdateinterval endpointOption)
                    (globalStaticdataupdateinterval options)
                    DEFAULT_STATIC_DATA_UPDATE_INTERVAL;
                expiryInterval :=
                  orNumber (expiryinterval endpointOption)
                    (globalExpiryinterval options) DEFAULT_EXPIRY_INTERVAL;
                reportSelf :=
                  orBoolean (reportself endpointOption)
                    (globalReportself options) DEFAULT_REPORT_SELF;
                reportOthers :=
                  orBoolean (reportothers endpointOption)
                    (globalReportothers options) DEFAULT_REPORT_OTHERS;
                lastReportTimestamp := None;
                positionReportCount := 0;
                staticReportCount := 0;
                intervalIds := [] |}
      | None => Throw "endpoint had missing 'port' property"
      end
  | _ => Throw "endpoint had missing 'ipaddress' property"
  end.

Fixpoint makeEndpoints (options : Options) (opts : list EndpointOption)
    : Result (list Endpoint) :=
  match opts with
  | [] => Ok []
  | opt :: rest =>
      e <- makeEndpoint options opt ;;
      es <- makeEndpoints options rest ;;
      Ok (e :: es)
  end.

(** The [endpoints] of [makePluginConfiguration(options)]. *)
Definition makePluginConfiguration (options : Options)
    : Result (list Endpoint) :=
  makeEndpoints options (endpoints options).

(** The body of [pluginConfiguration.endpoints.forEach] in [start]: the
    timers armed for an endpoint, pushed onto its [intervalIds], and the
    static interval as the body leaves it. *)
Definition armTimers (endpoint : Endpoint) : Endpoint :=
  let position :=
    if 0 <? positionUpdateInterval endpoint
    then [ {| kind := PositionReports;
              period := positionUpdateInterval endpoint * 1000 |} ]
    else [] in
  if (0 <? positionUpdateInterval endpoint)
     && (0 <? staticDataUpdateInterval endpoint)
  then
    let static :=
      if staticDataUpdateInterval endpoint <? positionUpdateInterval endpoint
      then positionUpdateInterval endpoint
      else staticDataUpdateInterval endpoint in
    {| endpointName := endpointName endpoint;
       endpointAddress := endpointAddress endpoint;
       endpointPort := endpointPort endpoint;
       positionUpdateInterval := positionUpdateInterval endpoint;
       staticDataUpdateInterval := static;
       expiryInterval := expiryInterval endpoint;
       reportSelf := reportSelf endpoint;
       reportOthers := reportOthers endpoint;
       lastReportTimestamp := lastReportTimestamp endpoint;
       positionReportCount := positionReportCount endpoint;
       staticReportCount := staticReportCount endpoint;
       intervalIds :=
         (intervalIds endpoint ++ position
          ++ [ {| kind := StaticReports; period := static * 1000 |} ])%list |}
  else
    {| endpointName := endpointName endpoint;
       endpointAddress := endpointAddress endpoint;
       endpointPort := endpointPort endpoint;
       positionUpdateInterval := positionUpdateInterval endpoint;
       staticDataUpdateInterval := staticDataUpdateInterval endpoint;
       expiryInterval := expiryInterval endpoint;
       reportSelf := reportSelf endpoint;
       reportOthers := reportOthers endpoint;
       lastReportTimestamp := lastReportTimestamp endpoint;
       positionReportCount := positionReportCount endpoint;
       staticReportCount := staticReportCount endpoint;
       intervalIds := (intervalIds endpoint ++ position)%list |}.

(** An endpoint option with an address and a port and nothing else, but
    for the intervals given. *)
Definition sampleOption (position static : option Z) : EndpointOption :=
  {| name := None; ipaddress := Some "10.0.0.1"; ipAddress := None;
     port := Some 2000;
     positionupdateinterval := position;
     staticdataupdateinterval := static;
     expiryinterval := None; reportself := Some false; reportothers := None |}.

Definition sampleOptions (position static : option Z) : Options :=
  {| myaisclass := None;
     globalPositionupdateinterval := None;
     globalStaticdataupdateinterval := None;
     globalExpiryinterval := None;
     globalReportself := Some false;
     globalReportothers := None;
     endpoints := [sampleOption position static] |}.

End Timed.

(** * Properties *)

(** ** Firing *)

Lemma rem_zero_iff_mod_zero (t i : Z) :
  i <> 0 -> (Z.rem t i = 0 <-> t mod i = 0).
Proof.
  intro Hi.
  rewrite (Z.rem_divide t i Hi), (Z.mod_divide t i Hi).
  reflexivity.
Qed.

Lemma fires_zero (t : Z) : fires t 0 = false.
Proof. reflexivity. Qed.

Lemma fires_nonzero (t i : Z) :
  i <> 0 -> (fires t i = true <-> t mod i = 0).
Proof.
  intro Hi. unfold fires.
  destruct (Z.eqb_spec i 0) as [E | _]; [contradiction |].
  rewrite Z.eqb_eq.
  now apply rem_zero_iff_mod_zero.
Qed.

(** The condition that guards a generator call and the flag handed to the
    generator are the same test. *)
Lemma due_fires (t i : Z) : due t i = fires t i.
Proof.
  unfold due, fires. now destruct (i =? 0).
Qed.

(** A generator that is called for no class finds no vessel: it sends
    nothing and counts nothing. *)
Lemma candidates_idle (Fields : Type) (cfg : PluginConfiguration)
    (endpoint : Endpoint) (tick : Tick Fields) :
  candidates cfg endpoint tick false false = [].
Proof.
  unfold candidates.
  induction (vessels tick) as [| v vs IH]; [reflexivity | exact IH].
Qed.

Lemma generators_idle (Fields : Type)
    (AisEncode : AisProperties Fields -> option string)
    (cfg : PluginConfiguration) (socket : Socket) (endpoint : Endpoint)
    (tick : Tick Fields) :
  reportPosition AisEncode cfg socket endpoint tick false false
  = (socket, noReports)
  /\ reportStatic AisEncode cfg socket endpoint tick false false
     = (socket, noReports).
Proof.
  unfold reportPosition, reportStatic. rewrite candidates_idle.
  split; reflexivity.
Qed.

(** The first filter of a generator lets a vessel pass when the flag of
    the vessel's class is set. *)
Lemma classReported_classOf (Fields : Type) (cfg : PluginConfiguration)
    (reportSelf reportOthers : bool) (vessel : Vessel Fields) :
  classReported cfg reportSelf reportOthers vessel
  = match classOf cfg vessel with
    | Self => reportSelf
    | Others => reportOthers
    end.
Proof.
  unfold classReported, classOf.
  destruct (isSelf cfg vessel), reportSelf, reportOthers; reflexivity.
Qed.

(** What the heartbeat does for an endpoint, told by the flags of the four
    class and report type pairs: the position generator runs first and the
    static generator after it, on the socket that the position generator
    left; each is handed the flags of its report type, and its result is
    folded into the statistics when one of the two flags is set. *)
Lemma reportEndpoint_flags (Fields : Type)
    (AisEncode : AisProperties Fields -> option string)
    (cfg : PluginConfiguration) (tick : Tick Fields) (t : Z)
    (socket : Socket) (endpoint : Endpoint) :
  let flag := reportFlag tick endpoint t in
  let sentPosition :=
    reportPosition AisEncode cfg socket endpoint tick
      (flag Self Position) (flag Others Position) in
  let sentStatic :=
    reportStatic AisEncode cfg (fst sentPosition) endpoint tick
      (flag Self Static) (flag Others Static) in
  reportEndpoint AisEncode cfg tick t socket endpoint
  = (fst sentStatic,
     withStatistics endpoint
       (foldStatic (now tick) t (flag Self Static || flag Others Static)
          (snd sentStatic)
          (foldPosition (now tick) t
             (flag Self Position || flag Others Position)
             (snd sentPosition) (statistics endpoint)))).
Proof.
  unfold reportEndpoint, reportFlag, foldStatic, foldPosition. cbv zeta.
  rewrite !due_fires.
  destruct (fires t (resolvedInterval tick endpoint Self Position)),
           (fires t (resolvedInterval tick endpoint Others Position));
    cbn [orb];
    rewrite ?(proj1 (generators_idle AisEncode cfg socket endpoint tick));
    try (destruct (reportPosition AisEncode cfg socket endpoint tick _ _)
           as [socket1 rsP]);
    cbn [fst snd];
    destruct (fires t (resolvedInterval tick endpoint Self Static)),
             (fires t (resolvedInterval tick endpoint Others Static));
    cbn [orb];
    rewrite ?(proj2 (generators_idle AisEncode cfg _ endpoint tick));
    try (destruct (reportStatic AisEncode cfg _ endpoint tick _ _)
           as [socket2 rsS]);
    reflexivity.
Qed.

(** C1. For every tick counter [t] and every endpoint, vessel class and
    report type whose resolved update interval is [i]: when [i > 0] the
    report type fires for the class on the heartbeat of tick [t] if and
    only if [t mod i = 0], and when [i = 0] it does not fire, whatever [t]
    is.  That a report type fires for a class is what the heartbeat does
    with the flag: the generator of the report type is run with the flags
    of the two classes, after the position generator when it is the static
    one; it processes the vessels of the classes whose flag is set (and
    whose fix is fresh), and its result is folded into the statistics of
    the report type; when the report type fires for neither class nothing
    is sent for it and its statistics stay as they were. *)
Theorem C1_fires_iff_tick_multiple :
  forall (Fields : Type) (AisEncode : AisProperties Fields -> option string)
         (cfg : PluginConfiguration) (tick : Tick Fields)
         (endpoint : Endpoint) (socket : Socket) (t : Z),
    let flag := reportFlag tick endpoint t in
    let fired r := flag Self r || flag Others r in
    let sentPosition :=
      reportPosition AisEncode cfg socket endpoint tick
        (flag Self Position) (flag Others Position) in
    let sentStatic :=
      reportStatic AisEncode cfg (fst sentPosition) endpoint tick
        (flag Self Static) (flag Others Static) in
    let result := reportEndpoint AisEncode cfg tick t socket endpoint in
    (forall c r,
       let i := resolvedInterval tick endpoint c r in
       (0 < i -> (flag c r = true <-> t mod i = 0))
       /\ (i = 0 -> flag c r = false))
    /\ fst result = fst sentStatic
    /\ statisticsOf (snd result) Position
       = (if fired Position
          then updateReportStatistics (now tick) t
                 (statisticsOf endpoint Position) (snd sentPosition)
          else statisticsOf endpoint Position)
    /\ statisticsOf (snd result) Static
       = (if fired Static
          then updateReportStatistics (now tick) t
                 (statisticsOf endpoint Static) (snd sentStatic)
          else statisticsOf endpoint Static)
    /\ (fired Position = false -> sentPosition = (socket, noReports))
    /\ (fired Static = false -> sentStatic = (fst sentPosition, noReports))
    /\ (forall r vessel,
          In vessel (candidates cfg endpoint tick (flag Self r) (flag Others r))
          <-> In vessel (vessels tick)
              /\ flag (classOf cfg vessel) r = true
              /\ fixFresh endpoint (now tick) (flag Self r) (flag Others r)
                   vessel = true).
Proof.
  intros Fields AisEncode cfg tick endpoint socket t
         flag fired sentPosition sentStatic result.
  split; [| split; [| split; [| split; [| split; [| split]]]]].
  - intros c r i. subst flag. unfold reportFlag. fold i. split.
    + intro Hpos. apply fires_nonzero. lia.
    + intros ->. apply fires_zero.
  - subst result. now rewrite reportEndpoint_flags.
  - subst result. rewrite reportEndpoint_flags.
    cbn [snd statisticsOf statistics withStatistics].
    unfold foldStatic, foldPosition. fold flag. subst fired. cbv beta.
    destruct (flag Self Static || flag Others Static),
             (flag Self Position || flag Others Position); reflexivity.
  - subst result. rewrite reportEndpoint_flags.
    cbn [snd statisticsOf statistics withStatistics].
    unfold foldStatic, foldPosition. fold flag. subst fired. cbv beta.
    destruct (flag Self Static || flag Others Static),
             (flag Self Position || flag Others Position); reflexivity.
  - subst fired. cbv beta. intro H. apply orb_false_iff in H as [H1 H2].
    subst sentPosition. rewrite H1, H2. apply generators_idle.
  - subst fired. cbv beta. intro H. apply orb_false_iff in H as [H1 H2].
    subst sentStatic. rewrite H1, H2. apply generators_idle.
  - intros r vessel. unfold candidates.
    rewrite !filter_In, classReported_classOf.
    destruct (classOf cfg vessel); tauto.
Qed.

Lemma C1_fires_iff_tick_multiple_witness :
  (reportFlag (Sample.tick Sample.startTime None) Sample.endpoint 10
     Self Position = true
   <-> 10 mod 5 = 0)
  /\ reportFlag (Sample.tick Sample.startTime (Some 7)) Sample.endpoint 10
       Self Position
     = false
  /\ reportPosition Sample.encodeAll Sample.configuration []
       Sample.endpoint (Sample.tick Sample.startTime (Some 7)) false false
     = ([], noReports).
Proof.
  split; [| split].
  - apply (proj1 (proj1 (C1_fires_iff_tick_multiple
                           Sample.encodeAll Sample.configuration
                           (Sample.tick Sample.startTime None)
                           Sample.endpoint [] 10)
                    Self Position)).
    vm_compute. reflexivity.
  - apply (proj2 (proj1 (C1_fires_iff_tick_multiple
                           Sample.encodeAll Sample.configuration
                           (Sample.tick Sample.startTime (Some 7))
                           Sample.endpoint [] 10)
                    Self Position)).
    vm_compute. reflexivity.
  - apply (proj1 (proj2 (proj2 (proj2 (proj2
             (C1_fires_iff_tick_multiple
                Sample.encodeAll Sample.configuration
                (Sample.tick Sample.startTime (Some 7))
                Sample.endpoint [] 10)))))).
    vm_compute. reflexivity.
Defined.

(** ** Out-of-range interval index *)

Lemma intervalAt_out_of_range (intervals : list Z) (idx : Z) :
  idx < 0 \/ Z.of_nat (List.length intervals) <= idx ->
  intervalAt intervals idx = 0.
Proof.
  intros [Hneg | Hbig]; unfold intervalAt.
  - destruct (Z.ltb_spec idx 0); [reflexivity | lia].
  - destruct (Z.ltb_spec idx 0); [reflexivity |].
    apply nth_overflow. lia.
Qed.


(** C8, as the code has it. For every tick, endpoint, vessel class and
    report type: when the index found under the class's index path is out
    of range for the interval sequence, the lookup is treated as absent,
    the resolved interval is 0 and the report type does not fire for that
    class on any tick counter. *)
Theorem C8_out_of_range_index_never_fires :
  forall (Fields : Type) (tick : Tick Fields) (endpoint : Endpoint)
         (c : VesselClass) (r : ReportType),
    let vc := classConfig endpoint c in
    let idx := intervalIndex tick (updateIntervalIndexPath vc) in
    idx < 0 \/ Z.of_nat (List.length (intervalsOf vc r)) <= idx ->
    resolvedInterval tick endpoint c r = 0
    /\ forall t, reportFlag tick endpoint t c r = false.
Proof.
  intros Fields tick endpoint c r vc idx Hout.
  assert (H0 : resolvedInterval tick endpoint c r = 0).
  { unfold resolvedInterval. fold vc. fold idx.
    now apply intervalAt_out_of_range. }
  split; [exact H0 |].
  intro t. unfold reportFlag. rewrite H0. apply fires_zero.
Qed.

Lemma C8_out_of_range_index_never_fires_witness :
  resolvedInterval (Sample.tick 0 (Some 2)) Sample.endpoint Others Position = 0
  /\ forall t,
       reportFlag (Sample.tick 0 (Some 2)) Sample.endpoint t Others Position
       = false.
Proof.
  apply (C8_out_of_range_index_never_fires
           (Sample.tick 0 (Some 2)) Sample.endpoint Others Position).
  right. vm_compute. discriminate.
Defined.

(** C8, as the specification has it, fails: with the intervals [5; 1] and
    the index 2 found under the index path, clamping to the last valid
    index would select the interval 1, which fires on tick 3; the code
    resolves the interval 0 and does not fire. *)
Lemma C8_index_is_not_clamped :
  intervalIndex (Sample.tick 0 (Some 2))
    (updateIntervalIndexPath (otherVessels Sample.endpoint)) = 2
  /\ positionUpdateIntervals (otherVessels Sample.endpoint) = [5; 1]
  /\ spec_clampedIntervalAt [5; 1] 2 = 1
  /\ fires 3 (spec_clampedIntervalAt [5; 1] 2) = true
  /\ resolvedInterval (Sample.tick 0 (Some 2)) Sample.endpoint Others Position
     = 0
  /\ reportFlag (Sample.tick 0 (Some 2)) Sample.endpoint 3 Others Position
     = false.
Proof. repeat split. Qed.

(** ** Eligibility *)

Lemma fixNewerThan_spec (Fields : Type) (vessel : Vessel Fields) (bound : Z) :
  fixNewerThan vessel bound = true
  <-> exists t, positionTimestamp vessel = Some t /\ bound < t.
Proof.
  unfold fixNewerThan. destruct (positionTimestamp vessel) as [t |].
  - rewrite Z.gtb_ltb, Z.ltb_lt. split.
    + intro H. now exists t.
    + intros [t' [E H]]. now inversion E; subst.
  - split; [discriminate | intros [t [E _]]; discriminate].
Qed.

(** The vessels that a generator processes are those of the tick that are
    eligible. *)
Lemma candidates_eligible (Fields : Type) (cfg : PluginConfiguration)
    (endpoint : Endpoint) (tick : Tick Fields) (reportSelf reportOthers : bool)
    (vessel : Vessel Fields) :
  In vessel (candidates cfg endpoint tick reportSelf reportOthers)
  <-> In vessel (vessels tick)
      /\ isEligible cfg endpoint (now tick) reportSelf reportOthers vessel
         = true.
Proof.
  unfold candidates, isEligible.
  rewrite !filter_In, andb_true_iff. tauto.
Qed.

(** C2, as the code has it. In a generator call made for the others
    class alone, a vessel is eligible if and only if it belongs to that
    class, has a position fix with a timestamp, and the age of the fix is
    strictly less than the class's [expiryInterval] counted in minutes
    (60000 ms each); a fix whose age equals that window is therefore not
    eligible. In a call made for either class alone, an eligible vessel
    belongs to the class and has a position fix with a timestamp, and a
    vessel without one is never eligible. *)
Theorem C2_eligible_iff_fix_strictly_inside_window :
  forall (Fields : Type) (cfg : PluginConfiguration) (endpoint : Endpoint)
         (now : Z) (vessel : Vessel Fields),
    let window := expiryInterval (otherVessels endpoint) * 60000 in
    (isEligible cfg endpoint now false true vessel = true
     <-> belongsTo cfg Others vessel = true
         /\ exists t, positionTimestamp vessel = Some t /\ now - t < window)
    /\ (forall t,
          positionTimestamp vessel = Some t ->
          now - t = window ->
          isEligible cfg endpoint now false true vessel = false)
    /\ (forall c,
          isEligible cfg endpoint now (selfFlag c) (othersFlag c) vessel = true ->
          belongsTo cfg c vessel = true
          /\ exists t, positionTimestamp vessel = Some t)
    /\ (positionTimestamp vessel = None ->
        forall reportSelf reportOthers,
          isEligible cfg endpoint now reportSelf reportOthers vessel = false).
Proof.
  intros Fields cfg endpoint now vessel window.
  assert (Hiff :
    isEligible cfg endpoint now false true vessel = true
    <-> belongsTo cfg Others vessel = true
        /\ exists t, positionTimestamp vessel = Some t /\ now - t < window).
  { unfold isEligible, classReported, fixFresh.
    cbn [belongsTo andb orb].
    rewrite andb_true_iff, fixNewerThan_spec.
    split; intros [Hc [t [Ht Hlt]]]; (split; [exact Hc |]);
      exists t; split; try exact Ht; subst window; lia. }
  split; [exact Hiff |]. split; [| split].
  - intros t Ht Hage.
    destruct (isEligible cfg endpoint now false true vessel) eqn:E;
      [| reflexivity].
    destruct (proj1 Hiff eq_refl) as [_ [t' [Ht' Hlt]]].
    rewrite Ht in Ht'. inversion Ht'; subst t'. lia.
  - intros c. unfold isEligible, classReported, fixFresh.
    destruct c; cbn [selfFlag othersFlag belongsTo andb orb];
      rewrite ?orb_false_r, andb_true_iff, fixNewerThan_spec;
      intros [Hc [t [Ht _]]]; (split; [exact Hc | now exists t]).
  - intros Hnone reportSelf reportOthers.
    unfold isEligible, fixFresh, fixNewerThan. rewrite Hnone.
    now rewrite !andb_false_r.
Qed.

Lemma C2_eligible_iff_fix_strictly_inside_window_witness :
  isEligible Sample.configuration Sample.endpoint 1700000000000 false true
    (Sample.otherVessel (1700000000000 - 15 * 60000))
  = false.
Proof.
  refine (proj1 (proj2
    (@C2_eligible_iff_fix_strictly_inside_window unit Sample.configuration
       Sample.endpoint 1700000000000
       (Sample.otherVessel (1700000000000 - 15 * 60000))))
    (1700000000000 - 15 * 60000) eq_refl eq_refl).
Defined.

(** C2, as the specification has it, fails at the boundary and in the unit.
    For the others class with [expiryInterval = 15]: a fix 16 seconds old is
    eligible although 16 > 15 (the interval read in seconds, as the
    specification says), and a fix exactly 15 minutes old is not eligible
    although its age equals the interval (read in the code's unit). *)
Lemma C2_boundary_fix_is_not_eligible :
  (isEligible Sample.configuration Sample.endpoint 1700000000000 false true
     (Sample.otherVessel (1700000000000 - 16000)) = true
   /\ ~ spec_isEligible 1000 Sample.configuration Others
         (expiryInterval (otherVessels Sample.endpoint)) 1700000000000
         (Sample.otherVessel (1700000000000 - 16000)))
  /\ (isEligible Sample.configuration Sample.endpoint 1700000000000 false true
        (Sample.otherVessel (1700000000000 - 15 * 60000)) = false
      /\ spec_isEligible 60000 Sample.configuration Others
           (expiryInterval (otherVessels Sample.endpoint)) 1700000000000
           (Sample.otherVessel (1700000000000 - 15 * 60000))).
Proof.
  split; split.
  - reflexivity.
  - intros [_ [t [Ht Hle]]]. cbn in Ht. inversion Ht; subst t.
    cbn in Hle. lia.
  - reflexivity.
  - split; [reflexivity |].
    eexists. split; [reflexivity |]. cbn. lia.
Qed.

(** ** The report generators *)

Section Generators.

Variable Fields : Type.
Variable AisEncode : AisProperties Fields -> option string.
Variable cfg : PluginConfiguration.
Variable endpoint : Endpoint.

(** A vessel that passed the class filter is accounted for under its own
    class. *)
Lemma account_class (reportSelf reportOthers : bool)
    (vessel : Vessel Fields) (b : Z) (rs : ReportStatistics) :
  classReported cfg reportSelf reportOthers vessel = true ->
  let c := classOf cfg vessel in
  countsOf (account cfg reportSelf vessel b rs) c
  = addReport (countsOf rs c) b
  /\ countsOf (account cfg reportSelf vessel b rs) (otherClass c)
     = countsOf rs (otherClass c).
Proof.
  unfold classReported, account, classOf.
  destruct (isSelf cfg vessel), reportSelf, reportOthers;
    cbn; intro H; try discriminate; split; reflexivity.
Qed.

Lemma staticReport_class_B (reportSelf : bool) (st : Progress)
    (vessel : Vessel Fields) (f : Fields) :
  staticFields vessel = Some f ->
  aisClassOf cfg vessel = "B" ->
  staticReport AisEncode cfg endpoint reportSelf st vessel
  = match AisEncode (staticProperties vessel 24 (Some 0) f),
          AisEncode (staticProperties vessel 24 (Some 1) f) with
    | Some nmea, Some nmeaB =>
        ((fst st ++ [datagram nmea endpoint; datagram nmeaB endpoint])%list,
         account cfg reportSelf vessel
           (sentenceBytes nmea + sentenceBytes nmeaB) (snd st))
    | _, _ => st
    end.
Proof.
  intros Hf Hc. unfold staticReport. rewrite Hf, Hc. cbn [String.eqb].
  change (String.eqb "B" "A") with false.
  change (String.eqb "B" "B") with true. cbv iota.
  destruct (AisEncode (staticProperties vessel 24 (Some 0) f)) as [nmea |];
    [| reflexivity].
  destruct (AisEncode (staticProperties vessel 24 (Some 1) f)) as [nmeaB |];
    [| reflexivity].
  unfold sendReportMsg, sentenceBytes. cbn [fst snd].
  rewrite <- app_assoc. reflexivity.
Qed.

(** C3. For every class B vessel that the static report generator
    processes: when the encoding of part 0 or of part 1 fails, no sentence
    is handed to the socket and the report and byte counts stay as they
    were; when both parts encode, both sentences are sent, in order, and
    one report is counted. *)
Theorem C3_class_B_static_is_all_or_nothing :
  forall (reportSelf : bool) (st : Progress) (vessel : Vessel Fields)
         (f : Fields),
    staticFields vessel = Some f ->
    aisClassOf cfg vessel = "B" ->
    let part0 := AisEncode (staticProperties vessel 24 (Some 0) f) in
    let part1 := AisEncode (staticProperties vessel 24 (Some 1) f) in
    let st' := staticReport AisEncode cfg endpoint reportSelf st vessel in
    (part0 = None \/ part1 = None -> st' = st)
    /\ (forall nmea nmeaB,
          part0 = Some nmea -> part1 = Some nmeaB ->
          fst st'
          = (fst st ++ [datagram nmea endpoint; datagram nmeaB endpoint])%list
          /\ count (myVesselCounts (snd st'))
             + count (otherVesselsCounts (snd st'))
             = count (myVesselCounts (snd st))
               + count (otherVesselsCounts (snd st)) + 1).
Proof.
  intros reportSelf st vessel f Hf Hc part0 part1 st'.
  subst st'. rewrite (staticReport_class_B reportSelf st vessel Hf Hc).
  fold part0. fold part1. split.
  - intros [H | H]; rewrite H; [reflexivity |].
    now destruct part0.
  - intros nmea nmeaB H0 H1. rewrite H0, H1. cbn [fst snd]. split.
    + reflexivity.
    + unfold account.
      destruct (reportSelf && isSelf cfg vessel); cbn; lia.
Qed.

Lemma reportedWith_account (reportSelf reportOthers : bool)
    (vessel : Vessel Fields) (st : Progress) (sentences : list string) :
  classReported cfg reportSelf reportOthers vessel = true ->
  reportedWith cfg endpoint vessel st
    ((fst st ++ map (fun msg => datagram msg endpoint) sentences)%list,
     account cfg reportSelf vessel
       (fold_right Z.add 0 (map sentenceBytes sentences)) (snd st))
    sentences.
Proof.
  intro Hclass. unfold reportedWith. cbn [fst snd].
  destruct (account_class reportSelf reportOthers vessel
              (fold_right Z.add 0 (map sentenceBytes sentences)) (snd st)
              Hclass) as [Hown Hother].
  cbv zeta in Hown, Hother. rewrite Hown, Hother.
  repeat split; reflexivity.
Qed.

(** C6. For every vessel that passed the class filter of a generator call
    and is reported successfully: every sentence handed to the socket adds
    its length plus one to the byte count of the vessel's class, and the
    vessel adds exactly one to the report count of its class, however many
    sentences were sent for it; the other class's counts do not change. A
    position report and a class A static report send one sentence, a class
    B static report sends two and still counts once. *)
Theorem C6_one_report_per_vessel_bytes_per_sentence :
  forall (reportSelf reportOthers : bool) (st : Progress)
         (vessel : Vessel Fields),
    classReported cfg reportSelf reportOthers vessel = true ->
    (forall f nmea,
        positionFields vessel = Some f ->
        AisEncode (positionProperties cfg vessel f) = Some nmea ->
        reportedWith cfg endpoint vessel st
          (positionReport AisEncode cfg endpoint reportSelf st vessel) [nmea])
    /\ (forall f nmea,
          staticFields vessel = Some f ->
          aisClassOf cfg vessel = "A" ->
          AisEncode (staticProperties vessel 5 None f) = Some nmea ->
          reportedWith cfg endpoint vessel st
            (staticReport AisEncode cfg endpoint reportSelf st vessel) [nmea])
    /\ (forall f nmea nmeaB,
          staticFields vessel = Some f ->
          aisClassOf cfg vessel = "B" ->
          AisEncode (staticProperties vessel 24 (Some 0) f) = Some nmea ->
          AisEncode (staticProperties vessel 24 (Some 1) f) = Some nmeaB ->
          reportedWith cfg endpoint vessel st
            (staticReport AisEncode cfg endpoint reportSelf st vessel)
            [nmea; nmeaB]).
Proof.
  intros reportSelf reportOthers st vessel Hclass.
  split; [| split].
  - intros f nmea Hf He.
    pose proof (reportedWith_account reportSelf reportOthers vessel st [nmea]
                  Hclass) as H.
    unfold positionReport. rewrite Hf, He. unfold sendReportMsg.
    cbn [map fold_right] in H. rewrite Z.add_0_r in H. exact H.
  - intros f nmea Hf Hc He.
    pose proof (reportedWith_account reportSelf reportOthers vessel st [nmea]
                  Hclass) as H.
    unfold staticReport. rewrite Hf, Hc.
    change (String.eqb "A" "A") with true. cbv iota.
    rewrite He. unfold sendReportMsg.
    cbn [map fold_right] in H. rewrite Z.add_0_r in H. exact H.
  - intros f nmea nmeaB Hf Hc H0 H1.
    pose proof (reportedWith_account reportSelf reportOthers vessel st
                  [nmea; nmeaB] Hclass) as H.
    rewrite (staticReport_class_B reportSelf st vessel Hf Hc), H0, H1.
    cbn [map fold_right] in H. rewrite Z.add_0_r in H. exact H.
Qed.

End Generators.

Lemma C3_class_B_static_is_all_or_nothing_witness :
  staticReport Sample.encoder Sample.configuration Sample.endpoint true
    ([], noReports) (Sample.ownVessel 0)
  = ([], noReports).
Proof.
  refine (proj1 (@C3_class_B_static_is_all_or_nothing unit Sample.encoder
                   Sample.configuration Sample.endpoint true ([], noReports)
                   (Sample.ownVessel 0) tt eq_refl eq_refl) _).
  right. reflexivity.
Defined.

Lemma C6_one_report_per_vessel_bytes_per_sentence_witness :
  reportedWith Sample.configuration Sample.endpoint (Sample.ownVessel 0)
    ([], noReports)
    (staticReport Sample.encodeAll Sample.configuration Sample.endpoint true
       ([], noReports) (Sample.ownVessel 0))
    [ "!AIVDM,1,1,,A,13u?etPv2;0n:dDPwUM1U1Cb069D,0*24";
      "!AIVDM,1,1,,B,H3u?etTT,0*4B" ].
Proof.
  refine (proj2 (proj2 (@C6_one_report_per_vessel_bytes_per_sentence unit
                          Sample.encodeAll Sample.configuration
                          Sample.endpoint true false ([], noReports)
                          (Sample.ownVessel 0) eq_refl))
            tt _ _ eq_refl eq_refl eq_refl eq_refl).
Defined.

(** ** Rolling vectors *)

Lemma fold_left_add_shift (l : list Z) (a : Z) :
  fold_left Z.add l a = a + fold_left Z.add l 0.
Proof.
  revert a. induction l as [| x l IH]; intro a; cbn [fold_left].
  - lia.
  - rewrite (IH (a + x)), (IH (0 + x)). lia.
Qed.

Lemma total_nil : total [] = 0.
Proof. reflexivity. Qed.

Lemma total_cons (x : Z) (l : list Z) : total (x :: l) = x + total l.
Proof.
  unfold total. cbn [fold_left]. rewrite fold_left_add_shift. lia.
Qed.

Lemma total_app (l l' : list Z) : total (l ++ l') = total l + total l'.
Proof.
  induction l as [| x l IH]; cbn [app].
  - rewrite total_nil. lia.
  - rewrite !total_cons, IH. lia.
Qed.

Lemma total_removelast (l : list Z) :
  l <> [] -> total l = total (removelast l) + last l 0.
Proof.
  intro Hne.
  rewrite (app_removelast_last 0 Hne) at 1.
  rewrite total_app, total_cons, total_nil. lia.
Qed.

Lemma total_zeroVector (n : nat) : total (zeroVector n) = 0.
Proof.
  unfold zeroVector. induction n as [| n IH]; cbn [repeat].
  - reflexivity.
  - rewrite total_cons, IH. reflexivity.
Qed.

Lemma addToSlot0_length (vector : list Z) (value : Z) :
  List.length (addToSlot0 vector value) = List.length vector.
Proof. now destruct vector. Qed.

Lemma addToSlot0_total (vector : list Z) (value : Z) :
  vector <> [] -> total (addToSlot0 vector value) = total vector + value.
Proof.
  destruct vector as [| x rest]; [congruence |]. intros _.
  cbn [addToSlot0]. rewrite !total_cons. lia.
Qed.

Lemma slice0_full_ring (vector : list Z) (rollover : Z) :
  List.length vector = Z.to_nat rollover -> 0 < rollover ->
  slice0 vector (rollover - 1) = removelast vector.
Proof.
  intros Hlen Hpos. unfold slice0.
  destruct (Z.ltb_spec (rollover - 1) 0); [lia |].
  rewrite removelast_firstn_len. f_equal. lia.
Qed.

Lemma rolls_spec (rollover heartbeat : Z) :
  rollover <> 0 ->
  (rolls rollover heartbeat = true
   <-> heartbeat <> 0 /\ heartbeat mod rollover = 0).
Proof.
  intro Hn. unfold rolls.
  rewrite andb_true_iff, negb_true_iff, Z.eqb_neq, Z.eqb_eq.
  now rewrite (rem_zero_iff_mod_zero heartbeat Hn).
Qed.

(** The length of a full ring does not change. *)
Lemma updateVector_length (vector : list Z) (rollover heartbeat value : Z) :
  List.length vector = Z.to_nat rollover -> 0 < rollover ->
  List.length (updateVector vector rollover heartbeat value)
  = List.length vector.
Proof.
  intros Hlen Hpos. unfold updateVector.
  destruct (rolls rollover heartbeat); [| apply addToSlot0_length].
  rewrite slice0_full_ring
    by (rewrite ?addToSlot0_length; assumption).
  cbn [List.length]. rewrite removelast_firstn_len, length_firstn.
  rewrite addToSlot0_length. lia.
Qed.

(** C4, as the code has it. For a rolling vector of ring size [N] (60 for
    the hour, 24 for the day) and every tick counter [t]: the update adds
    the value into slot 0 and leaves the other slots alone; exactly when
    [t] is not 0 and [t mod N = 0] the vector then rotates, dropping the
    oldest slot and inserting a zero slot at the front; the length stays
    [N], and the sum of the slots grows by the value, less the dropped slot
    when the vector rotates. *)
Theorem C4_updateVector_adds_then_rotates_on_nonzero_multiples :
  forall (vector : list Z) (N t value : Z),
    List.length vector = Z.to_nat N -> 0 < N ->
    let added := addToSlot0 vector value in
    let result := updateVector vector N t value in
    (nth 0 added 0 = nth 0 vector 0 + value /\ tl added = tl vector)
    /\ (t <> 0 /\ t mod N = 0 ->
        result = 0 :: removelast added
        /\ total result = total vector + value - last added 0)
    /\ (~ (t <> 0 /\ t mod N = 0) ->
        result = added /\ total result = total vector + value)
    /\ List.length result = Z.to_nat N.
Proof.
  intros vector N t value Hlen Hpos added result.
  assert (Hne : vector <> []).
  { intro E. subst vector. cbn in Hlen. lia. }
  assert (Hadded : added <> []).
  { subst added. destruct vector; [congruence | discriminate]. }
  assert (Hroll := @rolls_spec N t ltac:(lia)).
  repeat split.
  - subst added. destruct vector; [congruence | reflexivity].
  - subst added. destruct vector; [congruence | reflexivity].
  - subst result. unfold updateVector. fold added.
    rewrite (proj2 Hroll H).
    now rewrite slice0_full_ring
      by (subst added; rewrite ?addToSlot0_length; assumption).
  - subst result. unfold updateVector. fold added.
    rewrite (proj2 Hroll H).
    rewrite slice0_full_ring
      by (subst added; rewrite ?addToSlot0_length; assumption).
    rewrite total_cons.
    pose proof (total_removelast Hadded) as Hsum.
    subst added. rewrite addToSlot0_total in Hsum by assumption. lia.
  - subst result. unfold updateVector. fold added.
    destruct (rolls N t) eqn:E; [| reflexivity].
    exfalso. apply H. now apply Hroll.
  - subst result. unfold updateVector. fold added.
    destruct (rolls N t) eqn:E.
    + exfalso. apply H. now apply Hroll.
    + subst added. now apply addToSlot0_total.
  - subst result. rewrite updateVector_length by assumption. exact Hlen.
Qed.

Lemma C4_updateVector_adds_then_rotates_on_nonzero_multiples_witness :
  updateVector (2 :: zeroVector 59) 60 120 3 = 0 :: 5 :: zeroVector 58
  /\ updateVector (zeroVector 24) 24 7 3 = 3 :: zeroVector 23.
Proof.
  split.
  - refine (proj1 (proj1 (proj2
      (@C4_updateVector_adds_then_rotates_on_nonzero_multiples
         (2 :: zeroVector 59) 60 120 3 eq_refl eq_refl)) _)).
    split; [discriminate | reflexivity].
  - refine (proj1 (proj1 (proj2 (proj2
      (@C4_updateVector_adds_then_rotates_on_nonzero_multiples
         (zeroVector 24) 24 7 3 eq_refl eq_refl))) _)).
    intros [_ H]. discriminate H.
Defined.

(** C4, as the specification has it, fails on tick 0: [0 mod 60 = 0], yet
    the vector does not rotate, because the rotation is guarded by the
    truthiness of the tick counter. *)
Lemma C4_no_rotation_on_tick_zero :
  0 mod 60 = 0
  /\ updateVector (zeroVector 60) 60 0 2 = 2 :: zeroVector 59
  /\ updateVector (zeroVector 60) 60 0 2
     <> 0 :: removelast (addToSlot0 (zeroVector 60) 2).
Proof.
  split; [reflexivity |]. split; [reflexivity |]. discriminate.
Qed.

(** ** Statistics across heartbeats *)

Lemma Forall_nonneg_firstn (n : nat) (l : list Z) :
  Forall (fun x => 0 <= x) l -> Forall (fun x => 0 <= x) (firstn n l).
Proof.
  intro H. rewrite <- (firstn_skipn n l) in H.
  now apply Forall_app in H.
Qed.

Lemma total_nonneg (l : list Z) : Forall (fun x => 0 <= x) l -> 0 <= total l.
Proof.
  induction 1 as [| x l Hx _ IH].
  - rewrite total_nil. lia.
  - rewrite total_cons. lia.
Qed.

Lemma total_firstn_le (n : nat) (l : list Z) :
  Forall (fun x => 0 <= x) l -> total (firstn n l) <= total l.
Proof.
  intro H. rewrite <- (firstn_skipn n l) at 2. rewrite total_app.
  rewrite <- (firstn_skipn n l) in H. apply Forall_app in H.
  pose proof (total_nonneg (proj2 H)). lia.
Qed.

Lemma slice0_is_firstn (vector : list Z) (e : Z) :
  exists n, slice0 vector e = firstn n vector.
Proof.
  unfold slice0. destruct (e <? 0); eexists; reflexivity.
Qed.

Lemma addToSlot0_nonneg (vector : list Z) (value : Z) :
  Forall (fun x => 0 <= x) vector -> 0 <= value ->
  Forall (fun x => 0 <= x) (addToSlot0 vector value).
Proof.
  intros H Hv. destruct vector as [| x rest]; [constructor |].
  inversion H; subst. cbn [addToSlot0]. constructor; [lia | assumption].
Qed.

Lemma addToSlot0_total_le (vector : list Z) (value : Z) :
  0 <= value -> total (addToSlot0 vector value) <= total vector + value.
Proof.
  intro Hv. destruct vector as [| x rest].
  - cbn [addToSlot0]. rewrite total_nil. lia.
  - cbn [addToSlot0]. rewrite !total_cons. lia.
Qed.

Lemma updateVector_nonneg (vector : list Z) (rollover heartbeat value : Z) :
  Forall (fun x => 0 <= x) vector -> 0 <= value ->
  Forall (fun x => 0 <= x) (updateVector vector rollover heartbeat value).
Proof.
  intros H Hv. pose proof (addToSlot0_nonneg H Hv) as Ha.
  unfold updateVector. destruct (rolls rollover heartbeat); [| exact Ha].
  destruct (slice0_is_firstn (addToSlot0 vector value) (rollover - 1))
    as [n ->].
  constructor; [lia | now apply Forall_nonneg_firstn].
Qed.

Lemma updateVector_total_le (vector : list Z) (rollover heartbeat value : Z) :
  Forall (fun x => 0 <= x) vector -> 0 <= value ->
  total (updateVector vector rollover heartbeat value) <= total vector + value.
Proof.
  intros H Hv. pose proof (addToSlot0_nonneg H Hv) as Ha.
  pose proof (addToSlot0_total_le vector Hv) as Hle.
  unfold updateVector. destruct (rolls rollover heartbeat); [| exact Hle].
  destruct (slice0_is_firstn (addToSlot0 vector value) (rollover - 1))
    as [n ->].
  rewrite total_cons.
  pose proof (total_firstn_le n Ha). lia.
Qed.

Lemma updateReportStatistics_hourWindowBounded (now heartbeatCount : Z)
    (s : ReportTypeStatistics) (rs : ReportStatistics) :
  nonNegative rs -> hourWindowBounded s ->
  hourWindowBounded (updateReportStatistics now heartbeatCount s rs).
Proof.
  intros (Hc1 & _ & Hc2 & _) [Hslots Hsum].
  unfold hourWindowBounded, updateReportStatistics.
  cbn [reportsTransmittedInLastHour totalReportsTransmitted]. split.
  - apply updateVector_nonneg; [assumption | lia].
  - pose proof (@updateVector_total_le (reportsTransmittedInLastHour s) 60
                  heartbeatCount
                  (count (myVesselCounts rs) + count (otherVesselsCounts rs))
                  Hslots ltac:(lia)).
    lia.
Qed.

Lemma updateReportStatistics_totals (now heartbeatCount : Z)
    (s : ReportTypeStatistics) (rs : ReportStatistics) :
  nonNegative rs ->
  totalReportsTransmitted s
  <= totalReportsTransmitted (updateReportStatistics now heartbeatCount s rs)
  /\ totalBytesTransmitted s
     <= totalBytesTransmitted (updateReportStatistics now heartbeatCount s rs).
Proof.
  intros (Hc1 & Hb1 & Hc2 & Hb2). cbn. lia.
Qed.

Lemma advances_totals (now heartbeatCount : Z) (e e' : Endpoint)
    (r : ReportType) :
  advances now heartbeatCount e e' ->
  totalReportsTransmitted (statisticsOf e r)
  <= totalReportsTransmitted (statisticsOf e' r)
  /\ totalBytesTransmitted (statisticsOf e r)
     <= totalBytesTransmitted (statisticsOf e' r).
Proof.
  intros (firedP & firedS & rsP & rsS & HP & HS & ->).
  pose proof (updateReportStatistics_totals now heartbeatCount
                (position (statistics e)) HP) as H1.
  pose proof (updateReportStatistics_totals now heartbeatCount
                (static (statistics e)) HS) as H2.
  destruct r, firedP, firedS; cbn in *; lia.
Qed.

Lemma advances_hourWindowBounded (now heartbeatCount : Z) (e e' : Endpoint)
    (r : ReportType) :
  advances now heartbeatCount e e' ->
  hourWindowBounded (statisticsOf e r) -> hourWindowBounded (statisticsOf e' r).
Proof.
  intros (firedP & firedS & rsP & rsS & HP & HS & ->) Hb.
  destruct r, firedP, firedS; cbn [statisticsOf withStatistics statistics
    foldStatic foldPosition withStatic withPosition position static] in *;
    try assumption;
    now apply updateReportStatistics_hourWindowBounded.
Qed.

Lemma advances_endpoint_total (now heartbeatCount : Z) (e e' : Endpoint) :
  advances now heartbeatCount e e' ->
  endpointTotalBytesTransmitted (statistics e')
  = endpointTotalBytesTransmitted (statistics e)
  /\ name e' = name e.
Proof.
  intros (firedP & firedS & rsP & rsS & _ & _ & ->).
  destruct firedP, firedS; split; reflexivity.
Qed.

Section Heartbeats.

Variable Fields : Type.
Variable AisEncode : AisProperties Fields -> option string.

Lemma account_nonNegative (cfg : PluginConfiguration) (reportSelf : bool)
    (vessel : Vessel Fields) (b : Z) (rs : ReportStatistics) :
  0 <= b -> nonNegative rs -> nonNegative (account cfg reportSelf vessel b rs).
Proof.
  intros Hb (H1 & H2 & H3 & H4). unfold account, nonNegative.
  destruct (reportSelf && isSelf cfg vessel); cbn; lia.
Qed.

Lemma sentenceBytes_nonneg (msg : string) : 0 <= sentenceBytes msg.
Proof. unfold sentenceBytes. lia. Qed.

Lemma positionReport_nonNegative (cfg : PluginConfiguration)
    (endpoint : Endpoint) (reportSelf : bool) (st : Progress)
    (vessel : Vessel Fields) :
  nonNegative (snd st) ->
  nonNegative (snd (positionReport AisEncode cfg endpoint reportSelf st vessel)).
Proof.
  intro H. unfold positionReport.
  destruct (positionFields vessel) as [f |]; [| exact H].
  destruct (AisEncode (positionProperties cfg vessel f)) as [nmea |];
    [| exact H].
  cbn [sendReportMsg snd].
  apply account_nonNegative; [apply sentenceBytes_nonneg | exact H].
Qed.

Lemma staticReport_nonNegative (cfg : PluginConfiguration)
    (endpoint : Endpoint) (reportSelf : bool) (st : Progress)
    (vessel : Vessel Fields) :
  nonNegative (snd st) ->
  nonNegative (snd (staticReport AisEncode cfg endpoint reportSelf st vessel)).
Proof.
  intro H. unfold staticReport.
  destruct (staticFields vessel) as [f |]; [| exact H].
  destruct (String.eqb (aisClassOf cfg vessel) "A").
  - destruct (AisEncode (staticProperties vessel 5 None f)) as [nmea |];
      [| exact H].
    cbn [sendReportMsg snd].
    apply account_nonNegative; [apply sentenceBytes_nonneg | exact H].
  - destruct (String.eqb (aisClassOf cfg vessel) "B"); [| exact H].
    destruct (AisEncode (staticProperties vessel 24 (Some 0) f)) as [nmea |];
      [| exact H].
    destruct (AisEncode (staticProperties vessel 24 (Some 1) f)) as [nmeaB |];
      [| exact H].
    cbn [sendReportMsg snd].
    apply account_nonNegative; [| exact H].
    pose proof (sentenceBytes_nonneg nmea).
    pose proof (sentenceBytes_nonneg nmeaB).
    unfold sentenceBytes in *. lia.
Qed.

Lemma fold_left_nonNegative (step : Progress -> Vessel Fields -> Progress)
    (vs : list (Vessel Fields)) (st : Progress) :
  (forall st v, nonNegative (snd st) -> nonNegative (snd (step st v))) ->
  nonNegative (snd st) -> nonNegative (snd (fold_left step vs st)).
Proof.
  intro Hstep. revert st.
  induction vs as [| v vs IH]; intros st H; cbn [fold_left].
  - exact H.
  - apply IH. now apply Hstep.
Qed.

Lemma noReports_nonNegative : nonNegative noReports.
Proof. unfold nonNegative. cbn. lia. Qed.

Lemma reportPosition_nonNegative (cfg : PluginConfiguration) (socket : Socket)
    (endpoint : Endpoint) (tick : Tick Fields) (reportSelf reportOthers : bool) :
  nonNegative
    (snd (reportPosition AisEncode cfg socket endpoint tick
            reportSelf reportOthers)).
Proof.
  unfold reportPosition. apply fold_left_nonNegative.
  - intros st v. apply positionReport_nonNegative.
  - apply noReports_nonNegative.
Qed.

Lemma reportStatic_nonNegative (cfg : PluginConfiguration) (socket : Socket)
    (endpoint : Endpoint) (tick : Tick Fields) (reportSelf reportOthers : bool) :
  nonNegative
    (snd (reportStatic AisEncode cfg socket endpoint tick
            reportSelf reportOthers)).
Proof.
  unfold reportStatic. apply fold_left_nonNegative.
  - intros st v. apply staticReport_nonNegative.
  - apply noReports_nonNegative.
Qed.

(** What one heartbeat does to an endpoint. *)
Lemma reportEndpoint_advances (cfg : PluginConfiguration) (tick : Tick Fields)
    (heartbeatCount : Z) (socket : Socket) (e : Endpoint) :
  advances (now tick) heartbeatCount e
    (snd (reportEndpoint AisEncode cfg tick heartbeatCount socket e)).
Proof.
  unfold reportEndpoint, advances.
  set (mvPUI := resolvedInterval tick e Self Position).
  set (mvSUI := resolvedInterval tick e Self Static).
  set (ovPUI := resolvedInterval tick e Others Position).
  set (ovSUI := resolvedInterval tick e Others Static).
  exists (due heartbeatCount mvPUI || due heartbeatCount ovPUI).
  exists (due heartbeatCount mvSUI || due heartbeatCount ovSUI).
  destruct (due heartbeatCount mvPUI || due heartbeatCount ovPUI).
  - pose proof (reportPosition_nonNegative cfg socket e tick
                  (fires heartbeatCount mvPUI) (fires heartbeatCount ovPUI))
      as HP.
    destruct (reportPosition AisEncode cfg socket e tick
                (fires heartbeatCount mvPUI) (fires heartbeatCount ovPUI))
      as [socket1 rsP].
    exists rsP.
    destruct (due heartbeatCount mvSUI || due heartbeatCount ovSUI).
    + pose proof (reportStatic_nonNegative cfg socket1 e tick
                    (fires heartbeatCount mvSUI) (fires heartbeatCount ovSUI))
        as HS.
      destruct (reportStatic AisEncode cfg socket1 e tick
                  (fires heartbeatCount mvSUI) (fires heartbeatCount ovSUI))
        as [socket2 rsS].
      exists rsS. repeat split; try apply HP; try apply HS.
    + exists noReports.
      repeat split; try apply HP; try apply noReports_nonNegative.
  - exists noReports.
    destruct (due heartbeatCount mvSUI || due heartbeatCount ovSUI).
    + pose proof (reportStatic_nonNegative cfg socket e tick
                    (fires heartbeatCount mvSUI) (fires heartbeatCount ovSUI))
        as HS.
      destruct (reportStatic AisEncode cfg socket e tick
                  (fires heartbeatCount mvSUI) (fires heartbeatCount ovSUI))
        as [socket2 rsS].
      exists rsS.
      repeat split; try apply HS; try apply noReports_nonNegative.
    + exists noReports.
      repeat split; try apply noReports_nonNegative.
Qed.

Lemma reportEndpoints_advances (cfg : PluginConfiguration) (tick : Tick Fields)
    (heartbeatCount : Z) (es : list Endpoint) (socket : Socket) :
  Forall2 (advances (now tick) heartbeatCount) es
    (snd (reportEndpoints AisEncode cfg tick heartbeatCount socket es)).
Proof.
  revert socket. induction es as [| e es IH]; intro socket;
    cbn [reportEndpoints].
  - constructor.
  - pose proof (reportEndpoint_advances cfg tick heartbeatCount socket e) as He.
    destruct (reportEndpoint AisEncode cfg tick heartbeatCount socket e)
      as [socket' e'].
    specialize (IH socket').
    destruct (reportEndpoints AisEncode cfg tick heartbeatCount socket' es)
      as [socket'' es'].
    constructor; assumption.
Qed.

Lemma heartbeat_advances (p : Plugin) (tick : Tick Fields) :
  Forall2 (advances (now tick) (heartbeatCount p))
    (endpoints (pluginConfiguration p))
    (endpoints (pluginConfiguration (heartbeat AisEncode p tick))).
Proof.
  unfold heartbeat.
  pose proof (reportEndpoints_advances (pluginConfiguration p) tick
                (heartbeatCount p) (endpoints (pluginConfiguration p))
                (udpSocket p)) as H.
  destruct (reportEndpoints AisEncode (pluginConfiguration p) tick
              (heartbeatCount p) (udpSocket p)
              (endpoints (pluginConfiguration p))) as [socket' es'].
  exact H.
Qed.

(** A property of every endpoint that heartbeats preserve holds after any
    number of heartbeats. *)
Lemma run_invariant (P : Endpoint -> Prop) (cfg : PluginConfiguration)
    (ticks : list (Tick Fields)) :
  (forall now hb e e', advances now hb e e' -> P e -> P e') ->
  Forall P (endpoints cfg) ->
  Forall P (endpoints (pluginConfiguration (run AisEncode cfg ticks))).
Proof.
  intros Hstep Hinit. unfold run.
  assert (Hstart : Forall P
            (endpoints (pluginConfiguration (started_plugin cfg))))
    by exact Hinit.
  revert Hstart. generalize (started_plugin cfg).
  induction ticks as [| tick ticks IH]; intros p Hp; cbn [fold_left].
  - exact Hp.
  - apply IH.
    pose proof (heartbeat_advances p tick) as Hadv.
    revert Hp. induction Hadv as [| e e' es es' He _ IHes]; intro Hp.
    + constructor.
    + inversion Hp; subst. constructor; eauto.
Qed.

End Heartbeats.

(** ** Normalization *)

Lemma bind_Ok (A B : Type) (c : Result A) (k : A -> Result B) (b : B) :
  bind c k = Ok b -> exists a, c = Ok a /\ k a = Ok b.
Proof.
  destruct c as [a | m]; cbn [bind]; intro H.
  - now exists a.
  - discriminate.
Qed.

(** Without an empty slot, the objects are consulted in order and the
    first one that has the property decides; the fallback is used when
    none has it. *)
Lemma getOption_resolution_order (A : Type) (o1 o2 o3 o4 : Raw.Props)
    (name : Raw.Props -> option A) (fallback : A) :
  getOption [Some o1; Some o2; Some o3; Some o4] name fallback
  = Ok match name o1, name o2, name o3, name o4 with
       | Some v, _, _, _ => v
       | None, Some v, _, _ => v
       | None, None, Some v, _ => v
       | None, None, None, Some v => v
       | None, None, None, None => fallback
       end.
Proof.
  cbn [getOption].
  destruct (name o1), (name o2), (name o3), (name o4); reflexivity.
Qed.

Lemma getOptionArray_resolution_order (o1 o2 o3 o4 : Raw.Props)
    (name : Raw.Props -> option IntervalValue) (fallback : list Z) :
  getOptionArray [Some o1; Some o2; Some o3; Some o4] name fallback
  = Ok match name o1, name o2, name o3, name o4 with
       | Some v, _, _, _ => asArray v
       | None, Some v, _, _ => asArray v
       | None, None, Some v, _ => asArray v
       | None, None, None, Some v => asArray v
       | None, None, None, None => fallback
       end.
Proof.
  cbn [getOptionArray].
  destruct (name o1), (name o2), (name o3), (name o4); reflexivity.
Qed.

(** With the empty slot in fourth place, a property that the first three
    objects lack is never resolved: the lookup throws. *)
Lemma getOptionArray_empty_slot (o1 o2 o3 o4 : Raw.Props)
    (name : Raw.Props -> option IntervalValue) (fallback : list Z) :
  name o1 = None -> name o2 = None -> name o3 = None ->
  getOptionArray [Some o1; Some o2; Some o3; None; Some o4] name fallback
  = Throw typeError.
Proof.
  intros H1 H2 H3. cbn [getOptionArray]. now rewrite H1, H2, H3.
Qed.

(** What a canonical endpoint holds. *)
Lemma makeEndpoint_Ok (now : Z) (options : Raw.Options)
    (opt : Raw.EndpointOption) (e : Endpoint) :
  makeEndpoint now options opt = Ok e ->
  statistics e = initialStatistics now
  /\ getOptionArray (myVesselObjects options opt)
       Raw.positionUpdateInterval [DEFAULT_POSITION_UPDATE_INTERVAL]
     = Ok (positionUpdateIntervals (myVessel e))
  /\ getOptionArray (myVesselStaticObjects options opt)
       Raw.staticUpdateInterval [DEFAULT_STATIC_DATA_UPDATE_INTERVAL]
     = Ok (staticUpdateIntervals (myVessel e))
  /\ getOptionArray (otherVesselsObjects options opt)
       Raw.positionUpdateInterval [DEFAULT_POSITION_UPDATE_INTERVAL]
     = Ok (positionUpdateIntervals (otherVessels e))
  /\ getOptionArray (otherVesselsObjects options opt)
       Raw.staticUpdateInterval [DEFAULT_STATIC_DATA_UPDATE_INTERVAL]
     = Ok (staticUpdateIntervals (otherVessels e)).
Proof.
  unfold makeEndpoint.
  destruct (Raw.ipAddress opt) as [[| c s] |]; try discriminate.
  destruct (Raw.port opt) as [p |]; try discriminate.
  destruct (p =? 0); try discriminate.
  intro H.
  apply bind_Ok in H as (mvE & _ & H).
  apply bind_Ok in H as (mvP & HmvP & H).
  apply bind_Ok in H as (mvS & HmvS & H).
  apply bind_Ok in H as (mvI & _ & H).
  apply bind_Ok in H as (ovE & _ & H).
  apply bind_Ok in H as (ovP & HovP & H).
  apply bind_Ok in H as (ovS & HovS & H).
  apply bind_Ok in H as (ovI & _ & H).
  inversion H; subst e; clear H. cbn. repeat split; assumption.
Qed.

Lemma makeEndpoints_Ok (now : Z) (options : Raw.Options)
    (opts : list Raw.EndpointOption) (es : list Endpoint) :
  makeEndpoints now options opts = Ok es ->
  Forall2 (fun opt e => makeEndpoint now options opt = Ok e) opts es.
Proof.
  revert es. induction opts as [| opt opts IH]; intros es H;
    cbn [makeEndpoints] in H.
  - inversion H. constructor.
  - apply bind_Ok in H as (e & He & H).
    apply bind_Ok in H as (es' & Hes & H).
    inversion H; subst es. constructor; [exact He | now apply IH].
Qed.

Lemma makePluginConfiguration_Ok (app : App) (now : Z) (options : Raw.Options)
    (cfg : PluginConfiguration) :
  makePluginConfiguration app now options = Ok cfg ->
  Forall2 (fun opt e => makeEndpoint now options opt = Ok e)
    (Raw.endpoints options) (endpoints cfg).
Proof.
  unfold makePluginConfiguration. intro H.
  apply bind_Ok in H as (es & Hes & H).
  inversion H; subst cfg. cbn [endpoints]. now apply makeEndpoints_Ok.
Qed.

Lemma makePluginConfiguration_statistics (app : App) (now : Z)
    (options : Raw.Options) (cfg : PluginConfiguration) :
  makePluginConfiguration app now options = Ok cfg ->
  Forall (fun e => statistics e = initialStatistics now) (endpoints cfg).
Proof.
  intro H. apply makePluginConfiguration_Ok in H.
  induction H as [| opt e opts es He _ IH]; constructor.
  - now apply makeEndpoint_Ok in He.
  - exact IH.
Qed.

(** C7 on the code: the claim's resolution order is not followed for the
    static intervals of the own vessel. With only the global
    [staticUpdateInterval: 30] configured, the lookup reaches the empty
    slot of its object list before the global options and throws, so that
    normalization fails; the same lookup for the other vessels resolves the
    global value, as the claim says, and so does the position lookup for
    the own vessel resolve its default. *)
Theorem C7_own_static_interval_lookup_throws :
  makePluginConfiguration Sample.app Sample.startTime Sample.globalStaticOptions
  = Throw typeError
  /\ getOptionArray
       (myVesselStaticObjects Sample.globalStaticOptions Sample.bareEndpointOption)
       Raw.staticUpdateInterval [DEFAULT_STATIC_DATA_UPDATE_INTERVAL]
     = Throw typeError
  /\ getOptionArray
       (otherVesselsObjects Sample.globalStaticOptions Sample.bareEndpointOption)
       Raw.staticUpdateInterval [DEFAULT_STATIC_DATA_UPDATE_INTERVAL]
     = Ok [30]
  /\ getOptionArray
       (myVesselObjects Sample.globalStaticOptions Sample.bareEndpointOption)
       Raw.positionUpdateInterval [DEFAULT_POSITION_UPDATE_INTERVAL]
     = Ok [5].
Proof. repeat split. Qed.

(** C9, as the code has it. For every endpoint produced by normalization
    and each vessel class, the position and the static interval sequences
    are the configured values as the lookup resolves them (a scalar wrapped
    into a one-element sequence, the default when nothing is configured),
    stored as they are: the normalizer does not compare the two. *)
Theorem C9_normalizer_stores_resolved_intervals :
  forall (app : App) (now : Z) (options : Raw.Options)
         (cfg : PluginConfiguration),
    makePluginConfiguration app now options = Ok cfg ->
    Forall2
      (fun opt e =>
         getOptionArray (myVesselObjects options opt)
           Raw.positionUpdateInterval [DEFAULT_POSITION_UPDATE_INTERVAL]
         = Ok (positionUpdateIntervals (myVessel e))
         /\ getOptionArray (myVesselStaticObjects options opt)
              Raw.staticUpdateInterval [DEFAULT_STATIC_DATA_UPDATE_INTERVAL]
            = Ok (staticUpdateIntervals (myVessel e))
         /\ getOptionArray (otherVesselsObjects options opt)
              Raw.positionUpdateInterval [DEFAULT_POSITION_UPDATE_INTERVAL]
            = Ok (positionUpdateIntervals (otherVessels e))
         /\ getOptionArray (otherVesselsObjects options opt)
              Raw.staticUpdateInterval [DEFAULT_STATIC_DATA_UPDATE_INTERVAL]
            = Ok (staticUpdateIntervals (otherVessels e)))
      (Raw.endpoints options) (endpoints cfg).
Proof.
  intros app now options cfg H.
  apply makePluginConfiguration_Ok in H.
  induction H as [| opt e opts es He _ IH]; constructor.
  - now apply makeEndpoint_Ok in He.
  - exact IH.
Qed.

Lemma C9_normalizer_stores_resolved_intervals_witness :
  Forall2
    (fun opt e =>
       getOptionArray (myVesselObjects Sample.options opt)
         Raw.positionUpdateInterval [DEFAULT_POSITION_UPDATE_INTERVAL]
       = Ok (positionUpdateIntervals (myVessel e))
       /\ getOptionArray (myVesselStaticObjects Sample.options opt)
            Raw.staticUpdateInterval [DEFAULT_STATIC_DATA_UPDATE_INTERVAL]
          = Ok (staticUpdateIntervals (myVessel e))
       /\ getOptionArray (otherVesselsObjects Sample.options opt)
            Raw.positionUpdateInterval [DEFAULT_POSITION_UPDATE_INTERVAL]
          = Ok (positionUpdateIntervals (otherVessels e))
       /\ getOptionArray (otherVesselsObjects Sample.options opt)
            Raw.staticUpdateInterval [DEFAULT_STATIC_DATA_UPDATE_INTERVAL]
          = Ok (staticUpdateIntervals (otherVessels e)))
    (Raw.endpoints Sample.options) (endpoints Sample.configuration).
Proof.
  apply (@C9_normalizer_stores_resolved_intervals
           Sample.app Sample.startTime Sample.options Sample.configuration).
  reflexivity.
Defined.

(** C9, as the specification has it, fails: an endpoint configured with
    the position interval 10 and the static interval 5 is normalized with
    exactly these values, and on tick 5 its static report fires while its
    position report does not. *)
Lemma C9_static_interval_below_position_interval :
  makePluginConfiguration Sample.app Sample.startTime Sample.fastStaticOptions
  = Ok {| myMMSI := Some "235000001"; myAisClass := "B";
          endpoints := [Sample.fastStaticEndpoint] |}
  /\ intervalAt (positionUpdateIntervals (otherVessels Sample.fastStaticEndpoint)) 0
     = 10
  /\ intervalAt (staticUpdateIntervals (otherVessels Sample.fastStaticEndpoint)) 0
     = 5
  /\ reportFlag (Sample.tick 0 None) Sample.fastStaticEndpoint 5 Others Static
     = true
  /\ reportFlag (Sample.tick 0 None) Sample.fastStaticEndpoint 5 Others Position
     = false.
Proof. repeat split. Qed.

(** ** Statistics of a running plugin *)

Lemma initial_hourWindowBounded (now : Z) (e : Endpoint) (r : ReportType) :
  statistics e = initialStatistics now -> hourWindowBounded (statisticsOf e r).
Proof.
  intro H. unfold statisticsOf. rewrite H.
  destruct r; cbn [position static initialStatistics];
    (split; [apply Forall_forall; intros x Hx;
             apply repeat_spec in Hx; lia
            | cbn [initialReportTypeStatistics reportsTransmittedInLastHour
                   totalReportsTransmitted];
              rewrite total_zeroVector; lia]).
Qed.

(** C5. For every endpoint of a configuration produced by normalization,
    each report type and every sequence of heartbeats: one more heartbeat
    does not decrease [totalReportsTransmitted] nor
    [totalBytesTransmitted], and in every state reached the sum of the hour
    window of reports is at most [totalReportsTransmitted]. *)
Theorem C5_totals_grow_and_bound_the_hour_window :
  forall (Fields : Type) (AisEncode : AisProperties Fields -> option string)
         (app : App) (startTime : Z) (options : Raw.Options)
         (cfg : PluginConfiguration) (ticks : list (Tick Fields))
         (tick : Tick Fields),
    makePluginConfiguration app startTime options = Ok cfg ->
    let reached := run AisEncode cfg ticks in
    Forall2
      (fun e e' =>
         forall r,
           totalReportsTransmitted (statisticsOf e r)
           <= totalReportsTransmitted (statisticsOf e' r)
           /\ totalBytesTransmitted (statisticsOf e r)
              <= totalBytesTransmitted (statisticsOf e' r))
      (endpoints (pluginConfiguration reached))
      (endpoints (pluginConfiguration (heartbeat AisEncode reached tick)))
    /\ Forall
         (fun e =>
            forall r,
              total (reportsTransmittedInLastHour (statisticsOf e r))
              <= totalReportsTransmitted (statisticsOf e r))
         (endpoints (pluginConfiguration reached)).
Proof.
  intros Fields AisEncode app startTime options cfg ticks tick Hcfg reached.
  split.
  - pose proof (heartbeat_advances AisEncode reached tick) as Hadv.
    induction Hadv as [| e e' es es' He _ IH]; constructor.
    + intro r. exact (advances_totals r He).
    + exact IH.
  - assert (Hinv : Forall (fun e => forall r, hourWindowBounded (statisticsOf e r))
                     (endpoints (pluginConfiguration reached))).
    { apply run_invariant.
      - intros now hb e e' Hadv Hb r.
        exact (advances_hourWindowBounded r Hadv (Hb r)).
      - pose proof (makePluginConfiguration_statistics _ _ _ Hcfg) as Hinit.
        induction Hinit as [| e es He _ IH]; constructor.
        + intro r. exact (initial_hourWindowBounded e r He).
        + exact IH. }
    induction Hinv as [| e es He _ IH]; constructor.
    + intro r. exact (proj2 (He r)).
    + exact IH.
Qed.

Lemma dictionarySet_Forall (V : Type) (P : V -> Prop) (a : list (string * V))
    (key : string) (value : V) :
  Forall (fun entry => P (snd entry)) a -> P value ->
  Forall (fun entry => P (snd entry)) (dictionarySet a key value).
Proof.
  intros Ha Hv. unfold dictionarySet.
  destruct (String.eqb key "__proto__"); [exact Ha |].
  destruct (hasKey a key).
  - induction Ha as [| [k v] rest Hk Hrest IH]; cbn [replaceValue].
    + constructor.
    + destruct (String.eqb k key); constructor; assumption.
  - destruct (arrayIndex key) as [n |].
    + induction Ha as [| [k v] rest Hk Hrest IH]; cbn [insertIndex].
      * repeat constructor. exact Hv.
      * destruct (arrayIndex k) as [m |];
          [destruct (n <? m)%N |]; repeat constructor; assumption.
    + apply Forall_app. split; [exact Ha |]. repeat constructor. exact Hv.
Qed.

Lemma status_Forall (P : Status.EndpointStatus -> Prop)
    (cfg : PluginConfiguration) :
  Forall (fun e => P (endpointStatus e)) (endpoints cfg) ->
  Forall (fun entry => P (snd entry)) (status cfg).
Proof.
  unfold status.
  assert (Hnil : Forall (fun entry : string * Status.EndpointStatus =>
                           P (snd entry)) []) by constructor.
  revert Hnil. generalize (@nil (string * Status.EndpointStatus)).
  induction (endpoints cfg) as [| e es IH]; intros a Ha Hes; cbn [fold_left].
  - exact Ha.
  - inversion Hes; subst. apply IH; [| assumption].
    now apply dictionarySet_Forall.
Qed.

(** C10. For every endpoint and every heartbeat, the endpoint-level
    [statistics.totalBytesTransmitted] is left as it was; in a plugin
    started from a configuration produced by normalization it is therefore
    0 after any number of heartbeats, and the status report shows 0 for
    every endpoint. *)
Theorem C10_endpoint_total_bytes_is_never_updated :
  forall (Fields : Type) (AisEncode : AisProperties Fields -> option string)
         (app : App) (startTime : Z) (options : Raw.Options)
         (cfg : PluginConfiguration) (ticks : list (Tick Fields))
         (tick : Tick Fields),
    makePluginConfiguration app startTime options = Ok cfg ->
    let reached := run AisEncode cfg ticks in
    Forall2
      (fun e e' =>
         endpointTotalBytesTransmitted (statistics e')
         = endpointTotalBytesTransmitted (statistics e))
      (endpoints (pluginConfiguration reached))
      (endpoints (pluginConfiguration (heartbeat AisEncode reached tick)))
    /\ Forall
         (fun e => endpointTotalBytesTransmitted (statistics e) = 0)
         (endpoints (pluginConfiguration reached))
    /\ Forall
         (fun entry =>
            Status.endpointTotalBytesTransmitted
              (Status.statistics (snd entry)) = 0)
         (status (pluginConfiguration reached)).
Proof.
  intros Fields AisEncode app startTime options cfg ticks tick Hcfg reached.
  assert (Hzero : Forall
            (fun e => endpointTotalBytesTransmitted (statistics e) = 0)
            (endpoints (pluginConfiguration reached))).
  { apply run_invariant.
    - intros now hb e e' Hadv H0.
      destruct (advances_endpoint_total Hadv) as [-> _]. exact H0.
    - pose proof (makePluginConfiguration_statistics _ _ _ Hcfg) as Hinit.
      induction Hinit as [| e es He _ IH]; constructor.
      + now rewrite He.
      + exact IH. }
  split; [| split].
  - pose proof (heartbeat_advances AisEncode reached tick) as Hadv.
    induction Hadv as [| e e' es es' He _ IH]; constructor.
    + exact (proj1 (advances_endpoint_total He)).
    + apply IH. now inversion Hzero.
  - exact Hzero.
  - apply (status_Forall
             (fun s => Status.endpointTotalBytesTransmitted
                         (Status.statistics s) = 0)).
    exact Hzero.
Qed.

Lemma C5_totals_grow_and_bound_the_hour_window_witness :
  Forall2
    (fun e e' =>
       forall r,
         totalReportsTransmitted (statisticsOf e r)
         <= totalReportsTransmitted (statisticsOf e' r)
         /\ totalBytesTransmitted (statisticsOf e r)
            <= totalBytesTransmitted (statisticsOf e' r))
    (endpoints (pluginConfiguration
       (run Sample.encodeAll Sample.configuration
          [Sample.tick Sample.startTime None])))
    (endpoints (pluginConfiguration
       (heartbeat Sample.encodeAll
          (run Sample.encodeAll Sample.configuration
             [Sample.tick Sample.startTime None])
          (Sample.tick (Sample.startTime + 60000) (Some 1)))))
  /\ Forall
       (fun e =>
          forall r,
            total (reportsTransmittedInLastHour (statisticsOf e r))
            <= totalReportsTransmitted (statisticsOf e r))
       (endpoints (pluginConfiguration
          (run Sample.encodeAll Sample.configuration
             [Sample.tick Sample.startTime None]))).
Proof.
  apply (@C5_totals_grow_and_bound_the_hour_window unit Sample.encodeAll
           Sample.app Sample.startTime Sample.options Sample.configuration
           [Sample.tick Sample.startTime None]
           (Sample.tick (Sample.startTime + 60000) (Some 1))).
  reflexivity.
Defined.

Lemma C10_endpoint_total_bytes_is_never_updated_witness :
  Forall
    (fun entry =>
       Status.endpointTotalBytesTransmitted (Status.statistics (snd entry)) = 0)
    (status (pluginConfiguration
       (run Sample.encodeAll Sample.configuration
          [Sample.tick Sample.startTime None])))
  /\ map (fun e => totalBytesTransmitted (position (statistics e))
                   + totalBytesTransmitted (static (statistics e)))
       (endpoints (pluginConfiguration
          (run Sample.encodeAll Sample.configuration
             [Sample.tick Sample.startTime None])))
     = [220].
Proof.
  split; [| reflexivity].
  refine (proj2 (proj2
    (@C10_endpoint_total_bytes_is_never_updated unit Sample.encodeAll
       Sample.app Sample.startTime Sample.options Sample.configuration
       [Sample.tick Sample.startTime None]
       (Sample.tick (Sample.startTime + 60000) None) _))).
  reflexivity.
Defined.

(** ** The model at work *)

(** The first heartbeat of the sample plugin: position and static reports
    are due for both classes; two position sentences, and three static
    sentences for two vessels (the own vessel is class B, the other one
    class A). *)
Example first_heartbeat :
  let p := run Sample.encodeAll Sample.configuration
             [Sample.tick Sample.startTime None] in
  map (fun e => (totalReportsTransmitted (position (statistics e)),
                 totalBytesTransmitted (position (statistics e)),
                 totalReportsTransmitted (static (statistics e)),
                 totalBytesTransmitted (static (statistics e))))
    (endpoints (pluginConfiguration p))
  = [(2, 96, 2, 124)]
  /\ List.length (udpSocket p) = 5%nat
  /\ heartbeatCount p = 1.
Proof. repeat split. Qed.

(** With the index path resolving to 1 and the position intervals [5; 1],
    tick 3 fires with the interval at index 1. *)
Example index_selects_interval :
  resolvedInterval (Sample.tick 0 (Some 1)) Sample.endpoint Self Position = 1
  /\ reportFlag (Sample.tick 0 (Some 1)) Sample.endpoint 3 Self Position = true
  /\ reportFlag (Sample.tick 0 None) Sample.endpoint 3 Self Position = false.
Proof. repeat split. Qed.

(** A ring fed with the value 2 on the ticks 0 to 58 sums to 118; tick 59
    does not rotate it and tick 60 does. *)
Example hour_ring_rotation :
  let feed := fun v t => updateVector v 60 (Z.of_nat t) 2 in
  let after59 := fold_left feed (seq 0 59) (zeroVector 60) in
  total after59 = 118
  /\ feed after59 59%nat = 120 :: zeroVector 59
  /\ feed (feed after59 59%nat) 60%nat = 0 :: 122 :: zeroVector 58.
Proof. repeat split. Qed.

(** * Further properties of the code *)

(** ** Normalization: when it succeeds and what it throws *)

Lemma getOption_scopes (A : Type) (o1 o2 o3 o4 : Raw.Props)
    (name : Raw.Props -> option A) (fallback : A) :
  getOption [Some o1; Some o2; Some o3; Some o4] name fallback
  = Ok (orDefault (firstPresent [o1; o2; o3; o4] name) fallback).
Proof.
  cbn [getOption firstPresent].
  destruct (name o1), (name o2), (name o3), (name o4); reflexivity.
Qed.

Lemma getOptionArray_scopes (o1 o2 o3 o4 : Raw.Props)
    (name : Raw.Props -> option IntervalValue) (fallback : list Z) :
  getOptionArray [Some o1; Some o2; Some o3; Some o4] name fallback
  = Ok (orDefault (option_map asArray (firstPresent [o1; o2; o3; o4] name))
          fallback).
Proof.
  cbn [getOptionArray firstPresent].
  destruct (name o1), (name o2), (name o3), (name o4); reflexivity.
Qed.

Lemma getOptionArray_own_static (o1 o2 o3 o4 : Raw.Props)
    (name : Raw.Props -> option IntervalValue) (fallback : list Z) :
  getOptionArray [Some o1; Some o2; Some o3; None; Some o4] name fallback
  = match firstPresent [o1; o2; o3] name with
    | Some v => Ok (asArray v)
    | None => Throw typeError
    end.
Proof.
  cbn [getOptionArray firstPresent].
  destruct (name o1), (name o2), (name o3); reflexivity.
Qed.

(** One endpoint option: the endpoint it yields, or the exception. *)
Lemma makeEndpoint_cases (now : Z) (options : Raw.Options)
    (opt : Raw.EndpointOption) :
  (hasAddress opt = false
   /\ makeEndpoint now options opt
      = Throw "endpoint has missing 'ipAddress' property")
  \/ (hasAddress opt = true /\ hasPort opt = false
      /\ makeEndpoint now options opt
         = Throw "endpoint has missing 'port' property")
  \/ (hasAddress opt = true /\ hasPort opt = true
      /\ hasOwnStatic options opt = false
      /\ makeEndpoint now options opt = Throw typeError)
  \/ (normalizable options opt = true
      /\ exists e, makeEndpoint now options opt = Ok e).
Proof.
  unfold normalizable, hasAddress, hasPort, hasOwnStatic, makeEndpoint,
    truthyNumber.
  destruct (Raw.ipAddress opt) as [[| c s] |]; try (left; split; reflexivity).
  destruct (Raw.port opt) as [p |];
    [| right; left; repeat split; reflexivity].
  destruct (p =? 0); [right; left; repeat split; reflexivity |].
  unfold myVesselObjects, otherVesselsObjects, myVesselStaticObjects.
  rewrite !getOption_scopes, !getOptionArray_scopes, getOptionArray_own_static.
  unfold ownStaticScopes. cbn [bind negb andb].
  destruct (firstPresent _ Raw.staticUpdateInterval) as [v |].
  - right; right; right. split; [reflexivity |]. cbn [bind]. eexists.
    reflexivity.
  - right; right; left. repeat split; reflexivity.
Qed.

Lemma makeEndpoint_Ok_iff (now : Z) (options : Raw.Options)
    (opt : Raw.EndpointOption) :
  (exists e, makeEndpoint now options opt = Ok e)
  <-> normalizable options opt = true.
Proof.
  unfold normalizable.
  destruct (makeEndpoint_cases now options opt)
    as [[Ha H] | [(Ha & Hp & H) | [(Ha & Hp & Hs & H) | [Hn H]]]].
  - rewrite H, Ha. split; [intros [e He]; discriminate | discriminate].
  - rewrite H, Ha, Hp. split; [intros [e He]; discriminate | discriminate].
  - rewrite H, Ha, Hp, Hs. split; [intros [e He]; discriminate | discriminate].
  - split; [intros _; exact Hn | intros _; exact H].
Qed.

Lemma makeEndpoints_Ok_iff (now : Z) (options : Raw.Options)
    (opts : list Raw.EndpointOption) :
  (exists es, makeEndpoints now options opts = Ok es)
  <-> forallb (normalizable options) opts = true.
Proof.
  induction opts as [| opt opts IH]; cbn [makeEndpoints forallb].
  - split; [reflexivity | intros _; now exists []].
  - rewrite andb_true_iff, <- IH, <- (makeEndpoint_Ok_iff now). split.
    + intros [es H].
      apply bind_Ok in H as (e & He & H).
      apply bind_Ok in H as (es' & Hes & _).
      split; eexists; eassumption.
    + intros [[e He] [es Hes]]. rewrite He, Hes. cbn [bind]. eexists.
      reflexivity.
Qed.

(** X1. Normalization succeeds exactly when every endpoint option has a
    non-empty [ipAddress], a [port] other than 0, and a
    [staticUpdateInterval] in the endpoint's [myVessel] block, in the
    endpoint itself or in the global [myVessel] block. *)
Theorem normalization_succeeds_iff :
  forall (app : App) (now : Z) (options : Raw.Options),
    (exists cfg, makePluginConfiguration app now options = Ok cfg)
    <-> forallb (normalizable options) (Raw.endpoints options) = true.
Proof.
  intros app now options.
  rewrite <- (makeEndpoints_Ok_iff now). unfold makePluginConfiguration.
  split.
  - intros [cfg H]. apply bind_Ok in H as (es & Hes & _). now exists es.
  - intros [es Hes]. rewrite Hes. cbn [bind]. eexists. reflexivity.
Qed.

Lemma makeEndpoints_first_failure (now : Z) (options : Raw.Options)
    (good rest : list Raw.EndpointOption) (bad : Raw.EndpointOption)
    (message : string) :
  forallb (normalizable options) good = true ->
  makeEndpoint now options bad = Throw message ->
  makeEndpoints now options (good ++ bad :: rest) = Throw message.
Proof.
  intros Hgood Hbad. induction good as [| g good IH];
    cbn [app makeEndpoints].
  - now rewrite Hbad.
  - cbn [forallb] in Hgood. apply andb_true_iff in Hgood as [Hg Hgood].
    apply (makeEndpoint_Ok_iff now) in Hg as [e He]. rewrite He.
    cbn [bind]. now rewrite (IH Hgood).
Qed.

(** X2. The exception of a failed normalization is that of the first
    endpoint option, in configuration order, that is not acceptable: the
    'ipAddress' message when its address is missing or empty, else the
    'port' message when its port is missing or 0, else the TypeError of
    the static interval lookup. *)
Theorem normalization_throws_for_first_bad_endpoint :
  forall (app : App) (now : Z) (options : Raw.Options)
         (good rest : list Raw.EndpointOption) (bad : Raw.EndpointOption),
    Raw.endpoints options = (good ++ bad :: rest)%list ->
    forallb (normalizable options) good = true ->
    normalizable options bad = false ->
    makePluginConfiguration app now options
    = Throw (if negb (hasAddress bad)
             then "endpoint has missing 'ipAddress' property"
             else if negb (hasPort bad)
                  then "endpoint has missing 'port' property"
                  else typeError).
Proof.
  intros app now options good rest bad Hsplit Hgood Hbad.
  unfold makePluginConfiguration. rewrite Hsplit.
  rewrite (@makeEndpoints_first_failure now options good rest bad
             (if negb (hasAddress bad)
              then "endpoint has missing 'ipAddress' property"
              else if negb (hasPort bad)
                   then "endpoint has missing 'port' property"
                   else typeError) Hgood); [reflexivity |].
  destruct (makeEndpoint_cases now options bad)
    as [[Ha H] | [(Ha & Hp & H) | [(Ha & Hp & Hs & H) | [Hn H]]]].
  - now rewrite H, Ha.
  - now rewrite H, Ha, Hp.
  - now rewrite H, Ha, Hp.
  - congruence.
Qed.


Lemma normalization_throws_for_first_bad_endpoint_witness :
  makePluginConfiguration Sample.app Sample.startTime Sample.globalStaticOptions
  = Throw typeError.
Proof.
  exact (@normalization_throws_for_first_bad_endpoint Sample.app
           Sample.startTime Sample.globalStaticOptions [] []
           Sample.bareEndpointOption eq_refl eq_refl eq_refl).
Defined.

(** ** Normalization: what a canonical endpoint holds *)

Lemma makeEndpoint_Ok_fields (now : Z) (options : Raw.Options)
    (opt : Raw.EndpointOption) (e : Endpoint) :
  makeEndpoint now options opt = Ok e ->
  (Raw.ipAddress opt = Some (ipAddress e) /\ ipAddress e <> ""
   /\ Raw.port opt = Some (port e) /\ port e <> 0
   /\ name e = match Raw.name opt with
               | Some (String a b) => String a b
               | _ => ipAddress e
               end
   /\ statistics e = initialStatistics now)
  /\ (expiryInterval (myVessel e)
      = orDefault (firstPresent (ownScopes options opt) Raw.expiryInterval)
          DEFAULT_EXPIRY_INTERVAL
      /\ positionUpdateIntervals (myVessel e)
         = orDefault
             (option_map asArray
                (firstPresent (ownScopes options opt)
                   Raw.positionUpdateInterval))
             [DEFAULT_POSITION_UPDATE_INTERVAL]
      /\ Some (staticUpdateIntervals (myVessel e))
         = option_map asArray
             (firstPresent (ownStaticScopes options opt)
                Raw.staticUpdateInterval)
      /\ updateIntervalIndexPath (myVessel e)
         = firstPresent (ownScopes options opt) Raw.updateIntervalIndexPath)
  /\ (expiryInterval (otherVessels e)
      = orDefault (firstPresent (othersScopes options opt) Raw.expiryInterval)
          DEFAULT_EXPIRY_INTERVAL
      /\ positionUpdateIntervals (otherVessels e)
         = orDefault
             (option_map asArray
                (firstPresent (othersScopes options opt)
                   Raw.positionUpdateInterval))
             [DEFAULT_POSITION_UPDATE_INTERVAL]
      /\ staticUpdateIntervals (otherVessels e)
         = orDefault
             (option_map asArray
                (firstPresent (othersScopes options opt)
                   Raw.staticUpdateInterval))
             [DEFAULT_STATIC_DATA_UPDATE_INTERVAL]
      /\ updateIntervalIndexPath (otherVessels e)
         = firstPresent (othersScopes options opt) Raw.updateIntervalIndexPath).
Proof.
  unfold makeEndpoint.
  destruct (Raw.ipAddress opt) as [[| c s] |]; try discriminate.
  destruct (Raw.port opt) as [p |]; try discriminate.
  destruct (Z.eqb_spec p 0) as [| Hp]; try discriminate.
  unfold myVesselObjects, otherVesselsObjects, myVesselStaticObjects.
  rewrite !getOption_scopes, !getOptionArray_scopes, getOptionArray_own_static.
  cbn [bind].
  fold (ownScopes options opt). fold (othersScopes options opt).
  fold (ownStaticScopes options opt).
  destruct (firstPresent (ownStaticScopes options opt)
              Raw.staticUpdateInterval) as [v |]; cbn [bind];
    [| discriminate].
  intro H. injection H as <-.
  assert (Hidx : forall scopes,
             orDefault (firstPresent scopes indexPathProp) None
             = firstPresent scopes Raw.updateIntervalIndexPath).
  { induction scopes as [| o scopes IH]; cbn [firstPresent orDefault].
    - reflexivity.
    - unfold indexPathProp at 1.
      destruct (Raw.updateIntervalIndexPath o); [reflexivity | exact IH]. }
  repeat split; try reflexivity; try assumption; try discriminate;
    first [ exact (Hidx (ownScopes options opt))
          | exact (Hidx (othersScopes options opt)) ].
Qed.

(** X3. A successful normalization yields one endpoint per endpoint
    option, in the same order, with the option's address and port (never
    empty, never 0), named after the option's [name] or else its address,
    and with statistics that are all zero and started at the time of the
    call; the own identity and transceiver class come from the host, the
    class defaulting to B. *)
Theorem normalization_keeps_endpoints_in_order :
  forall (app : App) (now : Z) (options : Raw.Options)
         (cfg : PluginConfiguration),
    makePluginConfiguration app now options = Ok cfg ->
    Forall2
      (fun opt e =>
         Raw.ipAddress opt = Some (ipAddress e) /\ ipAddress e <> ""
         /\ Raw.port opt = Some (port e) /\ port e <> 0
         /\ name e = match Raw.name opt with
                     | Some (String a b) => String a b
                     | _ => ipAddress e
                     end
         /\ statistics e = initialStatistics now)
      (Raw.endpoints options) (endpoints cfg)
    /\ myMMSI cfg = selfMmsi app
    /\ myAisClass cfg = match selfAisClass app with
                        | Some (String a b) => String a b
                        | _ => "B"
                        end.
Proof.
  intros app now options cfg H. split.
  - apply makePluginConfiguration_Ok in H.
    induction H as [| opt e opts es He _ IH]; constructor.
    + exact (proj1 (makeEndpoint_Ok_fields _ _ _ He)).
    + exact IH.
  - unfold makePluginConfiguration in H.
    apply bind_Ok in H as (es & _ & H). inversion H; subst cfg.
    split; reflexivity.
Qed.

Lemma normalization_keeps_endpoints_in_order_witness :
  map ipAddress (endpoints Sample.configuration) = ["10.0.0.1"]
  /\ myMMSI Sample.configuration = selfMmsi Sample.app.
Proof.
  destruct (@normalization_keeps_endpoints_in_order Sample.app
              Sample.startTime Sample.options Sample.configuration eq_refl)
    as [_ [Hm _]].
  split; [reflexivity | exact Hm].
Defined.

(** X4. In a canonical endpoint every value of the other vessels' block,
    and the expiry interval, position intervals and index path of the own
    vessel's block, is the value of the first of: the endpoint's class
    block, the endpoint, the global class block, the global options; the
    default (15, [5], [15], no path) applies when none has it. The own
    vessel's static intervals come from the first three of these only. *)
Theorem normalization_resolution_order :
  forall (app : App) (now : Z) (options : Raw.Options)
         (cfg : PluginConfiguration),
    makePluginConfiguration app now options = Ok cfg ->
    Forall2
      (fun opt e =>
         (expiryInterval (myVessel e)
          = orDefault (firstPresent (ownScopes options opt) Raw.expiryInterval)
              15
          /\ positionUpdateIntervals (myVessel e)
             = orDefault
                 (option_map asArray
                    (firstPresent (ownScopes options opt)
                       Raw.positionUpdateInterval))
                 [5]
          /\ Some (staticUpdateIntervals (myVessel e))
             = option_map asArray
                 (firstPresent (ownStaticScopes options opt)
                    Raw.staticUpdateInterval)
          /\ updateIntervalIndexPath (myVessel e)
             = firstPresent (ownScopes options opt)
                 Raw.updateIntervalIndexPath)
         /\ (expiryInterval (otherVessels e)
             = orDefault
                 (firstPresent (othersScopes options opt) Raw.expiryInterval)
                 15
             /\ positionUpdateIntervals (otherVessels e)
                = orDefault
                    (option_map asArray
                       (firstPresent (othersScopes options opt)
                          Raw.positionUpdateInterval))
                    [5]
             /\ staticUpdateIntervals (otherVessels e)
                = orDefault
                    (option_map asArray
                       (firstPresent (othersScopes options opt)
                          Raw.staticUpdateInterval))
                    [15]
             /\ updateIntervalIndexPath (otherVessels e)
                = firstPresent (othersScopes options opt)
                    Raw.updateIntervalIndexPath))
      (Raw.endpoints options) (endpoints cfg).
Proof.
  intros app now options cfg H.
  apply makePluginConfiguration_Ok in H.
  induction H as [| opt e opts es He _ IH]; constructor.
  - exact (proj2 (makeEndpoint_Ok_fields _ _ _ He)).
  - exact IH.
Qed.

Lemma normalization_resolution_order_witness :
  map (fun e => positionUpdateIntervals (otherVessels e))
    (endpoints Sample.configuration)
  = [[5; 1]].
Proof.
  pose proof (@normalization_resolution_order Sample.app Sample.startTime
                Sample.options Sample.configuration eq_refl) as H.
  inversion H as [| opt e opts es (_ & _ & Hp & _) Hrest]; subst.
  inversion Hrest; subst.
  cbn [map endpoints Sample.configuration]. now rewrite Hp.
Defined.

(** ** The scheduler *)

Lemma fires_iff_divides (t i : Z) :
  fires t i = true <-> i <> 0 /\ (i | t).
Proof.
  unfold fires. destruct (Z.eqb_spec i 0) as [-> | Hi].
  - split; [discriminate | intros [H _]; congruence].
  - rewrite Z.eqb_eq, (Z.rem_divide t i Hi). tauto.
Qed.

(** Adding a multiple of the interval to the tick counter does not change
    the firing decision. *)
Lemma fires_period (t d i : Z) :
  i = 0 \/ (i | d) -> fires (t + d) i = fires t i.
Proof.
  intros [-> | Hd]; [reflexivity |].
  apply eq_true_iff_eq. rewrite !fires_iff_divides.
  split; intros [Hi Ht]; (split; [exact Hi |]).
  - replace t with (t + d - d) by lia. now apply Z.divide_sub_r.
  - now apply Z.divide_add_r.
Qed.

(** On tick counter 0 every interval that is not 0 fires. *)
Lemma fires_at_zero (i : Z) : fires 0 i = negb (i =? 0).
Proof.
  unfold fires. destruct (Z.eqb_spec i 0) as [_ | Hi]; [reflexivity |].
  now rewrite (Z.rem_0_l i Hi).
Qed.

Section Scheduling.

Variable Fields : Type.
Variable AisEncode : AisProperties Fields -> option string.


(** X6. What the heartbeat does for an endpoint is periodic in the tick
    counter: with the intervals as resolved, and on the same vessels and
    clock reading, adding to the counter a number that every interval
    other than 0 divides changes neither the datagrams sent nor the last
    report times nor the totals. On tick counter 0 every class and report
    type whose interval is not 0 fires: the generators are run with exactly
    these flags, and a report type with an interval other than 0 has its
    statistics updated with the result of its generator. *)
Theorem endpoint_schedule_is_periodic_and_complete_at_counter_zero :
  forall (cfg : PluginConfiguration) (tick : Tick Fields) (socket : Socket)
         (e : Endpoint),
    let interval := resolvedInterval tick e in
    let at_counter t := reportEndpoint AisEncode cfg tick t socket e in
    (forall t d,
       (forall c r, interval c r = 0 \/ (interval c r | d)) ->
       fst (at_counter (t + d)) = fst (at_counter t)
       /\ forall r,
            lastReportTimestamp (statisticsOf (snd (at_counter (t + d))) r)
            = lastReportTimestamp (statisticsOf (snd (at_counter t)) r)
            /\ totalReportsTransmitted
                 (statisticsOf (snd (at_counter (t + d))) r)
               = totalReportsTransmitted (statisticsOf (snd (at_counter t)) r)
            /\ totalBytesTransmitted
                 (statisticsOf (snd (at_counter (t + d))) r)
               = totalBytesTransmitted (statisticsOf (snd (at_counter t)) r))
    /\ (let enabled c r := negb (interval c r =? 0) in
        let sentPosition :=
          reportPosition AisEncode cfg socket e tick
            (enabled Self Position) (enabled Others Position) in
        let sentStatic :=
          reportStatic AisEncode cfg (fst sentPosition) e tick
            (enabled Self Static) (enabled Others Static) in
        fst (at_counter 0) = fst sentStatic
        /\ forall r,
             (exists c, interval c r <> 0) ->
             statisticsOf (snd (at_counter 0)) r
             = updateReportStatistics (now tick) 0 (statisticsOf e r)
                 (match r with
                  | Position => snd sentPosition
                  | Static => snd sentStatic
                  end)).
Proof.
  intros cfg tick socket e interval at_counter. split.
  - intros t d Hd.
    assert (Hflag : forall c r,
              reportFlag tick e (t + d) c r = reportFlag tick e t c r).
    { intros c r. unfold reportFlag. apply fires_period, Hd. }
    subst at_counter. cbv beta. rewrite !reportEndpoint_flags. cbv zeta.
    rewrite !Hflag. split; [reflexivity |].
    intro r. cbn [snd]. unfold foldStatic, foldPosition.
    destruct (reportFlag tick e t Self Static
              || reportFlag tick e t Others Static),
             (reportFlag tick e t Self Position
              || reportFlag tick e t Others Position), r;
      repeat split.
  - cbv zeta.
    assert (Hflag : forall c r,
              reportFlag tick e 0 c r = negb (interval c r =? 0)).
    { intros c r. unfold reportFlag. apply fires_at_zero. }
    subst at_counter. cbv beta. rewrite reportEndpoint_flags. cbv zeta.
    rewrite !Hflag. split; [reflexivity |].
    intros r Hr.
    assert (Hfired : negb (interval Self r =? 0)
                     || negb (interval Others r =? 0) = true).
    { destruct Hr as [c Hc]. apply Z.eqb_neq in Hc.
      destruct c; rewrite Hc; [reflexivity | apply orb_true_r]. }
    cbn [snd]. unfold foldStatic, foldPosition.
    destruct r; rewrite Hfired.
    + now destruct (negb (interval Self Static =? 0)
                    || negb (interval Others Static =? 0)).
    + now destruct (negb (interval Self Position =? 0)
                    || negb (interval Others Position =? 0)).
Qed.

Lemma withStatistics_statistics (e : Endpoint) :
  withStatistics e (statistics e) = e.
Proof. now destruct e. Qed.

Lemma withPosition_static (s : Statistics) (p : ReportTypeStatistics) :
  static (withPosition s p) = static s.
Proof. reflexivity. Qed.

Lemma not_due (t i j : Z) :
  fires t i = false -> fires t j = false -> due t i || due t j = false.
Proof. intros Hi Hj. now rewrite !due_fires, Hi, Hj. Qed.

Lemma some_due (t i j : Z) :
  fires t i = true \/ fires t j = true -> due t i || due t j = true.
Proof.
  rewrite !due_fires. intros [-> | ->]; [reflexivity | apply orb_true_r].
Qed.

(** X7. An endpoint for which no class is due for a report type keeps the
    statistics of that type as they are, window and last report time
    included; when nothing is due for either type, the heartbeat leaves
    the endpoint and the socket untouched. *)
Theorem endpoint_not_due_is_untouched :
  forall (cfg : PluginConfiguration) (tick : Tick Fields) (t : Z)
         (socket : Socket) (e : Endpoint),
    let e' := snd (reportEndpoint AisEncode cfg tick t socket e) in
    ((forall c, reportFlag tick e t c Position = false) ->
     position (statistics e') = position (statistics e))
    /\ ((forall c, reportFlag tick e t c Static = false) ->
        static (statistics e') = static (statistics e))
    /\ ((forall c r, reportFlag tick e t c r = false) ->
        reportEndpoint AisEncode cfg tick t socket e = (socket, e)).
Proof.
  intros cfg tick t socket e e'. subst e'. unfold reportFlag.
  split; [| split].
  - intro H. unfold reportEndpoint.
    rewrite (not_due _ _ _ (H Self) (H Others)).
    destruct (due t (resolvedInterval tick e Self Static)
              || due t (resolvedInterval tick e Others Static));
      [| reflexivity].
    destruct (reportStatic AisEncode cfg socket e tick _ _); reflexivity.
  - intro H. unfold reportEndpoint.
    rewrite (not_due _ _ _ (H Self) (H Others)).
    destruct (due t (resolvedInterval tick e Self Position)
              || due t (resolvedInterval tick e Others Position));
      [| reflexivity].
    destruct (reportPosition AisEncode cfg socket e tick _ _); reflexivity.
  - intro H. unfold reportEndpoint.
    rewrite (not_due _ _ _ (H Self Position) (H Others Position)).
    rewrite (not_due _ _ _ (H Self Static) (H Others Static)).
    now rewrite withStatistics_statistics.
Qed.

End Scheduling.

Lemma endpoint_schedule_is_periodic_and_complete_at_counter_zero_witness :
  fst (reportEndpoint Sample.encodeAll Sample.configuration
         (Sample.tick Sample.startTime None) (0 + 15) [] Sample.endpoint)
  = fst (reportEndpoint Sample.encodeAll Sample.configuration
           (Sample.tick Sample.startTime None) 0 [] Sample.endpoint)
  /\ statisticsOf
       (snd (reportEndpoint Sample.encodeAll Sample.configuration
               (Sample.tick Sample.startTime None) 0 [] Sample.endpoint))
       Position
     = updateReportStatistics Sample.startTime 0
         (statisticsOf Sample.endpoint Position)
         (snd (reportPosition Sample.encodeAll Sample.configuration []
                 Sample.endpoint (Sample.tick Sample.startTime None)
                 true true)).
Proof.
  pose proof (@endpoint_schedule_is_periodic_and_complete_at_counter_zero
                unit Sample.encodeAll Sample.configuration
                (Sample.tick Sample.startTime None) [] Sample.endpoint)
    as [Hperiod [_ Hzero]].
  split.
  - refine (proj1 (Hperiod 0 15 _)).
    intros [|] [|]; right;
      [exists 3 | exists 1 | exists 3 | exists 1]; reflexivity.
  - refine (Hzero Position _). exists Self. vm_compute. discriminate.
Defined.

Lemma endpoint_not_due_is_untouched_witness :
  reportEndpoint Sample.encodeAll Sample.configuration
    (Sample.tick Sample.startTime None) 7 [] Sample.endpoint
  = ([], Sample.endpoint).
Proof.
  refine (proj2 (proj2
    (@endpoint_not_due_is_untouched unit Sample.encodeAll Sample.configuration
       (Sample.tick Sample.startTime None) 7 [] Sample.endpoint)) _).
  intros [|] [|]; reflexivity.
Defined.


(** ** What a generator sends and counts *)

Lemma filter_filter (A : Type) (f g : A -> bool) (l : list A) :
  filter f (filter g l) = filter (fun x => g x && f x) l.
Proof.
  induction l as [| x l IH]; cbn [filter]; [reflexivity |].
  destruct (g x); cbn [filter andb]; [| exact IH].
  destruct (f x); now rewrite IH.
Qed.

Lemma bytesOf_app (l l' : list string) :
  bytesOf (l ++ l')%list = bytesOf l + bytesOf l'.
Proof.
  unfold bytesOf. induction l as [| x l IH]; cbn [app map fold_right];
    [lia | rewrite IH; lia].
Qed.

Lemma wireBytes_app (s s' : Socket) :
  wireBytes (s ++ s')%list = wireBytes s + wireBytes s'.
Proof.
  unfold wireBytes. induction s as [| x s IH]; cbn [app map fold_right];
    [lia | rewrite IH; lia].
Qed.

Lemma wireBytes_datagrams (endpoint : Endpoint) (sentences : list string) :
  wireBytes (map (fun msg => datagram msg endpoint) sentences)
  = bytesOf sentences.
Proof.
  unfold wireBytes, bytesOf.
  induction sentences as [| x l IH]; cbn [map fold_right];
    [reflexivity | now rewrite IH].
Qed.

Section Deliveries.

Variable Fields : Type.
Variable AisEncode : AisProperties Fields -> option string.
Variable cfg : PluginConfiguration.
Variable endpoint : Endpoint.

Lemma candidates_filter (tick : Tick Fields) (reportSelf reportOthers : bool) :
  candidates cfg endpoint tick reportSelf reportOthers
  = filter (isEligible cfg endpoint (now tick) reportSelf reportOthers)
      (vessels tick).
Proof. unfold candidates. apply filter_filter. Qed.

Lemma positionReport_deliver (reportSelf : bool) (st : Progress)
    (vessel : Vessel Fields) :
  positionReport AisEncode cfg endpoint reportSelf st vessel
  = deliver cfg endpoint reportSelf (positionSentences AisEncode cfg)
      st vessel.
Proof.
  unfold positionReport, deliver, positionSentences.
  destruct (positionFields vessel) as [f |]; [| reflexivity].
  destruct (AisEncode (positionProperties cfg vessel f)) as [nmea |];
    [| reflexivity].
  unfold sendReportMsg, bytesOf, sentenceBytes. cbn [map fold_right].
  now rewrite Z.add_0_r.
Qed.

Lemma staticReport_deliver (reportSelf : bool) (st : Progress)
    (vessel : Vessel Fields) :
  staticReport AisEncode cfg endpoint reportSelf st vessel
  = deliver cfg endpoint reportSelf (staticSentences AisEncode cfg)
      st vessel.
Proof.
  unfold staticReport, deliver, staticSentences.
  destruct (staticFields vessel) as [f |]; [| reflexivity].
  destruct (String.eqb (aisClassOf cfg vessel) "A").
  - destruct (AisEncode (staticProperties vessel 5 None f)) as [nmea |];
      [| reflexivity].
    unfold sendReportMsg, bytesOf, sentenceBytes. cbn [map fold_right].
    now rewrite Z.add_0_r.
  - destruct (String.eqb (aisClassOf cfg vessel) "B"); [| reflexivity].
    destruct (AisEncode (staticProperties vessel 24 (Some 0) f))
      as [nmea |]; [| reflexivity].
    destruct (AisEncode (staticProperties vessel 24 (Some 1) f))
      as [nmeaB |]; [| reflexivity].
    unfold sendReportMsg, bytesOf, sentenceBytes.
    cbn [map fold_right fst snd].
    rewrite <- app_assoc, Z.add_0_r. reflexivity.
Qed.

Lemma fold_left_ext_In (A B : Type) (f g : A -> B -> A) (l : list B) (a : A) :
  (forall a b, In b l -> f a b = g a b) ->
  fold_left f l a = fold_left g l a.
Proof.
  revert a. induction l as [| b l IH]; intros a H; cbn [fold_left].
  - reflexivity.
  - rewrite (H a b (or_introl eq_refl)). apply IH.
    intros a' b' Hb. apply H. now right.
Qed.

Variable sentencesOf : Vessel Fields -> list string.

(** The outcome of delivering the reports of vessels that all passed the
    class filter. *)
Lemma deliver_all (reportSelf reportOthers : bool)
    (vs : list (Vessel Fields)) (socket : Socket) (rs : ReportStatistics) :
  Forall (fun v => classReported cfg reportSelf reportOthers v = true) vs ->
  let st' := fold_left (deliver cfg endpoint reportSelf sentencesOf) vs
               (socket, rs) in
  fst st'
  = (socket ++ map (fun msg => datagram msg endpoint)
                 (List.concat (map sentencesOf vs)))%list
  /\ forall c,
       count (countsOf (snd st') c)
       = count (countsOf rs c)
         + Z.of_nat (List.length (reportsOf cfg sentencesOf c vs))
       /\ bytes (countsOf (snd st') c)
          = bytes (countsOf rs c)
            + bytesOf (List.concat (reportsOf cfg sentencesOf c vs)).
Proof.
  intro Hall. revert socket rs.
  induction Hall as [| v vs Hv _ IH]; intros socket rs; cbn zeta.
  - cbn [fold_left map List.concat fst snd]. rewrite app_nil_r. split.
    + reflexivity.
    + intro c. unfold reportsOf. cbn. lia.
  - cbn [fold_left map List.concat].
    assert (Hstep :
      deliver cfg endpoint reportSelf sentencesOf (socket, rs) v
      = ((socket ++ map (fun msg => datagram msg endpoint) (sentencesOf v))%list,
         if isReport (sentencesOf v)
         then account cfg reportSelf v (bytesOf (sentencesOf v)) rs
         else rs)).
    { unfold deliver.
      destruct (sentencesOf v) as [| s l]; cbn [isReport fst snd map].
      - now rewrite app_nil_r.
      - reflexivity. }
    rewrite Hstep.
    destruct (IH (socket ++ map (fun msg => datagram msg endpoint)
                              (sentencesOf v))%list
                 (if isReport (sentencesOf v)
                  then account cfg reportSelf v (bytesOf (sentencesOf v)) rs
                  else rs)) as [Hsock Hcounts].
    cbn zeta in Hsock, Hcounts. split.
    + etransitivity; [exact Hsock |].
      rewrite map_app, app_assoc. reflexivity.
    + intro c. destruct (Hcounts c) as [Hc Hb].
      pose proof (@account_class Fields cfg reportSelf reportOthers v
                    (bytesOf (sentencesOf v)) rs Hv) as [Hown Hother].
      cbv zeta in Hown, Hother. unfold classOf in Hown, Hother.
      split; (etransitivity; [first [exact Hc | exact Hb] |]);
        unfold reportsOf; cbn [filter map];
        destruct c, (isSelf cfg v) eqn:Eself;
        cbn [belongsTo negb filter map otherClass] in *;
        try rewrite Eself; cbn [negb filter map];
        destruct (isReport (sentencesOf v)) eqn:Erep;
        cbn [filter List.concat List.length];
        rewrite ?Hown, ?Hother, ?bytesOf_app; cbn [addReport count bytes];
        lia.
Qed.

End Deliveries.


Lemma filter_none (A : Type) (f : A -> bool) (l : list A) :
  Forall (fun x => f x = false) l -> filter f l = [].
Proof.
  induction 1 as [| x l Hx _ IH]; cbn [filter]; [reflexivity |].
  now rewrite Hx.
Qed.

Section Generated.

Variable Fields : Type.
Variable AisEncode : AisProperties Fields -> option string.
Variable cfg : PluginConfiguration.
Variable endpoint : Endpoint.

Lemma eligible_classReported (now : Z) (reportSelf reportOthers : bool)
    (vs : list (Vessel Fields)) :
  Forall (fun v => classReported cfg reportSelf reportOthers v = true)
    (filter (isEligible cfg endpoint now reportSelf reportOthers) vs).
Proof.
  apply Forall_forall. intros v Hv. apply filter_In in Hv as [_ Hv].
  unfold isEligible in Hv. now apply andb_true_iff in Hv.
Qed.

Lemma reportPosition_deliver (socket : Socket) (tick : Tick Fields)
    (reportSelf reportOthers : bool) :
  reportPosition AisEncode cfg socket endpoint tick reportSelf reportOthers
  = fold_left
      (deliver cfg endpoint reportSelf (positionSentences AisEncode cfg))
      (filter (isEligible cfg endpoint (now tick) reportSelf reportOthers)
         (vessels tick))
      (socket, noReports).
Proof.
  unfold reportPosition. rewrite candidates_filter.
  apply fold_left_ext_In. intros st v _. apply positionReport_deliver.
Qed.

Lemma reportStatic_deliver (socket : Socket) (tick : Tick Fields)
    (reportSelf reportOthers : bool) :
  reportStatic AisEncode cfg socket endpoint tick reportSelf reportOthers
  = fold_left
      (deliver cfg endpoint reportSelf (staticSentences AisEncode cfg))
      (filter (isEligible cfg endpoint (now tick) reportSelf reportOthers)
         (vessels tick))
      (socket, noReports).
Proof.
  unfold reportStatic. rewrite candidates_filter.
  apply fold_left_ext_In. intros st v _. apply staticReport_deliver.
Qed.

(** The outcome of delivering the reports of the eligible vessels of a
    tick, whatever the sentences of a vessel are. *)
Lemma deliver_eligible (sentencesOf : Vessel Fields -> list string)
    (socket : Socket) (tick : Tick Fields) (reportSelf reportOthers : bool) :
  let eligible :=
    filter (isEligible cfg endpoint (now tick) reportSelf reportOthers)
      (vessels tick) in
  let result :=
    fold_left (deliver cfg endpoint reportSelf sentencesOf) eligible
      (socket, noReports) in
  fst result
  = (socket
     ++ map (fun msg => datagram msg endpoint)
          (List.concat (map sentencesOf eligible)))%list
  /\ forall c,
       count (countsOf (snd result) c)
       = Z.of_nat (List.length (reportsOf cfg sentencesOf c eligible))
       /\ bytes (countsOf (snd result) c)
          = bytesOf (List.concat (reportsOf cfg sentencesOf c eligible)).
Proof.
  intros eligible result. subst result.
  destruct (@deliver_all Fields cfg endpoint sentencesOf
              reportSelf reportOthers eligible socket noReports
              (eligible_classReported (now tick) reportSelf reportOthers
                 (vessels tick))) as [Hs Hc].
  cbv zeta in Hs, Hc. split; [exact Hs |].
  intro c. destruct (Hc c) as [H1 H2]. rewrite H1, H2.
  destruct c; cbn; split; reflexivity.
Qed.

(** X8. A position report run hands to the socket, in the order of the
    vessel registry, the encoding of every vessel that is eligible and
    encodes, and nothing else; for each class it returns the number of
    these vessels that belong to the class and the bytes of their
    sentences. *)
Theorem reportPosition_reports_eligible_encodable_vessels :
  forall (socket : Socket) (tick : Tick Fields)
         (reportSelf reportOthers : bool),
    let eligible :=
      filter (isEligible cfg endpoint (now tick) reportSelf reportOthers)
        (vessels tick) in
    let result :=
      reportPosition AisEncode cfg socket endpoint tick
        reportSelf reportOthers in
    fst result
    = (socket
       ++ map (fun msg => datagram msg endpoint)
            (List.concat (map (positionSentences AisEncode cfg) eligible)))%list
    /\ forall c,
         count (countsOf (snd result) c)
         = Z.of_nat
             (List.length
                (reportsOf cfg (positionSentences AisEncode cfg) c eligible))
         /\ bytes (countsOf (snd result) c)
            = bytesOf
                (List.concat
                   (reportsOf cfg (positionSentences AisEncode cfg) c eligible)).
Proof.
  intros socket tick reportSelf reportOthers eligible result.
  subst result eligible. rewrite reportPosition_deliver.
  apply (deliver_eligible (positionSentences AisEncode cfg)).
Qed.

(** X9. A static report run hands to the socket, in the order of the
    vessel registry, the sentences of every eligible vessel whose static
    report encodes: one sentence for a class A vessel, the two parts for a
    class B vessel, none for a vessel of any other class; for each vessel
    class it returns the number of vessels reported, not of sentences, and
    the bytes of their sentences. *)
Theorem reportStatic_reports_eligible_encodable_vessels :
  forall (socket : Socket) (tick : Tick Fields)
         (reportSelf reportOthers : bool),
    let eligible :=
      filter (isEligible cfg endpoint (now tick) reportSelf reportOthers)
        (vessels tick) in
    let result :=
      reportStatic AisEncode cfg socket endpoint tick
        reportSelf reportOthers in
    fst result
    = (socket
       ++ map (fun msg => datagram msg endpoint)
            (List.concat (map (staticSentences AisEncode cfg) eligible)))%list
    /\ forall c,
         count (countsOf (snd result) c)
         = Z.of_nat
             (List.length
                (reportsOf cfg (staticSentences AisEncode cfg) c eligible))
         /\ bytes (countsOf (snd result) c)
            = bytesOf
                (List.concat
                   (reportsOf cfg (staticSentences AisEncode cfg) c eligible)).
Proof.
  intros socket tick reportSelf reportOthers eligible result.
  subst result eligible. rewrite reportStatic_deliver.
  apply (deliver_eligible (staticSentences AisEncode cfg)).
Qed.

Lemma eligible_of_class_none (now : Z) (reportSelf reportOthers : bool)
    (c : VesselClass) (vs : list (Vessel Fields)) :
  match c with Self => reportSelf | Others => reportOthers end = false ->
  filter (belongsTo cfg c)
    (filter (isEligible cfg endpoint now reportSelf reportOthers) vs)
  = [].
Proof.
  intro Hoff. apply filter_none.
  pose proof (eligible_classReported now reportSelf reportOthers vs) as H.
  rewrite Forall_forall in *. intros v Hv. specialize (H v Hv).
  unfold classReported in H.
  destruct c; cbn [belongsTo];
    destruct (isSelf cfg v), reportSelf, reportOthers;
    cbn in *; congruence.
Qed.

(** X10. The class flags of a generator call are honoured: a call with
    [reportSelf] off returns zero reports and bytes for the own vessel,
    and a call with [reportOthers] off returns zero reports and bytes for
    the other vessels, for position and for static reports alike. *)
Theorem generators_honour_class_flags :
  forall (socket : Socket) (tick : Tick Fields)
         (reportSelf reportOthers : bool) (c : VesselClass),
    match c with Self => reportSelf | Others => reportOthers end = false ->
    countsOf
      (snd (reportPosition AisEncode cfg socket endpoint tick
              reportSelf reportOthers)) c
    = mkCounts 0 0
    /\ countsOf
         (snd (reportStatic AisEncode cfg socket endpoint tick
                 reportSelf reportOthers)) c
       = mkCounts 0 0.
Proof.
  intros socket tick reportSelf reportOthers c Hoff.
  rewrite reportPosition_deliver, reportStatic_deliver.
  destruct (deliver_eligible (positionSentences AisEncode cfg) socket tick
              reportSelf reportOthers) as [_ HP].
  destruct (deliver_eligible (staticSentences AisEncode cfg) socket tick
              reportSelf reportOthers) as [_ HS].
  cbv zeta in HP, HS. destruct (HP c) as [HP1 HP2]. destruct (HS c) as [HS1 HS2].
  unfold reportsOf in *.
  rewrite (eligible_of_class_none (now tick) reportSelf reportOthers c
             (vessels tick) Hoff) in *.
  cbn in HP1, HP2, HS1, HS2.
  split.
  - destruct (countsOf (snd (fold_left
                (deliver cfg endpoint reportSelf
                   (positionSentences AisEncode cfg)) _ _)) c) as [n b].
    cbn in *. now subst.
  - destruct (countsOf (snd (fold_left
                (deliver cfg endpoint reportSelf
                   (staticSentences AisEncode cfg)) _ _)) c) as [n b].
    cbn in *. now subst.
Qed.

(** X11. A vessel that is not eligible, or whose report does not encode,
    is skipped without any effect on the reports of the other vessels:
    the outcome of a generator run is the same as if the vessel were not
    in the registry. *)
Theorem generators_skip_unreportable_vessels :
  forall (socket : Socket) (tick : Tick Fields)
         (reportSelf reportOthers : bool)
         (before after : list (Vessel Fields)) (vessel : Vessel Fields),
    let eligible :=
      isEligible cfg endpoint (now tick) reportSelf reportOthers vessel in
    (eligible = false \/ positionSentences AisEncode cfg vessel = [] ->
     reportPosition AisEncode cfg socket endpoint
       (withVessels tick (before ++ vessel :: after)) reportSelf reportOthers
     = reportPosition AisEncode cfg socket endpoint
         (withVessels tick (before ++ after)) reportSelf reportOthers)
    /\ (eligible = false \/ staticSentences AisEncode cfg vessel = [] ->
        reportStatic AisEncode cfg socket endpoint
          (withVessels tick (before ++ vessel :: after)) reportSelf reportOthers
        = reportStatic AisEncode cfg socket endpoint
            (withVessels tick (before ++ after)) reportSelf reportOthers).
Proof.
  intros socket tick reportSelf reportOthers before after vessel eligible.
  subst eligible.
  split; intro H;
    rewrite ?reportPosition_deliver, ?reportStatic_deliver;
    cbn [withVessels vessels now];
    rewrite !filter_app, !fold_left_app; cbn [filter];
    (destruct (isEligible cfg endpoint (now tick) reportSelf reportOthers
                 vessel) eqn:E; [| reflexivity]);
    (destruct H as [H | H]; [discriminate |]);
    cbn [fold_left]; unfold deliver at 2; now rewrite H.
Qed.

End Generated.

Lemma generators_honour_class_flags_witness :
  countsOf
    (snd (reportPosition Sample.encodeAll Sample.configuration []
            Sample.endpoint (Sample.tick Sample.startTime None) false true))
    Self
  = mkCounts 0 0.
Proof.
  exact (proj1 (@generators_honour_class_flags unit Sample.encodeAll
                  Sample.configuration Sample.endpoint []
                  (Sample.tick Sample.startTime None) false true Self
                  eq_refl)).
Defined.

Lemma generators_skip_unreportable_vessels_witness :
  reportStatic Sample.encoder Sample.configuration [] Sample.endpoint
    (withVessels (Sample.tick Sample.startTime None)
       ([] ++ Sample.ownVessel (Sample.startTime - 1000)
           :: [Sample.otherVessel (Sample.startTime - 1000)]))
    true true
  = reportStatic Sample.encoder Sample.configuration [] Sample.endpoint
      (withVessels (Sample.tick Sample.startTime None)
         ([] ++ [Sample.otherVessel (Sample.startTime - 1000)]))
      true true.
Proof.
  refine (proj2 (@generators_skip_unreportable_vessels unit Sample.encoder
                   Sample.configuration Sample.endpoint []
                   (Sample.tick Sample.startTime None) true true []
                   [Sample.otherVessel (Sample.startTime - 1000)]
                   (Sample.ownVessel (Sample.startTime - 1000))) _).
  right. reflexivity.
Defined.

(** ** More on eligibility and on vessel classes *)

(** X12. In a generator call made for both classes at once, the freshness
    filter does not look at the class of the vessel: a vessel with a
    timestamped fix is eligible exactly when the age of the fix is less
    than the larger of the two classes' expiry windows. *)
Theorem eligibility_with_both_flags_uses_larger_window :
  forall (Fields : Type) (cfg : PluginConfiguration) (endpoint : Endpoint)
         (now : Z) (vessel : Vessel Fields),
    isEligible cfg endpoint now true true vessel = true
    <-> exists t,
          positionTimestamp vessel = Some t
          /\ now - t < Z.max (expiryWindow endpoint Self)
                          (expiryWindow endpoint Others).
Proof.
  intros Fields cfg endpoint now vessel.
  unfold isEligible, classReported, fixFresh, expiryWindow.
  cbn [andb]. rewrite orb_negb_r. cbn [andb].
  rewrite orb_true_iff, !fixNewerThan_spec. split.
  - intros [[t [Ht H]] | [t [Ht H]]]; exists t; split; try exact Ht; lia.
  - intros [t [Ht H]].
    destruct (Z.max_spec (expiryInterval (myVessel endpoint) * 6000)
                (expiryInterval (otherVessels endpoint) * 60000))
      as [[_ E] | [_ E]]; rewrite E in H.
    + right. exists t. split; [exact Ht | lia].
    + left. exists t. split; [exact Ht | lia].
Qed.

(** X13. A vessel whose transceiver class is neither A nor B gets no
    static report: nothing is sent and nothing is counted for it, whatever
    the encoder would accept. Its position reports are of type 18, as for
    class B; only class A vessels get type 1. *)
Theorem vessel_of_unknown_class_has_no_static_report :
  forall (Fields : Type) (AisEncode : AisProperties Fields -> option string)
         (cfg : PluginConfiguration) (endpoint : Endpoint)
         (reportSelf : bool) (st : Progress) (vessel : Vessel Fields),
    aisClassOf cfg vessel <> "A" ->
    aisClassOf cfg vessel <> "B" ->
    staticReport AisEncode cfg endpoint reportSelf st vessel = st
    /\ forall f, aistype (positionProperties cfg vessel f) = 18.
Proof.
  intros Fields AisEncode cfg endpoint reportSelf st vessel HA HB.
  apply String.eqb_neq in HA. apply String.eqb_neq in HB. split.
  - unfold staticReport. rewrite HA, HB.
    now destruct (staticFields vessel).
  - intro f. cbn [positionProperties aistype]. now rewrite HA.
Qed.

Lemma vessel_of_unknown_class_has_no_static_report_witness :
  staticReport Sample.encodeAll Sample.configuration Sample.endpoint false
    ([], noReports)
    {| mmsi := Some "244000003"; positionTimestamp := Some 0;
       aisClassValue := Some "none";
       positionFields := Some tt; staticFields := Some tt |}
  = ([], noReports).
Proof.
  refine (proj1 (@vessel_of_unknown_class_has_no_static_report unit
                   Sample.encodeAll Sample.configuration Sample.endpoint false
                   ([], noReports)
                   {| mmsi := Some "244000003"; positionTimestamp := Some 0;
                      aisClassValue := Some "none";
                      positionFields := Some tt; staticFields := Some tt |}
                   _ _)); discriminate.
Defined.


(** ** A running plugin: the wire, the totals and the rings *)

Lemma string_length_append (s s' : string) :
  String.length (s ++ s') = (String.length s + String.length s')%nat.
Proof.
  induction s as [| a s IH]; cbn [append String.length]; [reflexivity |].
  now rewrite IH.
Qed.

Lemma datagram_wellAddressed (es : list Endpoint) (e : Endpoint)
    (msg : string) :
  In e es -> wellAddressed es (datagram msg e).
Proof.
  intro He. unfold wellAddressed, datagram. cbn. repeat split.
  - exists e. repeat split. exact He.
  - now exists msg.
  - rewrite string_length_append. cbn. lia.
Qed.

Lemma wellAddressed_same (es es' : list Endpoint) (d : Datagram) :
  Forall2 sameEndpoint es es' -> wellAddressed es' d -> wellAddressed es d.
Proof.
  intros Hsame ([e' (He' & Ha & Hp)] & Hmsg & Hlen).
  split; [| split; assumption].
  induction Hsame as [| e0 e0' es es' H0 _ IH].
  - destruct He'.
  - destruct He' as [<- | He'].
    + exists e0. destruct H0 as (_ & Hip & Hport & _).
      repeat split; [now left | congruence | congruence].
    + destruct (IH He') as [e (He & Ha' & Hp')].
      exists e. repeat split; [now right | assumption | assumption].
Qed.

Lemma sameEndpoint_refl (e : Endpoint) : sameEndpoint e e.
Proof. repeat split. Qed.

Lemma sameEndpoint_trans (e1 e2 e3 : Endpoint) :
  sameEndpoint e1 e2 -> sameEndpoint e2 e3 -> sameEndpoint e1 e3.
Proof.
  intros (A1 & A2 & A3 & A4 & A5 & A6) (B1 & B2 & B3 & B4 & B5 & B6).
  repeat split; congruence.
Qed.

Lemma Forall2_sameEndpoint_refl (es : list Endpoint) :
  Forall2 sameEndpoint es es.
Proof.
  induction es; constructor; [apply sameEndpoint_refl | assumption].
Qed.

Lemma Forall2_sameEndpoint_trans (es1 es2 es3 : list Endpoint) :
  Forall2 sameEndpoint es1 es2 -> Forall2 sameEndpoint es2 es3 ->
  Forall2 sameEndpoint es1 es3.
Proof.
  intro H12. revert es3.
  induction H12 as [| a b l1 l2 Hab _ IH]; intros es3 H23;
    inversion H23; subst; constructor.
  - eapply sameEndpoint_trans; eassumption.
  - now apply IH.
Qed.

Lemma advances_sameEndpoint (now hb : Z) (e e' : Endpoint) :
  advances now hb e e' -> sameEndpoint e e'.
Proof.
  intros (firedP & firedS & rsP & rsS & _ & _ & ->).
  destruct firedP, firedS; repeat split.
Qed.

Lemma bytesOf_concat_reports (L : list (list string)) :
  bytesOf (List.concat (filter isReport L)) = bytesOf (List.concat L).
Proof.
  induction L as [| l L IH]; cbn [filter List.concat]; [reflexivity |].
  destruct l as [| s l]; cbn [isReport List.concat app].
  - exact IH.
  - change (bytesOf (((s :: l) ++ List.concat (filter isReport L))%list)
            = bytesOf (((s :: l) ++ List.concat L)%list)).
    now rewrite !bytesOf_app, IH.
Qed.

Section Running.

Variable Fields : Type.
Variable AisEncode : AisProperties Fields -> option string.

Lemma reports_partition (cfg : PluginConfiguration)
    (sentencesOf : Vessel Fields -> list string) (vs : list (Vessel Fields)) :
  bytesOf (List.concat (reportsOf cfg sentencesOf Self vs))
  + bytesOf (List.concat (reportsOf cfg sentencesOf Others vs))
  = bytesOf (List.concat (map sentencesOf vs)).
Proof.
  unfold reportsOf. rewrite !bytesOf_concat_reports.
  induction vs as [| v vs IH]; cbn [filter map List.concat belongsTo];
    [reflexivity |].
  destruct (isSelf cfg v); cbn [negb map List.concat];
    rewrite !bytesOf_app; cbn [belongsTo] in IH; lia.
Qed.

(** What a generator run puts on the wire is what it accounts for. *)
Lemma generator_wire (cfg : PluginConfiguration) (endpoint : Endpoint)
    (socket : Socket) (tick : Tick Fields) (reportSelf reportOthers : bool) :
  (exists sent,
      fst (reportPosition AisEncode cfg socket endpoint tick
             reportSelf reportOthers)
      = (socket ++ map (fun msg => datagram msg endpoint) sent)%list
      /\ accountedBytes
           (snd (reportPosition AisEncode cfg socket endpoint tick
                   reportSelf reportOthers))
         = bytesOf sent)
  /\ (exists sent,
         fst (reportStatic AisEncode cfg socket endpoint tick
                reportSelf reportOthers)
         = (socket ++ map (fun msg => datagram msg endpoint) sent)%list
         /\ accountedBytes
              (snd (reportStatic AisEncode cfg socket endpoint tick
                      reportSelf reportOthers))
            = bytesOf sent).
Proof.
  split.
  - rewrite reportPosition_deliver.
    destruct (@deliver_eligible Fields cfg endpoint
                (positionSentences AisEncode cfg) socket tick reportSelf reportOthers)
      as [Hs Hc].
    cbv zeta in Hs, Hc. eexists. split; [exact Hs |].
    unfold accountedBytes.
    change (myVesselCounts ?r) with (countsOf r Self).
    change (otherVesselsCounts ?r) with (countsOf r Others).
    rewrite (proj2 (Hc Self)), (proj2 (Hc Others)).
    apply reports_partition.
  - rewrite reportStatic_deliver.
    destruct (@deliver_eligible Fields cfg endpoint
                (staticSentences AisEncode cfg) socket tick reportSelf reportOthers)
      as [Hs Hc].
    cbv zeta in Hs, Hc. eexists. split; [exact Hs |].
    unfold accountedBytes.
    change (myVesselCounts ?r) with (countsOf r Self).
    change (otherVesselsCounts ?r) with (countsOf r Others).
    rewrite (proj2 (Hc Self)), (proj2 (Hc Others)).
    apply reports_partition.
Qed.

Lemma reportEndpoint_wire (cfg : PluginConfiguration) (tick : Tick Fields)
    (t : Z) (socket : Socket) (e : Endpoint) :
  exists sent,
    fst (reportEndpoint AisEncode cfg tick t socket e)
    = (socket ++ map (fun msg => datagram msg e) sent)%list
    /\ endpointBytes (snd (reportEndpoint AisEncode cfg tick t socket e))
       = endpointBytes e + bytesOf sent.
Proof.
  unfold reportEndpoint.
  set (mvPUI := resolvedInterval tick e Self Position).
  set (mvSUI := resolvedInterval tick e Self Static).
  set (ovPUI := resolvedInterval tick e Others Position).
  set (ovSUI := resolvedInterval tick e Others Static).
  destruct (due t mvPUI || due t ovPUI).
  - destruct (generator_wire cfg e socket tick (fires t mvPUI) (fires t ovPUI))
      as [[sentP [HsP HbP]] _].
    destruct (reportPosition AisEncode cfg socket e tick
                (fires t mvPUI) (fires t ovPUI)) as [socket1 rsP].
    cbn [fst snd] in HsP, HbP.
    destruct (due t mvSUI || due t ovSUI).
    + destruct (generator_wire cfg e socket1 tick
                  (fires t mvSUI) (fires t ovSUI)) as [_ [sentS [HsS HbS]]].
      destruct (reportStatic AisEncode cfg socket1 e tick
                  (fires t mvSUI) (fires t ovSUI)) as [socket2 rsS].
      cbn [fst snd] in HsS, HbS.
      exists (sentP ++ sentS)%list. split.
      * cbn [fst]. rewrite HsS, HsP, map_app, app_assoc. reflexivity.
      * unfold endpointBytes, accountedBytes in *. cbn.
        rewrite bytesOf_app. lia.
    + exists sentP. split; [exact HsP |].
      unfold endpointBytes, accountedBytes in *. cbn. lia.
  - destruct (due t mvSUI || due t ovSUI).
    + destruct (generator_wire cfg e socket tick
                  (fires t mvSUI) (fires t ovSUI)) as [_ [sentS [HsS HbS]]].
      destruct (reportStatic AisEncode cfg socket e tick
                  (fires t mvSUI) (fires t ovSUI)) as [socket2 rsS].
      cbn [fst snd] in HsS, HbS.
      exists sentS. split; [exact HsS |].
      unfold endpointBytes, accountedBytes in *. cbn. lia.
    + exists []. cbn [fst snd map]. rewrite app_nil_r. split; [reflexivity |].
      unfold endpointBytes, bytesOf. cbn. lia.
Qed.

Lemma reportEndpoints_wire (cfg : PluginConfiguration) (tick : Tick Fields)
    (t : Z) (es : list Endpoint) (socket : Socket) :
  exists new,
    fst (reportEndpoints AisEncode cfg tick t socket es)
    = (socket ++ new)%list
    /\ Forall (wellAddressed es) new
    /\ accountedTotal (snd (reportEndpoints AisEncode cfg tick t socket es))
       = accountedTotal es + wireBytes new.
Proof.
  revert socket. induction es as [| e es IH]; intro socket;
    cbn [reportEndpoints].
  - exists []. cbn. rewrite app_nil_r. repeat split; constructor.
  - destruct (reportEndpoint_wire cfg tick t socket e) as [sent [Hs Hb]].
    destruct (reportEndpoint AisEncode cfg tick t socket e) as [socket' e'].
    cbn [fst snd] in Hs, Hb.
    destruct (IH socket') as [new [Hs' [Hw Hb']]].
    destruct (reportEndpoints AisEncode cfg tick t socket' es)
      as [socket'' es'].
    cbn [fst snd] in *.
    exists (map (fun msg => datagram msg e) sent ++ new)%list.
    split; [| split].
    + rewrite Hs', Hs, app_assoc. reflexivity.
    + apply Forall_app. split.
      * apply Forall_forall. intros d Hd. apply in_map_iff in Hd as [msg [<- _]].
        apply datagram_wellAddressed. now left.
      * revert Hw. apply Forall_impl.
        intros d ([e0 (He0 & Ha & Hp)] & Hmsg & Hlen).
        split; [| split; assumption].
        exists e0. repeat split; [now right | assumption | assumption].
    + unfold accountedTotal in *. cbn [map fold_right].
      rewrite wireBytes_app, wireBytes_datagrams. lia.
Qed.

(** The plugin after further heartbeats, compared with the plugin as it
    was. *)
Lemma heartbeats_from (ticks : list (Tick Fields)) (p : Plugin) :
  let p' := fold_left (heartbeat AisEncode) ticks p in
  (heartbeatCount p' = heartbeatCount p + Z.of_nat (List.length ticks)
   /\ myMMSI (pluginConfiguration p') = myMMSI (pluginConfiguration p)
   /\ myAisClass (pluginConfiguration p') = myAisClass (pluginConfiguration p)
   /\ Forall2 sameEndpoint (endpoints (pluginConfiguration p))
        (endpoints (pluginConfiguration p')))
  /\ exists new,
       udpSocket p' = (udpSocket p ++ new)%list
       /\ Forall (wellAddressed (endpoints (pluginConfiguration p))) new
       /\ accountedTotal (endpoints (pluginConfiguration p'))
          = accountedTotal (endpoints (pluginConfiguration p)) + wireBytes new.
Proof.
  revert p. induction ticks as [| tick ticks IH]; intro p; cbn zeta;
    cbn [fold_left List.length].
  - split.
    + repeat split; try lia. apply Forall2_sameEndpoint_refl.
    + exists []. rewrite app_nil_r. repeat split; try constructor.
      cbn. lia.
  - destruct (IH (heartbeat AisEncode p tick))
      as [(Hc & Hm & Ha & Hsame) [new [Hs [Hw Hb]]]].
    assert (Hstep : Forall2 sameEndpoint (endpoints (pluginConfiguration p))
              (endpoints (pluginConfiguration (heartbeat AisEncode p tick)))).
    { eapply Forall2_impl; [| apply (heartbeat_advances AisEncode p tick)].
      intros e e' He. exact (advances_sameEndpoint He). }
    destruct (reportEndpoints_wire (pluginConfiguration p) tick
                (heartbeatCount p) (endpoints (pluginConfiguration p))
                (udpSocket p)) as [new0 [Hs0 [Hw0 Hb0]]].
    assert (Hhb : udpSocket (heartbeat AisEncode p tick)
                  = (udpSocket p ++ new0)%list
                  /\ accountedTotal
                       (endpoints (pluginConfiguration
                                     (heartbeat AisEncode p tick)))
                     = accountedTotal (endpoints (pluginConfiguration p))
                       + wireBytes new0
                  /\ heartbeatCount (heartbeat AisEncode p tick)
                     = heartbeatCount p + 1
                  /\ myMMSI (pluginConfiguration (heartbeat AisEncode p tick))
                     = myMMSI (pluginConfiguration p)
                  /\ myAisClass
                       (pluginConfiguration (heartbeat AisEncode p tick))
                     = myAisClass (pluginConfiguration p)).
    { unfold heartbeat.
      destruct (reportEndpoints AisEncode (pluginConfiguration p) tick
                  (heartbeatCount p) (udpSocket p)
                  (endpoints (pluginConfiguration p))) as [socket' es'].
      cbn [fst snd] in Hs0, Hb0. cbn. repeat split; assumption. }
    destruct Hhb as (Hs1 & Hb1 & Hc1 & Hm1 & Ha1).
    split.
    + repeat split; try congruence; try lia.
      eapply Forall2_sameEndpoint_trans; eassumption.
    + exists (new0 ++ new)%list. split; [| split].
      * rewrite Hs, Hs1, app_assoc. reflexivity.
      * apply Forall_app. split; [exact Hw0 |].
        revert Hw. apply Forall_impl. intros d Hd.
        now apply (wellAddressed_same Hstep).
      * rewrite Hb, Hb1, wireBytes_app. lia.
Qed.

(** X14. Heartbeats change nothing but the report statistics and the
    counter: after any number of heartbeats the plugin has the same own
    identity and class and the same endpoints in the same order, each with
    its name, address, port, class blocks and start time; the tick counter
    equals the number of heartbeats. *)
Theorem run_keeps_configuration_and_counts_heartbeats :
  forall (cfg : PluginConfiguration) (ticks : list (Tick Fields)),
    let p := run AisEncode cfg ticks in
    heartbeatCount p = Z.of_nat (List.length ticks)
    /\ myMMSI (pluginConfiguration p) = myMMSI cfg
    /\ myAisClass (pluginConfiguration p) = myAisClass cfg
    /\ Forall2 sameEndpoint (endpoints cfg) (endpoints (pluginConfiguration p)).
Proof.
  intros cfg ticks p. subst p. unfold run.
  destruct (heartbeats_from ticks (started_plugin cfg))
    as [(Hc & Hm & Ha & Hsame) _].
  cbn [started_plugin heartbeatCount pluginConfiguration] in *.
  repeat split; try assumption; lia.
Qed.

(** X15. Every datagram that a running plugin has handed to the socket is
    a sentence followed by a line feed, declares the length of the two,
    and is addressed to the address and port of one of the configured
    endpoints. *)
Theorem run_sends_well_addressed_datagrams :
  forall (cfg : PluginConfiguration) (ticks : list (Tick Fields)),
    Forall (wellAddressed (endpoints cfg))
      (udpSocket (run AisEncode cfg ticks)).
Proof.
  intros cfg ticks. unfold run.
  destruct (heartbeats_from ticks (started_plugin cfg))
    as [_ [new [Hs [Hw _]]]].
  cbn [started_plugin udpSocket pluginConfiguration] in *.
  rewrite Hs. exact Hw.
Qed.

Lemma accountedTotal_initial (now : Z) (es : list Endpoint) :
  Forall (fun e => statistics e = initialStatistics now) es ->
  accountedTotal es = 0.
Proof.
  unfold accountedTotal.
  induction 1 as [| e es He _ IH]; cbn [map fold_right]; [reflexivity |].
  rewrite IH. unfold endpointBytes. rewrite He. reflexivity.
Qed.

(** X16. The statistics account for the wire: after any number of
    heartbeats the bytes handed to the socket equal the growth of the
    position and static byte totals summed over the endpoints; from a
    configuration produced by normalization, they equal that sum. *)
Theorem run_accounts_for_every_byte_sent :
  forall (cfg : PluginConfiguration) (ticks : list (Tick Fields)),
    let p := run AisEncode cfg ticks in
    wireBytes (udpSocket p)
    = accountedTotal (endpoints (pluginConfiguration p))
      - accountedTotal (endpoints cfg)
    /\ forall app startTime options,
         makePluginConfiguration app startTime options = Ok cfg ->
         wireBytes (udpSocket p)
         = accountedTotal (endpoints (pluginConfiguration p)).
Proof.
  intros cfg ticks p. subst p. unfold run.
  destruct (heartbeats_from ticks (started_plugin cfg))
    as [_ [new [Hs [_ Hb]]]].
  cbn [started_plugin udpSocket pluginConfiguration] in *.
  assert (Hgen : wireBytes (udpSocket (fold_left (heartbeat AisEncode) ticks
                                         (started_plugin cfg)))
                 = accountedTotal
                     (endpoints (pluginConfiguration
                        (fold_left (heartbeat AisEncode) ticks
                           (started_plugin cfg))))
                   - accountedTotal (endpoints cfg)).
  { rewrite Hs, Hb. cbn [app]. lia. }
  split; [exact Hgen |].
  intros app startTime options Hcfg. rewrite Hgen.
  pose proof (accountedTotal_initial
                (makePluginConfiguration_statistics _ _ _ Hcfg)) as H0.
  lia.
Qed.

End Running.

Lemma run_accounts_for_every_byte_sent_witness :
  wireBytes
    (udpSocket (run Sample.encodeAll Sample.configuration
                  [Sample.tick Sample.startTime None]))
  = accountedTotal
      (endpoints (pluginConfiguration
         (run Sample.encodeAll Sample.configuration
            [Sample.tick Sample.startTime None]))).
Proof.
  exact (proj2 (@run_accounts_for_every_byte_sent unit Sample.encodeAll
                  Sample.configuration [Sample.tick Sample.startTime None])
           Sample.app Sample.startTime Sample.options eq_refl).
Defined.

Lemma updateReportStatistics_ringsKept (now heartbeatCount : Z)
    (s : ReportTypeStatistics) (rs : ReportStatistics) :
  nonNegative rs -> ringsKept s ->
  ringsKept (updateReportStatistics now heartbeatCount s rs).
Proof.
  intros (Hc1 & Hb1 & Hc2 & Hb2)
         ((L1 & L2 & L3 & L4) & (N1 & N2 & N3 & N4) & (S1 & S2 & S3 & S4)).
  assert (Hc : 0 <= count (myVesselCounts rs) + count (otherVesselsCounts rs))
    by lia.
  assert (Hb : 0 <= bytes (myVesselCounts rs) + bytes (otherVesselsCounts rs))
    by lia.
  unfold ringsKept, updateReportStatistics.
  cbn [reportsTransmittedInLastHour bytesTransmittedInLastHour
       reportsTransmittedInLastDay bytesTransmittedInLastDay
       totalReportsTransmitted totalBytesTransmitted].
  split; [| split].
  - repeat split; rewrite updateVector_length; try assumption; try lia;
      assumption.
  - repeat split; apply updateVector_nonneg; assumption.
  - pose proof (@updateVector_total_le _ 60 heartbeatCount _ N1 Hc).
    pose proof (@updateVector_total_le _ 60 heartbeatCount _ N2 Hb).
    pose proof (@updateVector_total_le _ 24 heartbeatCount _ N3 Hc).
    pose proof (@updateVector_total_le _ 24 heartbeatCount _ N4 Hb).
    repeat split; lia.
Qed.

Lemma advances_ringsKept (now heartbeatCount : Z) (e e' : Endpoint)
    (r : ReportType) :
  advances now heartbeatCount e e' ->
  ringsKept (statisticsOf e r) -> ringsKept (statisticsOf e' r).
Proof.
  intros (firedP & firedS & rsP & rsS & HP & HS & ->) Hb.
  destruct r, firedP, firedS; cbn [statisticsOf withStatistics statistics
    foldStatic foldPosition withStatic withPosition position static] in *;
    try assumption;
    now apply updateReportStatistics_ringsKept.
Qed.

Lemma initial_ringsKept (now : Z) (e : Endpoint) (r : ReportType) :
  statistics e = initialStatistics now -> ringsKept (statisticsOf e r).
Proof.
  intro H. unfold statisticsOf. rewrite H.
  assert (Hz : forall n, Forall (fun x => 0 <= x) (zeroVector n)).
  { intro n. apply Forall_forall. intros x Hx.
    apply repeat_spec in Hx. lia. }
  destruct r; cbn [position static initialStatistics];
    unfold ringsKept, initialReportTypeStatistics;
    cbn [reportsTransmittedInLastHour bytesTransmittedInLastHour
         reportsTransmittedInLastDay bytesTransmittedInLastDay
         totalReportsTransmitted totalBytesTransmitted];
    rewrite !total_zeroVector;
    (split; [| split]; repeat split; try apply Hz; try lia;
     apply repeat_length).
Qed.

(** X17. In a plugin started from a configuration produced by
    normalization, after any number of heartbeats, the four rolling
    vectors of every endpoint and report type still have their ring sizes
    (60 slots for the hour, 24 for the day), hold no negative slot, and
    each sums to at most the total it belongs to: the hour and day sums
    that the status route shows never exceed the totals shown beside
    them. *)
Theorem run_keeps_rings_within_totals :
  forall (Fields : Type) (AisEncode : AisProperties Fields -> option string)
         (app : App) (startTime : Z) (options : Raw.Options)
         (cfg : PluginConfiguration) (ticks : list (Tick Fields)),
    makePluginConfiguration app startTime options = Ok cfg ->
    Forall (fun e => forall r, ringsKept (statisticsOf e r))
      (endpoints (pluginConfiguration (run AisEncode cfg ticks))).
Proof.
  intros Fields AisEncode app startTime options cfg ticks Hcfg.
  apply run_invariant.
  - intros now hb e e' Hadv Hb r.
    exact (advances_ringsKept r Hadv (Hb r)).
  - pose proof (makePluginConfiguration_statistics _ _ _ Hcfg) as Hinit.
    revert Hinit. apply Forall_impl.
    intros e He r. exact (initial_ringsKept e r He).
Qed.

Lemma run_keeps_rings_within_totals_witness :
  Forall (fun e => forall r, ringsKept (statisticsOf e r))
    (endpoints (pluginConfiguration
       (run Sample.encodeAll Sample.configuration
          [Sample.tick Sample.startTime None]))).
Proof.
  exact (@run_keeps_rings_within_totals unit Sample.encodeAll Sample.app
           Sample.startTime Sample.options Sample.configuration
           [Sample.tick Sample.startTime None] eq_refl).
Defined.

Section Stamping.

Variable Fields : Type.
Variable AisEncode : AisProperties Fields -> option string.

Lemma no_vessels_no_reports (cfg : PluginConfiguration) (socket : Socket)
    (endpoint : Endpoint) (tick : Tick Fields)
    (reportSelf reportOthers : bool) :
  vessels tick = [] ->
  reportPosition AisEncode cfg socket endpoint tick reportSelf reportOthers
  = (socket, noReports)
  /\ reportStatic AisEncode cfg socket endpoint tick reportSelf reportOthers
     = (socket, noReports).
Proof.
  intro H. unfold reportPosition, reportStatic, candidates.
  rewrite H. split; reflexivity.
Qed.

(** X18. Whenever a report type is due for some class of an endpoint, the
    heartbeat stamps the type's last report time with the current time,
    whether or not any vessel was reported: with an empty vessel registry
    nothing is sent and the totals stay as they are, and the time is
    stamped all the same. *)
Theorem due_report_type_stamps_last_report_time :
  forall (cfg : PluginConfiguration) (tick : Tick Fields) (t : Z)
         (socket : Socket) (e : Endpoint),
    let result := reportEndpoint AisEncode cfg tick t socket e in
    ((exists c, reportFlag tick e t c Position = true) ->
     lastReportTimestamp (position (statistics (snd result)))
     = Some (now tick))
    /\ ((exists c, reportFlag tick e t c Static = true) ->
        lastReportTimestamp (static (statistics (snd result)))
        = Some (now tick))
    /\ (vessels tick = [] ->
        fst result = socket
        /\ forall r,
             totalReportsTransmitted (statisticsOf (snd result) r)
             = totalReportsTransmitted (statisticsOf e r)
             /\ totalBytesTransmitted (statisticsOf (snd result) r)
                = totalBytesTransmitted (statisticsOf e r)).
Proof.
  intros cfg tick t socket e result. subst result. unfold reportFlag.
  assert (Hsome : forall r,
            (exists c, fires t (resolvedInterval tick e c r) = true) ->
            due t (resolvedInterval tick e Self r)
            || due t (resolvedInterval tick e Others r) = true).
  { intros r [[|] Hc]; apply some_due; [now left | now right]. }
  split; [| split].
  - intro H. unfold reportEndpoint. rewrite (Hsome Position H).
    destruct (reportPosition AisEncode cfg socket e tick _ _) as [s1 rsP].
    destruct (due t (resolvedInterval tick e Self Static)
              || due t (resolvedInterval tick e Others Static));
      [| reflexivity].
    destruct (reportStatic AisEncode cfg s1 e tick _ _); reflexivity.
  - intro H. unfold reportEndpoint. rewrite (Hsome Static H).
    destruct (due t (resolvedInterval tick e Self Position)
              || due t (resolvedInterval tick e Others Position)).
    + destruct (reportPosition AisEncode cfg socket e tick _ _) as [s1 rsP].
      destruct (reportStatic AisEncode cfg s1 e tick _ _); reflexivity.
    + destruct (reportStatic AisEncode cfg socket e tick _ _); reflexivity.
  - intro Hnone. unfold reportEndpoint.
    destruct (due t (resolvedInterval tick e Self Position)
              || due t (resolvedInterval tick e Others Position));
      destruct (due t (resolvedInterval tick e Self Static)
                || due t (resolvedInterval tick e Others Static));
      rewrite ?(proj1 (no_vessels_no_reports cfg _ e tick _ _ Hnone)),
              ?(proj2 (no_vessels_no_reports cfg _ e tick _ _ Hnone));
      (split; [reflexivity |]); intros [|]; cbn; lia.
Qed.

End Stamping.

Lemma due_report_type_stamps_last_report_time_witness :
  lastReportTimestamp
    (position (statistics
       (snd (reportEndpoint Sample.encodeAll Sample.configuration
               (withVessels (Sample.tick Sample.startTime None) []) 0 []
               Sample.endpoint))))
  = Some Sample.startTime.
Proof.
  refine (proj1 (@due_report_type_stamps_last_report_time unit
                   Sample.encodeAll Sample.configuration
                   (withVessels (Sample.tick Sample.startTime None) []) 0 []
                   Sample.endpoint) _).
  exists Self. reflexivity.
Defined.

(** ** The status route *)

Lemma hasKey_In (V : Type) (a : list (string * V)) (key : string) :
  hasKey a key = true <-> In key (map fst a).
Proof.
  induction a as [| [k v] rest IH]; cbn [hasKey map fst In].
  - split; [discriminate | intros []].
  - rewrite orb_true_iff, IH, String.eqb_eq. reflexivity.
Qed.

Lemma dictionaryGet_replaceValue (V : Type) (a : list (string * V))
    (key key' : string) (value : V) :
  hasKey a key = true ->
  dictionaryGet (replaceValue a key value) key'
  = if String.eqb key key' then Some value else dictionaryGet a key'.
Proof.
  induction a as [| [k v] rest IH]; cbn [hasKey replaceValue dictionaryGet].
  - discriminate.
  - destruct (String.eqb_spec k key) as [-> | Hk]; cbn [orb dictionaryGet].
    + intros _. now destruct (String.eqb key key').
    + intro H. rewrite (IH H).
      destruct (String.eqb_spec k key') as [-> | Hk']; [| reflexivity].
      destruct (String.eqb_spec key key'); [congruence | reflexivity].
Qed.

Lemma dictionaryGet_insertIndex (V : Type) (n : N) (a : list (string * V))
    (key key' : string) (value : V) :
  hasKey a key = false ->
  dictionaryGet (insertIndex n key value a) key'
  = if String.eqb key key' then Some value else dictionaryGet a key'.
Proof.
  induction a as [| [k v] rest IH]; cbn [hasKey insertIndex dictionaryGet].
  - reflexivity.
  - intro H. apply orb_false_iff in H as [Hk H].
    apply String.eqb_neq in Hk.
    destruct (arrayIndex k) as [m |]; [destruct (n <? m)%N |];
      cbn [dictionaryGet]; try reflexivity.
    rewrite (IH H).
    destruct (String.eqb_spec k key') as [-> | Hk']; [| reflexivity].
    destruct (String.eqb_spec key key'); [congruence | reflexivity].
Qed.

Lemma dictionaryGet_append (V : Type) (a : list (string * V))
    (key key' : string) (value : V) :
  hasKey a key = false ->
  dictionaryGet (a ++ [(key, value)])%list key'
  = if String.eqb key key' then Some value else dictionaryGet a key'.
Proof.
  induction a as [| [k v] rest IH]; cbn [hasKey app dictionaryGet].
  - reflexivity.
  - intro H. apply orb_false_iff in H as [Hk H].
    apply String.eqb_neq in Hk. rewrite (IH H).
    destruct (String.eqb_spec k key') as [-> | Hk']; [| reflexivity].
    destruct (String.eqb_spec key key'); [congruence | reflexivity].
Qed.

Lemma dictionaryGet_set (V : Type) (a : list (string * V)) (key key' : string)
    (value : V) :
  dictionaryGet (dictionarySet a key value) key'
  = if String.eqb key "__proto__" then dictionaryGet a key'
    else if String.eqb key key' then Some value else dictionaryGet a key'.
Proof.
  unfold dictionarySet.
  destruct (String.eqb key "__proto__"); [reflexivity |].
  destruct (hasKey a key) eqn:E.
  - now apply dictionaryGet_replaceValue.
  - destruct (arrayIndex key) as [n |].
    + now apply dictionaryGet_insertIndex.
    + now apply dictionaryGet_append.
Qed.

Lemma replaceValue_keys (V : Type) (a : list (string * V)) (key : string)
    (value : V) :
  map fst (replaceValue a key value) = map fst a.
Proof.
  induction a as [| [k v] rest IH]; cbn [replaceValue map fst];
    [reflexivity |].
  destruct (String.eqb k key); cbn [map fst]; [reflexivity | now rewrite IH].
Qed.

Lemma insertIndex_keys (V : Type) (n : N) (a : list (string * V))
    (key : string) (value : V) :
  NoDup (map fst a) -> ~ In key (map fst a) ->
  NoDup (map fst (insertIndex n key value a))
  /\ forall k, In k (map fst (insertIndex n key value a))
               -> k = key \/ In k (map fst a).
Proof.
  induction a as [| [k0 v0] rest IH]; intros Hnd Hnew;
    cbn [insertIndex map fst].
  - split; [repeat constructor; intros [] |]. intros k [<- | []]. now left.
  - assert (Hfront :
      NoDup (key :: map fst ((k0, v0) :: rest))
      /\ forall k, In k (key :: map fst ((k0, v0) :: rest))
                   -> k = key \/ In k (map fst ((k0, v0) :: rest))).
    { split; [now constructor |]. intros k [<- | H]; [now left | now right]. }
    destruct (arrayIndex k0) as [m |]; [destruct (n <? m)%N |];
      cbn [map fst]; try exact Hfront.
    inversion Hnd as [| x l Hnotin Hnd']; subst.
    destruct (IH Hnd') as [IHnd IHin].
    { intro H. apply Hnew. now right. }
    split.
    + constructor; [| exact IHnd].
      intro H. apply IHin in H as [-> | H]; [| contradiction].
      apply Hnew. now left.
    + intros k [<- | H]; [right; now left |].
      apply IHin in H as [-> | H]; [now left | right; now right].
Qed.

Lemma dictionarySet_NoDup (V : Type) (a : list (string * V)) (key : string)
    (value : V) :
  NoDup (map fst a) -> NoDup (map fst (dictionarySet a key value)).
Proof.
  intro Hnd. unfold dictionarySet.
  destruct (String.eqb key "__proto__"); [exact Hnd |].
  destruct (hasKey a key) eqn:E.
  - now rewrite replaceValue_keys.
  - assert (Hnew : ~ In key (map fst a)).
    { intro H. apply hasKey_In in H. congruence. }
    destruct (arrayIndex key) as [n |].
    + now apply insertIndex_keys.
    + rewrite map_app. cbn [map fst]. apply NoDup_app.
      * exact Hnd.
      * repeat constructor. intros [].
      * intros k Hk [<- | []]. contradiction.
Qed.

Lemma status_from (es : list Endpoint)
    (a : list (string * Status.EndpointStatus)) (key : string) :
  NoDup (map fst a) ->
  let a' := fold_left
              (fun a endpoint =>
                 dictionarySet a (name endpoint) (endpointStatus endpoint))
              es a in
  NoDup (map fst a')
  /\ dictionaryGet a' key
     = if String.eqb key "__proto__" then dictionaryGet a key
       else match fold_left
                    (fun found e =>
                       if String.eqb (name e) key then Some e else found)
                    es None with
            | Some e => Some (endpointStatus e)
            | None => dictionaryGet a key
            end.
Proof.
  revert a. induction es as [| e es IH] using rev_ind; intros a Hnd; cbn zeta.
  - cbn. split; [exact Hnd |]. now destruct (String.eqb key "__proto__").
  - rewrite !fold_left_app. cbn [fold_left].
    destruct (IH a Hnd) as [Hnd' Hget]. cbn zeta in Hnd', Hget. split.
    + now apply dictionarySet_NoDup.
    + rewrite dictionaryGet_set, Hget.
      destruct (String.eqb_spec (name e) "__proto__") as [Hp | Hp].
      * destruct (String.eqb_spec key "__proto__") as [Hk | Hk];
          [reflexivity |].
        destruct (String.eqb_spec (name e) key); [congruence | reflexivity].
      * destruct (String.eqb_spec (name e) key) as [Hk | Hk];
          [| reflexivity].
        destruct (String.eqb_spec key "__proto__"); [congruence | reflexivity].
Qed.

(** X19. The status report has one entry per endpoint name: the entry
    under a name is the status of the last endpoint configured under that
    name, so that of two endpoints with the same name only the later one
    is shown, and a name that no endpoint has is absent. The name
    ['__proto__'] is the exception: an endpoint of that name gets no entry
    at all. *)
Theorem status_shows_last_endpoint_of_each_name :
  forall (cfg : PluginConfiguration) (key : string),
    NoDup (map fst (status cfg))
    /\ dictionaryGet (status cfg) key
       = if String.eqb key "__proto__" then None
         else option_map endpointStatus (lastNamed (endpoints cfg) key).
Proof.
  intros cfg key. unfold status, lastNamed.
  destruct (@status_from (endpoints cfg) [] key (NoDup_nil _)) as [Hnd Hget].
  cbn zeta in Hnd, Hget. split; [exact Hnd |].
  rewrite Hget. cbn [dictionaryGet].
  destruct (String.eqb key "__proto__"); [reflexivity |].
  now destruct (fold_left _ (endpoints cfg) None).
Qed.

Lemma index_slash_split (p : string) (n k : nat) :
  String.index n "/" p = Some k ->
  exists rest, p = (substring 0 k p ++ "/" ++ rest)%string.
Proof.
  revert n k. induction p as [| b p IH]; intros n k H.
  - destruct n; discriminate H.
  - destruct n as [| n].
    + cbn [String.index] in H.
      destruct (prefix "/" (String b p)) eqn:E.
      * inversion H; subst k. cbn [prefix] in E.
        destruct (Ascii.ascii_dec _ b) as [<- |]; [| discriminate].
        now exists p.
      * destruct (String.index 0 "/" p) as [k' |] eqn:Ek; [| discriminate].
        inversion H; subst k. destruct (IH 0%nat k' Ek) as [rest Hrest].
        exists rest. cbn [substring append]. f_equal. exact Hrest.
    + cbn [String.index] in H.
      destruct (String.index n "/" p) as [k' |] eqn:Ek; [| discriminate].
      inversion H; subst k. destruct (IH n k' Ek) as [rest Hrest].
      exists rest. cbn [substring append]. f_equal. exact Hrest.
Qed.

(** X20. The route answers exactly the paths ['/status'] and
    ['/status/...']: with code 200 and the status report when the plugin
    has a configuration, with code 500 and the text 'internal server
    error' when it has none yet. For every other path no response is sent
    at all. *)
Theorem status_route_answers_only_status_paths :
  forall (pluginConfiguration : option PluginConfiguration) (path : string),
    (path = "/status" \/ (exists rest, path = ("/status/" ++ rest)%string) ->
     handleRoutes pluginConfiguration path
     = Some match pluginConfiguration with
            | Some cfg =>
                {| Http.code := 200; Http.body := Http.StatusBody (status cfg) |}
            | None =>
                {| Http.code := 500;
                   Http.body := Http.TextBody "internal server error" |}
            end)
    /\ (~ (path = "/status"
           \/ exists rest, path = ("/status/" ++ rest)%string) ->
        handleRoutes pluginConfiguration path = None).
Proof.
  intros pluginConfiguration path. split.
  - intros [-> | [rest ->]]; unfold handleRoutes.
    + now destruct pluginConfiguration.
    + assert (E : firstSegment ("/status/" ++ rest) = "/status")
        by (destruct rest; reflexivity).
      rewrite E. now destruct pluginConfiguration.
  - intro Hnot. unfold handleRoutes.
    destruct (String.eqb_spec (firstSegment path) "/status") as [E |];
      [| reflexivity].
    exfalso. apply Hnot. unfold firstSegment in E.
    destruct (String.index 1 "/" path) as [k |] eqn:Ek.
    + right. destruct (index_slash_split _ _ Ek) as [rest Hrest].
      rewrite E in Hrest. now exists rest.
    + now left.
Qed.

Lemma status_route_answers_only_status_paths_witness :
  handleRoutes (Some Sample.configuration) "/status/marinetraffic"
  = Some {| Http.code := 200;
            Http.body := Http.StatusBody (status Sample.configuration) |}
  /\ handleRoutes (Some Sample.configuration) "/statistics" = None.
Proof.
  split.
  - refine (proj1 (status_route_answers_only_status_paths
                     (Some Sample.configuration) "/status/marinetraffic") _).
    right. now exists "marinetraffic".
  - refine (proj2 (status_route_answers_only_status_paths
                     (Some Sample.configuration) "/statistics") _).
    intros [H | [rest H]]; discriminate H.
Defined.

(** ** Start and stop *)

Lemma normalized_endpoint_count (app : App) (now : Z) (options : Raw.Options)
    (cfg : PluginConfiguration) :
  makePluginConfiguration app now options = Ok cfg ->
  List.length (endpoints cfg) = List.length (Raw.endpoints options).
Proof.
  intro H. apply makePluginConfiguration_Ok in H.
  induction H as [| opt e opts es _ _ IH]; cbn [List.length];
    [reflexivity | now rewrite IH].
Qed.

Lemma makePluginConfiguration_outcome (app : App) (now : Z)
    (options : Raw.Options) :
  match makePluginConfiguration app now options with
  | Ok cfg =>
      forallb (normalizable options) (Raw.endpoints options) = true
      /\ List.length (endpoints cfg) = List.length (Raw.endpoints options)
  | Throw _ =>
      forallb (normalizable options) (Raw.endpoints options) = false
  end.
Proof.
  destruct (makePluginConfiguration app now options) as [cfg | m] eqn:E.
  - split; [| exact (normalized_endpoint_count _ _ _ E)].
    apply (makeEndpoints_Ok_iff now). unfold makePluginConfiguration in E.
    apply bind_Ok in E as (es & Hes & _). now exists es.
  - destruct (forallb (normalizable options) (Raw.endpoints options)) eqn:F;
      [| reflexivity].
    apply (makeEndpoints_Ok_iff now) in F as [es Hes].
    unfold makePluginConfiguration in E. rewrite Hes in E. discriminate E.
Qed.

(** Whether a start creates the socket. *)
Lemma start_socket (app : App) (now : Z) (options : Raw.Options) :
  hostSocket (start app now options)
  = match Raw.endpoints options with
    | [] => None
    | _ :: _ =>
        if forallb (normalizable options) (Raw.endpoints options)
        then Some true else None
    end.
Proof.
  unfold start.
  pose proof (makePluginConfiguration_outcome app now options) as H.
  destruct (makePluginConfiguration app now options) as [cfg | m].
  - destruct H as [-> Hlen].
    destruct (endpoints cfg), (Raw.endpoints options);
      try discriminate Hlen; reflexivity.
  - rewrite H. now destruct (Raw.endpoints options).
Qed.

(** X21. Starting a freshly loaded plugin arms the heartbeat exactly when
    the options list at least one endpoint and every endpoint option is
    acceptable to normalization; the plugin then holds the canonical
    configuration, an open socket, tick counter 0 and the status text
    'Reporting to ...'. With no endpoint configured the status is
    'Stopped: no configured endpoints'; with an unacceptable endpoint it
    is 'Stopped: configuration error' and no configuration is kept. In
    both cases no socket is created. *)
Theorem start_arms_heartbeat_iff_endpoints_normalize :
  forall (app : App) (now : Z) (options : Raw.Options),
    let h := start app now options in
    (Raw.endpoints options = [] ->
     reporting h = None /\ hostSocket h = None
     /\ defaultStatus h = "Stopped: no configured endpoints"
     /\ exists cfg, hostConfiguration h = Some cfg /\ endpoints cfg = [])
    /\ (forallb (normalizable options) (Raw.endpoints options) = false ->
        reporting h = None /\ hostSocket h = None
        /\ defaultStatus h = "Stopped: configuration error"
        /\ hostConfiguration h = None)
    /\ (Raw.endpoints options <> [] ->
        forallb (normalizable options) (Raw.endpoints options) = true ->
        exists cfg,
          makePluginConfiguration app now options = Ok cfg
          /\ reporting h = Some (started_plugin cfg)
          /\ hostSocket h = Some true
          /\ hostConfiguration h = Some cfg
          /\ defaultStatus h = reportingStatus (endpoints cfg)).
Proof.
  intros app now options h. subst h. unfold start.
  pose proof (makePluginConfiguration_outcome app now options) as H.
  destruct (makePluginConfiguration app now options) as [cfg | m].
  - destruct H as [Hall Hlen]. split; [| split].
    + intro Hnone. rewrite Hnone in Hlen.
      destruct (endpoints cfg) eqn:E; [| discriminate Hlen].
      repeat split. now exists cfg.
    + intro Hbad. congruence.
    + intros Hsome _. exists cfg.
      destruct (endpoints cfg) as [| e es] eqn:E.
      * destruct (Raw.endpoints options); [congruence | discriminate Hlen].
      * repeat split.
  - split; [| split].
    + intro Hnone. rewrite Hnone in H. discriminate H.
    + intros _. repeat split.
    + intros _ Hall. congruence.
Qed.

Lemma start_arms_heartbeat_iff_endpoints_normalize_witness :
  reporting (start Sample.app Sample.startTime Sample.globalStaticOptions)
  = None
  /\ defaultStatus (start Sample.app Sample.startTime Sample.options)
     = "Reporting to 1 endpoint ('marinetraffic')".
Proof.
  split.
  - refine (proj1 (proj1 (proj2
      (start_arms_heartbeat_iff_endpoints_normalize Sample.app
         Sample.startTime Sample.globalStaticOptions)) _)).
    reflexivity.
  - destruct (proj2 (proj2
      (start_arms_heartbeat_iff_endpoints_normalize Sample.app
         Sample.startTime Sample.options)) ltac:(discriminate) eq_refl)
      as [cfg (Hcfg & _ & _ & _ & Hstatus)].
    rewrite Hstatus. inversion Hcfg. reflexivity.
Defined.

Section Stopping.

Variable Fields : Type.
Variable AisEncode : AisProperties Fields -> option string.

Lemma hostHeartbeats_keep_socket (ticks : list (Tick Fields)) (h : Host) :
  let h' := fold_left (hostHeartbeat AisEncode) ticks h in
  hostSocket h' = hostSocket h
  /\ (reporting h' = None <-> reporting h = None).
Proof.
  revert h. induction ticks as [| tick ticks IH]; intro h; cbn zeta;
    cbn [fold_left].
  - split; reflexivity.
  - destruct (IH (hostHeartbeat AisEncode h tick)) as [Hs Hr].
    cbn zeta in Hs, Hr. rewrite Hs, Hr. unfold hostHeartbeat.
    destruct (reporting h) eqn:E; cbn; split; try reflexivity;
      split; intro; congruence.
Qed.

(** X22. Stopping a plugin whose start did not arm the heartbeat (no
    endpoint configured, or a configuration error) throws a TypeError,
    because no socket was ever created. Stopping a reporting plugin, after
    any number of heartbeats, succeeds: the heartbeat is disarmed, the
    socket is closed, the configuration with its statistics is kept, and
    later timer ticks do nothing. *)
Theorem stop_throws_unless_reporting :
  forall (app : App) (now : Z) (options : Raw.Options)
         (ticks : list (Tick Fields)),
    let h := fold_left (hostHeartbeat AisEncode) ticks
               (start app now options) in
    (Raw.endpoints options = []
     \/ forallb (normalizable options) (Raw.endpoints options) = false ->
     stop h = Throw typeError)
    /\ (Raw.endpoints options <> [] ->
        forallb (normalizable options) (Raw.endpoints options) = true ->
        exists h',
          stop h = Ok h'
          /\ reporting h' = None /\ hostSocket h' = Some false
          /\ hostConfiguration h' = hostConfiguration h
          /\ forall tick, hostHeartbeat AisEncode h' tick = h').
Proof.
  intros app now options ticks h.
  destruct (hostHeartbeats_keep_socket ticks (start app now options))
    as [Hsock _].
  cbn zeta in Hsock. fold h in Hsock.
  rewrite (start_socket app now options) in Hsock.
  split.
  - intros [H | H]; unfold stop; rewrite Hsock.
    + now rewrite H.
    + rewrite H. now destruct (Raw.endpoints options).
  - intros Hsome Hall. unfold stop. rewrite Hsock, Hall.
    destruct (Raw.endpoints options); [congruence |].
    eexists. split; [reflexivity |]. repeat split.
Qed.

End Stopping.

Lemma stop_throws_unless_reporting_witness :
  stop (fold_left (hostHeartbeat Sample.encodeAll) []
          (start Sample.app Sample.startTime Sample.globalStaticOptions))
  = Throw typeError.
Proof.
  refine (proj1 (@stop_throws_unless_reporting unit Sample.encodeAll
                   Sample.app Sample.startTime Sample.globalStaticOptions [])
            _).
  right. reflexivity.
Defined.

(** ** The timer-driven implementation *)

Lemma timed_orNumber_nonzero (a b : option Z) (d : Z) :
  d <> 0 -> Timed.orNumber a b d <> 0.
Proof.
  intro Hd. unfold Timed.orNumber.
  destruct a as [x |], b as [y |];
    repeat match goal with
           | |- context [?z =? 0] => destruct (Z.eqb_spec z 0)
           end; assumption.
Qed.

Lemma timed_makeEndpoint_Ok (options : Timed.Options)
    (opt : Timed.EndpointOption) (e : Timed.Endpoint) :
  Timed.makeEndpoint options opt = Ok e ->
  Timed.reportSelf e = true
  /\ Timed.positionUpdateInterval e <> 0
  /\ Timed.staticDataUpdateInterval e <> 0
  /\ Timed.expiryInterval e <> 0
  /\ Timed.intervalIds e = [].
Proof.
  unfold Timed.makeEndpoint.
  destruct (Timed.ipaddress opt) as [[| c s] |]; try discriminate.
  destruct (Timed.port opt) as [p |]; try discriminate.
  destruct (p =? 0); try discriminate.
  intro H. injection H as <-. cbn. repeat split.
  - unfold Timed.orBoolean.
    destruct (Timed.reportself opt) as [[|] |];
      destruct (Timed.globalReportself options) as [[|] |]; reflexivity.
  - apply timed_orNumber_nonzero. discriminate.
  - apply timed_orNumber_nonzero. discriminate.
  - apply timed_orNumber_nonzero. discriminate.
Qed.

Lemma timed_makeEndpoints_Ok (options : Timed.Options)
    (opts : list Timed.EndpointOption) (es : list Timed.Endpoint) :
  Timed.makeEndpoints options opts = Ok es ->
  Forall2 (fun opt e => Timed.makeEndpoint options opt = Ok e) opts es.
Proof.
  revert es. induction opts as [| opt opts IH]; intros es H;
    cbn [Timed.makeEndpoints] in H.
  - inversion H. constructor.
  - apply bind_Ok in H as (e & He & H).
    apply bind_Ok in H as (es' & Hes & H).
    inversion H; subst es. constructor; [exact He | now apply IH].
Qed.

(** X23. In the timer-driven implementation a configured [false] or [0]
    cannot take effect, because a falsy value falls through to the next
    alternative of [a || b || default]: every normalized endpoint reports
    the own vessel ([reportSelf] is true whatever the options say), and
    its position interval, static interval and expiry interval are never
    0. *)
Theorem timed_normalization_ignores_false_and_zero :
  forall (options : Timed.Options) (es : list Timed.Endpoint),
    Timed.makePluginConfiguration options = Ok es ->
    Forall
      (fun e =>
         Timed.reportSelf e = true
         /\ Timed.positionUpdateInterval e <> 0
         /\ Timed.staticDataUpdateInterval e <> 0
         /\ Timed.expiryInterval e <> 0)
      es.
Proof.
  intros options es H. unfold Timed.makePluginConfiguration in H.
  apply timed_makeEndpoints_Ok in H.
  induction H as [| opt e opts es He _ IH]; constructor.
  - apply timed_makeEndpoint_Ok in He. tauto.
  - exact IH.
Qed.

Lemma timed_normalization_ignores_false_and_zero_witness :
  Forall
    (fun e =>
       Timed.reportSelf e = true
       /\ Timed.positionUpdateInterval e <> 0
       /\ Timed.staticDataUpdateInterval e <> 0
       /\ Timed.expiryInterval e <> 0)
    [ {| Timed.endpointName := None;
         Timed.endpointAddress := "10.0.0.1";
         Timed.endpointPort := 2000;
         Timed.positionUpdateInterval := 120;
         Timed.staticDataUpdateInterval := 600;
         Timed.expiryInterval := 900;
         Timed.reportSelf := true;
         Timed.reportOthers := false;
         Timed.lastReportTimestamp := None;
         Timed.positionReportCount := 0;
         Timed.staticReportCount := 0;
         Timed.intervalIds := [] |} ].
Proof.
  exact (@timed_normalization_ignores_false_and_zero
           (Timed.sampleOptions (Some 0) (Some 0)) _ eq_refl).
Defined.

(** X24. In the timer-driven implementation the static timer of an
    endpoint is never faster than its position timer: for every
    normalized endpoint, a static timer is armed only together with a
    position timer, its period is the larger of the two configured
    intervals (in milliseconds), and the endpoint's static interval is
    raised to the position interval when it was smaller. *)
Theorem timed_static_timer_never_faster_than_position :
  forall (options : Timed.Options) (es : list Timed.Endpoint),
    Timed.makePluginConfiguration options = Ok es ->
    Forall
      (fun e =>
         let e' := Timed.armTimers e in
         forall t,
           In t (Timed.intervalIds e') ->
           Timed.kind t = Timed.StaticReports ->
           In {| Timed.kind := Timed.PositionReports;
                 Timed.period := Timed.positionUpdateInterval e * 1000 |}
             (Timed.intervalIds e')
           /\ Timed.period t
              = Z.max (Timed.staticDataUpdateInterval e)
                  (Timed.positionUpdateInterval e) * 1000
           /\ Timed.positionUpdateInterval e * 1000 <= Timed.period t
           /\ Timed.staticDataUpdateInterval e'
              = Z.max (Timed.staticDataUpdateInterval e)
                  (Timed.positionUpdateInterval e))
      es.
Proof.
  intros options es H. unfold Timed.makePluginConfiguration in H.
  apply timed_makeEndpoints_Ok in H.
  induction H as [| opt e opts es He _ IH]; constructor; [| exact IH].
  apply timed_makeEndpoint_Ok in He as (_ & _ & _ & _ & Hids).
  cbv zeta. intros t Hin Hkind. unfold Timed.armTimers in *.
  rewrite Hids in *.
  destruct (Z.ltb_spec 0 (Timed.positionUpdateInterval e)) as [Hp | Hp];
    destruct (Z.ltb_spec 0 (Timed.staticDataUpdateInterval e)) as [Hs | Hs];
    cbn [andb Timed.intervalIds Timed.staticDataUpdateInterval app] in *.
  - destruct Hin as [<- | [<- | []]]; [discriminate Hkind |].
    cbn [Timed.period].
    destruct (Z.ltb_spec (Timed.staticDataUpdateInterval e)
                (Timed.positionUpdateInterval e));
      (split; [now left |]); repeat split; lia.
  - destruct Hin as [<- | []]. discriminate Hkind.
  - destruct Hin.
  - destruct Hin.
Qed.

Lemma timed_static_timer_never_faster_than_position_witness :
  Timed.staticDataUpdateInterval
    (Timed.armTimers
       {| Timed.endpointName := None;
          Timed.endpointAddress := "10.0.0.1";
          Timed.endpointPort := 2000;
          Timed.positionUpdateInterval := 300;
          Timed.staticDataUpdateInterval := 60;
          Timed.expiryInterval := 900;
          Timed.reportSelf := true;
          Timed.reportOthers := false;
          Timed.lastReportTimestamp := None;
          Timed.positionReportCount := 0;
          Timed.staticReportCount := 0;
          Timed.intervalIds := [] |})
  = Z.max 60 300.
Proof.
  pose proof (@timed_static_timer_never_faster_than_position
                (Timed.sampleOptions (Some 300) (Some 60)) _ eq_refl) as H.
  apply Forall_inv in H. cbv zeta in H.
  destruct (H {| Timed.kind := Timed.StaticReports; Timed.period := 300000 |})
    as (_ & _ & _ & Hs).
  - right. left. reflexivity.
  - reflexivity.
  - exact Hs.
Defined.
